(** * IMDb popularity video-games scraper: model and properties

    A shallow embedding of [src/main.py] and [src/scraping.py].

    The browser, the network and the file system are outside the
    program: every Selenium or [requests] call is answered by an oracle
    (a field of [World]) that says what the call returned or which
    exception it raised.  What the repository does with those answers --
    which exceptions it catches, which defaults it substitutes, which rows
    it appends, how it batches and what it saves -- is translated from
    the source statement by statement. *)

From Stdlib Require Import List String Ascii ZArith Bool Arith Lia Permutation.
Import ListNotations.
Local Open Scope string_scope.
Local Open Scope Z_scope.

(* ===================================================================== *)
(** * Python values, exceptions and control flow                          *)
(* ===================================================================== *)

Module Py.

(** The [Exception] subclasses that the two source files name or can
    provoke.  [TimeoutException] and [NoSuchElementException] are
    subclasses of selenium's [WebDriverException];
    [OtherWebDriverException] stands for every remaining subclass.
    [PlainException] is what [check_page_content] raises with
    [raise Exception(...)]. *)
Inductive error : Type :=
| TimeoutException
| NoSuchElementException
| OtherWebDriverException
| ValueError
| IndexError
| AttributeError
| TypeError
| PlainException (msg : string).

(** What can be raised: [sys.exit] raises [SystemExit], which is a
    [BaseException] but not an [Exception]. *)
Inductive exn : Type :=
| SystemExit (msg : string)
| Error (e : error).

(** What a call into the outside world (browser, network, text parsing
    of what the browser returned) answers: a value or an [Exception]. *)
Inductive answer (A : Type) : Type :=
| Returned (a : A)
| Raised (e : error).
Arguments Returned {A} a.
Arguments Raised {A} e.

(** [except WebDriverException] *)
Definition is_WebDriverException (e : exn) : bool :=
  match e with
  | Error TimeoutException | Error NoSuchElementException
  | Error OtherWebDriverException => true
  | _ => false
  end.

(** [except TimeoutException] *)
Definition is_TimeoutException (e : exn) : bool :=
  match e with Error TimeoutException => true | _ => false end.

(** [except NoSuchElementException] *)
Definition is_NoSuchElementException (e : exn) : bool :=
  match e with Error NoSuchElementException => true | _ => false end.

(** [except (NoSuchElementException, ValueError)] *)
Definition is_NoSuchElement_or_ValueError (e : exn) : bool :=
  match e with Error NoSuchElementException | Error ValueError => true | _ => false end.

(** [except (NoSuchElementException, IndexError)] *)
Definition is_NoSuchElement_or_IndexError (e : exn) : bool :=
  match e with Error NoSuchElementException | Error IndexError => true | _ => false end.

(** [except Exception]: everything but [SystemExit]. *)
Definition is_Exception (e : exn) : bool :=
  match e with SystemExit _ => false | Error _ => true end.

(** A bare [except:] catches everything, [SystemExit] included. *)
Definition bare_except (_ : exn) : bool := true.

(** Outcome of evaluating an expression or a block. *)
Inductive res (A : Type) : Type :=
| Ok (a : A)
| Raise (e : exn).
Arguments Ok {A} a.
Arguments Raise {A} e.

(** Values that end up in a pandas Series, a row or a DataFrame cell. *)
#[local] Set Warnings "-register-all".
Inductive pyval : Type :=
| PyNone
| PyNaN
| PyInt (z : Z)
| PyStr (s : string)
| PyDatetime (s : string)
| PyList (l : list pyval)
| PyDict (d : list (pyval * pyval)).

(** Element-wise [Series.isna()] on an object Series: [None] and NaN are
    missing, containers (also empty ones) are not. *)
Definition isna (v : pyval) : bool :=
  match v with PyNone | PyNaN => true | _ => false end.

(** Truth value used by [if v:]. *)
Definition truthy (v : pyval) : bool :=
  match v with
  | PyNone => false
  | PyNaN => true
  | PyInt z => negb (z =? 0)
  | PyStr s => negb (String.eqb s "")
  | PyDatetime _ => true
  | PyList l => match l with [] => false | _ => true end
  | PyDict d => match d with [] => false | _ => true end
  end.

Definition strs (l : list string) : pyval := PyList (map PyStr l).

Definition of_option (o : option string) : pyval :=
  match o with Some s => PyStr s | None => PyNone end.

(** [needle in hay] on strings. *)
Fixpoint contains (needle hay : string) : bool :=
  if String.prefix needle hay then true
  else match hay with
       | EmptyString => false
       | String _ r => contains needle r
       end.

(** [l[:n]] for an [n] that is [None] or an integer (negative integers
    count from the end). *)
Definition slice_to {A} (l : list A) (n : option Z) : list A :=
  match n with
  | None => l
  | Some z =>
      if z <? 0
      then firstn (List.length l - Z.to_nat (- z))%nat l
      else firstn (Z.to_nat z) l
  end.

(** [l[i:j]] for non-negative [i <= j]. *)
Definition slice {A} (l : list A) (i j : nat) : list A :=
  firstn (j - i)%nat (skipn i l).

(** [list(range(0, stop, step))] for a positive [step]: it has
    [ceil(stop / step)] elements. *)
Definition range_step (stop step : nat) : list nat :=
  map (fun k => (k * step)%nat) (seq 0 ((stop + step - 1) / step)%nat).

(** [range(z)] iterates [max z 0] times. *)
Definition range_len (z : Z) : nat := Z.to_nat z.

End Py.
Export Py.

(* ===================================================================== *)
(** * Observable effects and the scraper's mutable state                  *)
(* ===================================================================== *)

(** Colour of a printed line: the source marks warnings with the ANSI
    code 33 (yellow), errors with 31 (red), successes with 32 (green). *)
Inductive colour : Type := Plain | Yellow | Red | Green.

(** A dict literal or a DataFrame record, in insertion order. *)
Definition Row : Type := list (string * pyval).

(** What a saved dataset file holds, cell by cell: the records of the
    JSON array, or the header and the lines of the CSV table. *)
Inductive file_content : Type :=
| JsonRecords (records : list Row)
| CsvTable (header : list string) (lines : list (list pyval)).

Inductive event : Type :=
| EvGet (url : pyval)                           (* driver.get(url) *)
| EvClick                                       (* click_see_more_button() *)
| EvQuit                                        (* driver.quit() *)
| EvPrint (c : colour) (text : string)          (* print(...) *)
| EvTraceback (e : exn)                         (* a thread died with e *)
| EvHttpGet (url : pyval)                       (* requests.get(url) *)
| EvWriteImage (url title : pyval)              (* open(path, "wb") ... *)
| EvWriteDataset (path : string) (c : file_content)
| EvSleep.                                      (* time.sleep(...) *)

(** [self.data] and everything the run has done so far. *)
Record state : Type := mkState {
  data : list Row;
  trace : list event
}.

(** State and exceptions: the state reached when an exception is raised is
    kept, as in Python. *)
Definition M (A : Type) : Type := state -> res A * state.

Definition ret {A} (a : A) : M A := fun s => (Ok a, s).

Definition raise {A} (e : exn) : M A := fun s => (Raise e, s).

Definition bind {A B} (m : M A) (f : A -> M B) : M B :=
  fun s => match m s with
           | (Ok a, s') => f a s'
           | (Raise e, s') => (Raise e, s')
           end.

Notation "x <- m ;; k" := (bind m (fun x => k))
  (at level 61, m at next level, right associativity).
Notation "m ;;; k" := (bind m (fun _ => k))
  (at level 61, right associativity).

Definition emit (ev : event) : M unit :=
  fun s => (Ok tt, mkState (data s) (trace s ++ [ev])).

Definition print (c : colour) (text : string) : M unit := emit (EvPrint c text).

(** The answer of the outside world to a call. *)
Definition ask {A} (r : answer A) : M A :=
  fun s => match r with
           | Returned a => (Ok a, s)
           | Raised e => (Raise (Error e), s)
           end.

(** One [except <classes> as e: handler] clause: the test says whether
    the clause's classes match the exception. *)
Definition clause (A : Type) : Type := ((exn -> bool) * (exn -> M A))%type.

Fixpoint select_clause {A} (clauses : list (clause A)) (e : exn) : option (M A) :=
  match clauses with
  | [] => None
  | (matches, handler) :: rest =>
      if matches e then Some (handler e) else select_clause rest e
  end.

(** [try: body  except ...: ...  except ...: ...]: the first matching
    clause runs; an exception that no clause matches goes on. *)
Definition try_except {A} (body : M A) (clauses : list (clause A)) : M A :=
  fun s => match body s with
           | (Raise e, s') =>
               match select_clause clauses e with
               | Some handler => handler s'
               | None => (Raise e, s')
               end
           | ok => ok
           end.

(** [try: body  finally: cleanup]. *)
Definition try_finally {A} (body : M A) (cleanup : M unit) : M A :=
  fun s => match body s with
           | (r, s') =>
               match cleanup s' with
               | (Ok _, s'') => (r, s'')
               | (Raise e, s'') => (Raise e, s'')
               end
           end.

(** [for x in l: f x] *)
Fixpoint for_each {A} (l : list A) (f : A -> M unit) : M unit :=
  match l with
  | [] => ret tt
  | x :: rest => f x ;;; for_each rest f
  end.

(** [[f x for x in l]] *)
Fixpoint map_m {A B} (f : A -> M B) (l : list A) : M (list B) :=
  match l with
  | [] => ret []
  | x :: rest => y <- f x ;; ys <- map_m f rest ;; ret (y :: ys)
  end.

(** [self.data.append(row)] *)
Definition append_row (row : Row) : M unit :=
  fun s => (Ok tt, mkState (data s ++ [row]) (trace s)).

(* ===================================================================== *)
(** * main.py                                                             *)
(* ===================================================================== *)

Module Main.

(** The builtin [int(s)] on short ASCII text: surrounding whitespace, an
    optional sign, decimal digits, single underscores between digits.  It
    is not Python's [int] everywhere (Python also reads digits that are
    not ASCII, and refuses text of more than 4300 digits): the theorems
    take [int] as a parameter, and this one only serves in examples. *)
Definition is_space (c : ascii) : bool :=
  let n := nat_of_ascii c in
  ((9 <=? n) && (n <=? 13) || (28 <=? n) && (n <=? 32))%nat.

Definition is_digit (c : ascii) : bool :=
  let n := nat_of_ascii c in ((48 <=? n) && (n <=? 57))%nat.

Definition digit_val (c : ascii) : Z := Z.of_nat (nat_of_ascii c) - 48.

Fixpoint lstrip (s : string) : string :=
  match s with
  | String c r => if is_space c then lstrip r else s
  | EmptyString => EmptyString
  end.

Fixpoint rev_string (acc s : string) : string :=
  match s with
  | EmptyString => acc
  | String c r => rev_string (String c acc) r
  end.

Definition strip (s : string) : string :=
  rev_string "" (lstrip (rev_string "" (lstrip s))).

Fixpoint digits (acc : Z) (after_digit : bool) (s : string) : option Z :=
  match s with
  | EmptyString => if after_digit then Some acc else None
  | String c r =>
      if is_digit c then digits (10 * acc + digit_val c) true r
      else if (Ascii.eqb c "_" && after_digit)%bool then digits acc false r
      else None
  end.

Definition ascii_int (s : string) : option Z :=
  match strip s with
  | String "-" r => option_map Z.opp (digits 0 false r)
  | String "+" r => digits 0 false r
  | r => digits 0 false r
  end.

Section ProcessArguments.

(** [int] is a builtin; [process_arguments] is stated for any
    implementation of it ([None] = it raised [ValueError]). *)
Variable py_int : string -> option Z.

Definition int_ (s : string) : M Z :=
  match py_int s with
  | Some z => ret z
  | None => raise (Error ValueError)
  end.

Definition sys_exit {A} (msg : string) : M A := raise (SystemExit msg).

(** [args[i]] of a list that is long enough. *)
Definition arg (args : list string) (i : nat) : string := nth i args "".

Definition process_arguments (args : list string)
  : M (option Z * option string * bool) :=
  if (4 <? List.length args)%nat then
    sys_exit "ERROR: too many arguments"
  else if (List.length args =? 2)%nat then
    try_except
      (n <- int_ (arg args 1) ;;
       if n <? 0
       then sys_exit "ERROR: Invalid argument. n must can't be negative "
       else ret (Some n, None, false))
      [(bare_except,
        fun _ => sys_exit "ERROR: Invalid argument. n must be an integer")]
  else if (List.length args =? 3)%nat then
    try_except
      (n <- int_ (arg args 1) ;;
       let dwl_type := arg args 2 in
       if n <? 0
       then sys_exit "ERROR: Invalid argument. n must be positive"
       else ret (Some n, Some dwl_type, false))
      [(bare_except,
        fun _ => sys_exit "ERROR: Invalid argument. n must be an integer")]
  else if (List.length args =? 4)%nat then
    try_except
      (n <- int_ (arg args 1) ;;
       let dwl_type := arg args 2 in
       let dwl_imgs := negb (String.eqb (arg args 3) "") in
       if n <? 0
       then sys_exit "ERROR: Invalid argument. n must be positive"
       else ret (Some n, Some dwl_type, dwl_imgs))
      [(bare_except,
        fun _ => sys_exit "ERROR: Invalid argument. n must be an integer")]
  else
    ret (None, None, false).

End ProcessArguments.

End Main.

(* ===================================================================== *)
(** * scraping.py: the page scrapers                                      *)
(* ===================================================================== *)

Module Pages.

(** ** What the browser answers

    One field per call (or per [try] body) of the source; text
    post-processing by [re], [str] and [datetime] of what the browser
    returned is part of the answer. *)

(** The advanced-search page. *)
Record SearchPage : Type := {
  sp_user_agent : answer string;   (* execute_script('return navigator.userAgent;') *)
  sp_get : answer unit;            (* driver.get(self.url) *)
  sp_titles_len : answer N;        (* the count read by "of\s+([\d,]+)" *)
  sp_click : nat -> answer unit;   (* the i-th click_see_more_button() *)
  sp_hrefs : list pyval * option error;
    (* the hrefs appended by the loop, and what ended it early *)
  sp_rankings : list string * option error
    (* the rankings appended by the loop, and what ended it early *)
}.

(** A title page. *)
Record TitlePage : Type := {
  tp_get : answer string;                 (* driver.get(url); driver.title *)
  tp_title : answer string;
  tp_release_date : answer string;        (* parsed by strptime *)
  tp_countries : answer (list string);
  tp_sites : answer (list string);
  tp_languages : answer (list string);
  tp_companies : answer (list string);
  tp_top_cast : answer (list string);
  tp_award_numbers : answer (list string);  (* re.findall(r"\d+", txt) *)
  tp_genres : answer (list string);
  tp_parent_c_url : answer (option string);
  tp_ratings_url : answer (option string);
  tp_images_url : answer (option string)
}.

(** What [check_page_content] reads. *)
Record PageHead : Type := {
  ph_get : answer unit;             (* driver.get(url) *)
  ph_page_source : answer string;   (* driver.page_source *)
  ph_title : answer string          (* driver.title *)
}.

Record RatingsPage : Type := {
  rp_head : PageHead;
  rp_rating : answer string;
  rp_votes : Z -> answer string     (* the votes in parentheses of bar i *)
}.

Record ParentsPage : Type := {
  pp_head : PageHead;
  pp_advisory : string -> answer string
}.

Record ImagesPage : Type := {
  ip_head : PageHead;
  ip_poster_src : answer (option string)
}.

(** ** The Series the scrapers return *)

Record SearchData : Type := {
  titles_url : list pyval;
  rankings : list string
}.

Record TitleData : Type := {
  td_title : pyval;
  td_release_date : pyval;
  td_countries : pyval;
  td_sites : pyval;
  td_languages : pyval;
  td_companies : pyval;
  td_top_cast : pyval;
  td_nominations : pyval;
  td_awards : pyval;
  td_genres : pyval;
  td_parent_c_url : pyval;
  td_ratings_url : pyval;
  td_images_url : pyval
}.

Record RatingsData : Type := {
  rating : pyval;
  user_ratings : pyval
}.

Record ParentsData : Type := { parental_guide : pyval }.

Record ImagesData : Type := { poster_url : pyval }.

(** [title = release_date = ... = images_url = None] *)
Definition title_all_none : TitleData :=
  {| td_title := PyNone; td_release_date := PyNone; td_countries := PyNone;
     td_sites := PyNone; td_languages := PyNone; td_companies := PyNone;
     td_top_cast := PyNone; td_nominations := PyNone; td_awards := PyNone;
     td_genres := PyNone; td_parent_c_url := PyNone; td_ratings_url := PyNone;
     td_images_url := PyNone |}.

(** [scraped_title_data.isna().all()] *)
Definition title_isna_all (d : TitleData) : bool :=
  forallb isna
    [td_title d; td_release_date d; td_countries d; td_sites d;
     td_languages d; td_companies d; td_top_cast d; td_nominations d;
     td_awards d; td_genres d; td_parent_c_url d; td_ratings_url d;
     td_images_url d].

Definition search_url : string :=
  "https://www.imdb.com/search/title/?title_type=video_game&adult=include".

(** ** check_page_content *)

Definition check_page_content (h : PageHead) (page_name : string)
    (imdb_expected : bool) : M unit :=
  source <- ask (ph_page_source h) ;;
  if contains "No results found." source
  then raise (Error (PlainException "No results found."))
  else
    (if imdb_expected
     then t <- ask (ph_title h) ;;
          if negb (contains "IMDb" t)
          then raise (Error (PlainException "IMDb not found in page title."))
          else ret tt
     else ret tt) ;;;
    t <- ask (ph_title h) ;;
    if negb (contains page_name t)
    then raise (Error (PlainException (page_name ++ " not found in page title.")))
    else ret tt.

(** ** scrap_adv_search_page *)

(** The local variables that the [finally] block reads. *)
Record locals : Type := {
  l_n : option Z;
  l_titles_url : list pyval;
  l_rankings : list string
}.

(** [for _ in range(count): try: click  except WebDriverException: continue];
    the answer is the exception that leaves the loop, if any. *)
Fixpoint click_loop (sp : SearchPage) (i count : nat) : M (option exn) :=
  match count with
  | O => ret None
  | S count' =>
      emit EvClick ;;;
      match sp_click sp i with
      | Returned _ =>
          print Plain "50 more Video Games loaded" ;;;
          click_loop sp (S i) count'
      | Raised e =>
          if is_WebDriverException (Error e)
          then print Yellow
                 "Warn: WebDriverException occurred while clicking 'See More' button" ;;;
               click_loop sp (S i) count'
          else ret (Some (Error e))
      end
  end.

(** An inner [try: for ...: append  except Exception: print]. *)
Definition warn_if_ended (ended : option error) (text : string) : M unit :=
  match ended with
  | Some _ => print Yellow text
  | None => ret tt
  end.

(** [not n or n > titles_len] *)
Definition wants_all (n : option Z) (titles_len : Z) : bool :=
  match n with
  | None => true
  | Some z => (z =? 0) || (titles_len <? z)
  end.

(** The [try] body: the locals when it is left, and the exception that
    left it, if any. *)
Definition adv_search_try (n0 : option Z) (sp : SearchPage)
    : M (locals * option exn) :=
  emit (EvGet (PyStr search_url)) ;;;
  match sp_get sp with
  | Raised e => ret (Build_locals n0 [] [], Some (Error e))
  | Returned _ =>
      match sp_titles_len sp with
      | Raised e => ret (Build_locals n0 [] [], Some (Error e))
      | Returned titles_len =>
          let titles_len := Z.of_N titles_len in
          let n := if wants_all n0 titles_len then titles_len
                   else match n0 with Some z => z | None => titles_len end in
          left_by <- click_loop sp 0 (range_len (n / 50)) ;;
          match left_by with
          | Some e => ret (Build_locals (Some n) [] [], Some e)
          | None =>
              warn_if_ended (snd (sp_hrefs sp))
                "Warn: Exception while getting some titles url" ;;;
              warn_if_ended (snd (sp_rankings sp))
                "Warn: Exception while getting the ranking" ;;;
              ret (Build_locals (Some n) (fst (sp_hrefs sp)) (fst (sp_rankings sp)),
                   None)
          end
      end
  end.

(** [n != len(titles_url)] *)
Definition differs (n : option Z) (len : nat) : bool :=
  match n with
  | None => true
  | Some z => negb (z =? Z.of_nat len)
  end.

Definition scrap_adv_search_page (n0 : option Z) (sp : SearchPage)
    : M SearchData :=
  ua <- ask (sp_user_agent sp) ;;
  print Plain ("User-Agent to scrape the initial web page is " ++ ua) ;;;
  out <- adv_search_try n0 sp ;;
  let (loc, left_by) := out in
  (* except TimeoutException / except WebDriverException *)
  pending <-
    match left_by with
    | None => ret None
    | Some e =>
        if is_TimeoutException e
        then print Yellow "Warn: Scraping timed out" ;;; ret None
        else if is_WebDriverException e
        then print Yellow "Warn: WebDriverException occurred while scraping" ;;;
             ret None
        else ret (Some e)
    end ;;
  (* finally *)
  let titles := slice_to (l_titles_url loc) (l_n loc) in
  let ranks := slice_to (l_rankings loc) (l_n loc) in
  (if differs (l_n loc) (List.length titles)
   then print Red "Error: Expected n titles, but scraped another number."
   else ret tt) ;;;
  emit EvQuit ;;;
  match pending with
  | Some e => raise e
  | None => ret {| titles_url := titles; rankings := ranks |}
  end.

(** ** scrap_titles_page *)

(** [try: v = <call>  except <classes>: v = None] *)
Definition attempt {A} (call : answer A) (wrap : A -> pyval)
    (matches : exn -> bool) : M pyval :=
  try_except (v <- ask call ;; ret (wrap v))
             [(matches, fun _ => ret PyNone)].

(** [numbers_in_txt[0] if len(numbers_in_txt) == 2 else 0] *)
Definition awards_of (numbers_in_txt : list string) : pyval :=
  match numbers_in_txt with
  | [a; _] => PyStr a
  | _ => PyInt 0
  end.

(** [numbers_in_txt[1] if len(numbers_in_txt) == 2 else
     (numbers_in_txt[0] if len(numbers_in_txt) == 1 else 0)] *)
Definition nominations_of (numbers_in_txt : list string) : pyval :=
  match numbers_in_txt with
  | [_; b] => PyStr b
  | [a] => PyStr a
  | _ => PyInt 0
  end.

Definition titles_try (url : pyval) (pg : TitlePage) : M TitleData :=
  emit (EvGet url) ;;;
  page_title <- ask (tp_get pg) ;;
  print Plain ("Scraping " ++ page_title) ;;;
  title <- attempt (tp_title pg) PyStr is_NoSuchElementException ;;
  release_date <- attempt (tp_release_date pg) PyDatetime
                    is_NoSuchElement_or_ValueError ;;
  countries <- attempt (tp_countries pg) strs is_NoSuchElementException ;;
  sites <- attempt (tp_sites pg) strs is_NoSuchElementException ;;
  languages <- attempt (tp_languages pg) strs is_NoSuchElementException ;;
  companies <- attempt (tp_companies pg) strs is_NoSuchElementException ;;
  top_cast <- attempt (tp_top_cast pg) strs is_NoSuchElementException ;;
  awards_nominations <-
    try_except
      (numbers_in_txt <- ask (tp_award_numbers pg) ;;
       ret (awards_of numbers_in_txt, nominations_of numbers_in_txt))
      [(is_NoSuchElement_or_IndexError, fun _ => ret (PyNone, PyNone))] ;;
  genres <- attempt (tp_genres pg) strs is_NoSuchElementException ;;
  parent_c_url <- attempt (tp_parent_c_url pg) of_option is_NoSuchElementException ;;
  ratings_url <- attempt (tp_ratings_url pg) of_option is_NoSuchElementException ;;
  images_url <- attempt (tp_images_url pg) of_option is_NoSuchElementException ;;
  ret {| td_title := title; td_release_date := release_date;
         td_countries := countries; td_sites := sites;
         td_languages := languages; td_companies := companies;
         td_top_cast := top_cast;
         td_nominations := snd awards_nominations;
         td_awards := fst awards_nominations;
         td_genres := genres; td_parent_c_url := parent_c_url;
         td_ratings_url := ratings_url; td_images_url := images_url |}.

Definition scrap_titles_page (url : pyval) (pg : TitlePage) : M TitleData :=
  try_finally
    (try_except (titles_try url pg)
       [(is_TimeoutException,
         fun _ => print Yellow "t_Warn: Scraping timed out" ;;;
                  ret title_all_none);
        (is_WebDriverException,
         fun _ => print Yellow "t_Warn: WebDriverException occurred while scraping" ;;;
                  ret title_all_none)])
    (emit EvQuit).

(** ** scrap_ratings_page *)

(** [range(10, 0, -1)] *)
Definition ten_down_to_one : list Z := [10; 9; 8; 7; 6; 5; 4; 3; 2; 1].

Definition ratings_try (url : pyval) (pg : RatingsPage) : M RatingsData :=
  emit (EvGet url) ;;;
  ask (ph_get (rp_head pg)) ;;;
  check_page_content (rp_head pg) "Ratings" true ;;;
  rating <- attempt (rp_rating pg) PyStr is_NoSuchElementException ;;
  user_ratings <-
    map_m (fun i =>
             v <- try_except
                    (user_rating <- ask (rp_votes pg i) ;; ret (PyStr user_rating))
                    [(is_Exception,
                      fun _ => print Yellow "r_Warn: Exception for user rating" ;;;
                               ret PyNaN)] ;;
             ret (PyInt i, v))
          ten_down_to_one ;;
  ret {| rating := rating; user_ratings := PyDict user_ratings |}.

Definition ratings_none : RatingsData :=
  {| rating := PyNone; user_ratings := PyNone |}.

Definition scrap_ratings_page (url : pyval) (pg : RatingsPage) : M RatingsData :=
  try_finally
    (try_except (ratings_try url pg)
       [(is_TimeoutException,
         fun _ => print Yellow "r_Warn: Scraping timed out" ;;; ret ratings_none);
        (is_WebDriverException,
         fun _ => print Yellow "r_Warn: WebDriverException occurred while scraping" ;;;
                  ret ratings_none)])
    (emit EvQuit).

(** ** scrap_parents_control_page *)

Definition advisory_elements : list string :=
  ["nudity"; "violence"; "profanity"; "alcohol"; "frightening"].

Definition parents_try (url : pyval) (pg : ParentsPage) : M ParentsData :=
  emit (EvGet url) ;;;
  ask (ph_get (pp_head pg)) ;;;
  check_page_content (pp_head pg) "Parents Guide" true ;;;
  guide <-
    map_m (fun el =>
             v <- try_except
                    (t <- ask (pp_advisory pg el) ;; ret (PyStr t))
                    [(is_Exception,
                      fun _ => print Yellow "pc_Warn: Exception for element" ;;;
                               ret PyNaN)] ;;
             ret (PyStr el, v))
          advisory_elements ;;
  ret {| parental_guide := PyDict guide |}.

Definition parents_none : ParentsData := {| parental_guide := PyNone |}.

Definition scrap_parents_control_page (url : pyval) (pg : ParentsPage)
    : M ParentsData :=
  try_finally
    (try_except (parents_try url pg)
       [(is_TimeoutException,
         fun _ => print Yellow "pc_Warn: Scraping timed out" ;;; ret parents_none);
        (is_WebDriverException,
         fun _ => print Yellow "pc_Warn: WebDriverException occurred while scraping" ;;;
                  ret parents_none)])
    (emit EvQuit).

(** ** scrap_images_page *)

Definition images_try (url : pyval) (pg : ImagesPage) : M ImagesData :=
  emit (EvGet url) ;;;
  ask (ph_get (ip_head pg)) ;;;
  check_page_content (ip_head pg) "" false ;;;
  poster <- attempt (ip_poster_src pg) of_option is_NoSuchElementException ;;
  ret {| poster_url := poster |}.

Definition images_none : ImagesData := {| poster_url := PyNone |}.

Definition scrap_images_page (url : pyval) (pg : ImagesPage) : M ImagesData :=
  try_finally
    (try_except (images_try url pg)
       [(is_TimeoutException,
         fun _ => print Yellow "im_Warn: Scraping timed out" ;;; ret images_none);
        (is_WebDriverException,
         fun _ => print Yellow "im_Warn: WebDriverException occurred while scraping" ;;;
                  ret images_none)])
    (emit EvQuit).

End Pages.

(* ===================================================================== *)
(** * scraping.py: IMDbVideoGamesScraper                                  *)
(* ===================================================================== *)

Module Scraper.
Import Pages.

(** Everything outside the program. *)
Record World : Type := {
  search_page : SearchPage;
  title_page : pyval -> TitlePage;
  ratings_page : pyval -> RatingsPage;
  parents_page : pyval -> ParentsPage;
  images_page : pyval -> ImagesPage;
  http_status : pyval -> answer Z;          (* requests.get(url).status_code *)
  store_image : pyval -> pyval -> answer unit;
    (* naming the file after the title and writing the chunks *)
  dataset_dir : string                      (* get_path_to_dataset() *)
}.

(** The attributes set by [__init__] from its arguments.  [self.data] is
    in the state, [self.lock] makes every append one atomic step, and
    [self.max_threads] is the same in every instance. *)
Record scraper : Type := {
  self_n : option Z;
  dwl_type : option string;
  dwl_imgs : bool
}.

(** [self.max_threads = 5] *)
Definition max_threads : nat := 5.

(** [IMDbVideoGamesScraper(n, dwl_type, dwl_imgs)] *)
Definition new_scraper (n : option Z) (dwl_type : option string)
    (dwl_imgs : bool) : M scraper :=
  fun s =>
    (Ok {| self_n := n; dwl_type := dwl_type; dwl_imgs := dwl_imgs |},
     mkState [] (trace s)).

(** ** pandas *)

Record DataFrame : Type := {
  columns : list string;
  records : list (list pyval)
}.

Definition has_key (k : string) (keys : list string) : bool :=
  existsb (String.eqb k) keys.

(** The keys of the dicts, in order of first appearance. *)
Definition add_keys (cols : list string) (r : Row) : list string :=
  fold_left (fun acc k => if has_key k acc then acc else (acc ++ [k])%list)
            (map fst r) cols.

(** A missing key gives NaN. *)
Definition cell (r : Row) (c : string) : pyval :=
  match find (fun kv => String.eqb (fst kv) c) r with
  | Some kv => snd kv
  | None => PyNaN
  end.

(** [pd.DataFrame(data)] for a list of dicts. *)
Definition DataFrame_of (rows : list Row) : DataFrame :=
  let cols := fold_left add_keys rows [] in
  {| columns := cols;
     records := map (fun r => map (cell r) cols) rows |}.

(** [df.to_json(orient='records')]: an array with one object per record,
    keyed by the columns.  The values are the cells of the DataFrame: how
    pandas writes a cell as JSON text (a datetime as epoch milliseconds,
    NaN as null, a dict key that is not a string as a string) is not
    modelled, and nothing below depends on the values of a record. *)
Definition to_json_records (df : DataFrame) : file_content :=
  JsonRecords (map (fun rec => combine (columns df) rec) (records df)).

(** [df.to_csv(index=False)]: the header line, then one line per record;
    the cells are those of the DataFrame, not their text. *)
Definition to_csv (df : DataFrame) : file_content :=
  CsvTable (columns df) (records df).

(** [os.path.join(d_path, name)] *)
Definition path_join (d_path name : string) : string := d_path ++ "/" ++ name.

(** ** save_dataset *)

Definition filename : string := "IMDb_Popularity_Video_Games_Dataset".

Definition is_type (t : option string) (name : string) : bool :=
  match t with
  | Some s => String.eqb s name
  | None => false
  end.

Definition is_None {A} (t : option A) : bool :=
  match t with None => true | Some _ => false end.

Definition save_dataset (self : scraper) (w : World) (df : DataFrame) : M unit :=
  let d_path := dataset_dir w in
  if is_type (dwl_type self) "json" || is_None (dwl_type self) then
    let filepath := path_join d_path (filename ++ ".json") in
    emit (EvWriteDataset filepath (to_json_records df))
  else if is_type (dwl_type self) "csv" then
    let filepath := path_join d_path (filename ++ ".csv") in
    emit (EvWriteDataset filepath (to_csv df))
  else
    print Red "Error: Invalid file type. Please specify 'json' or 'csv'".

(** ** download_image, scrape_ratings, scrape_parent_control, scrape_images *)

Definition download_image (w : World) (url title : pyval) : M unit :=
  try_except
    (emit (EvHttpGet url) ;;;
     status_code <- ask (http_status w url) ;;
     if status_code =? 200
     then ask (store_image w url title) ;;;
          emit (EvWriteImage url title)
     else print Yellow "im_Warn: unexpected status code")
    [(is_Exception,
      fun _ => print Yellow "im_Warn: An error occurred while downloading image")].

Definition scrape_ratings (w : World) (ratings_url : pyval) : M RatingsData :=
  scrap_ratings_page ratings_url (ratings_page w ratings_url).

Definition scrape_parent_control (w : World) (parent_c_url : pyval)
    : M ParentsData :=
  scrap_parents_control_page parent_c_url (parents_page w parent_c_url).

Definition scrape_images (w : World) (images_url title : pyval) : M unit :=
  scraped_images_data <- scrap_images_page images_url (images_page w images_url) ;;
  if truthy (poster_url scraped_images_data)
  then download_image w (poster_url scraped_images_data) title
  else ret tt.

(** ** Threads

    [start()] and [join()] of a [threading.Thread]: the thread's [run] is
    executed to its end; when it raises, the thread dies, Python reports
    the exception and the attribute [scraped_data] keeps its initial
    [None].  The three threads of one title touch no common data, so
    they are run one after the other, in the order they are started. *)
Definition run_thread {A} (body : M A) : M (option A) :=
  fun s => match body s with
           | (Ok a, s') => (Ok (Some a), s')
           | (Raise e, s') =>
               (Ok None, mkState (data s') (trace s' ++ [EvTraceback e]))
           end.

(** [series[key]] of a value that may be [None]. *)
Definition subscript {A} (series : option A) (field : A -> pyval) : M pyval :=
  match series with
  | Some sr => ret (field sr)
  | None => raise (Error TypeError)
  end.

(** ** scrape_title *)

Definition scrape_title (self : scraper) (w : World) (title_url : pyval)
    (ranking : string) : M unit :=
  scraped_title_data <- scrap_titles_page title_url (title_page w title_url) ;;
  if title_isna_all scraped_title_data then ret tt
  else
    scraped_ratings_data <-
      (if truthy (td_ratings_url scraped_title_data)
       then print Plain "Scraping the ratings page" ;;;
            run_thread (scrape_ratings w (td_ratings_url scraped_title_data))
       else ret None) ;;
    scraped_parents_data <-
      (if truthy (td_parent_c_url scraped_title_data)
       then print Plain "Scraping the parents guide page" ;;;
            run_thread (scrape_parent_control w (td_parent_c_url scraped_title_data))
       else ret None) ;;
    (if dwl_imgs self && truthy (td_images_url scraped_title_data)
     then print Plain "Scraping the images page" ;;;
          run_thread (scrape_images w (td_images_url scraped_title_data)
                                      (td_title scraped_title_data)) ;;;
          ret tt
     else ret tt) ;;;
    parental_guide_v <- subscript scraped_parents_data parental_guide ;;
    rating_v <- subscript scraped_ratings_data rating ;;
    user_ratings_v <- subscript scraped_ratings_data user_ratings ;;
    let row : Row :=
      [("title", td_title scraped_title_data);
       ("ranking", PyStr ranking);
       ("release_date", td_release_date scraped_title_data);
       ("countries", td_countries scraped_title_data);
       ("sites", td_sites scraped_title_data);
       ("languages", td_languages scraped_title_data);
       ("companies", td_companies scraped_title_data);
       ("top_cast", td_top_cast scraped_title_data);
       ("nominations", td_nominations scraped_title_data);
       ("awards", td_awards scraped_title_data);
       ("genres", td_genres scraped_title_data);
       ("parental_guide", parental_guide_v);
       ("rating", rating_v);
       ("user_ratings", user_ratings_v);
       ("imdb_url", title_url)] in
    append_row row ;;;
    print Green "Video game added to dataset".

(** ** run_scraping *)

(** A title URL with its ranking: the arguments of one [scrape_title]. *)
Definition Job : Type := (pyval * string)%type.

(** [[l[i:i + batch_size] for i in range(0, len(l), batch_size)]] *)
Definition batches {A} (l : list A) (batch_size : nat) : list (list A) :=
  map (fun i => slice l i (i + batch_size))
      (range_step (List.length l) batch_size).

Definition is_str (v : pyval) : bool :=
  match v with PyStr _ => true | _ => false end.

(** [print(f"Scraping titles: {', '.join(title_batch)}")]: [join] raises
    [TypeError] on an item that is not a string. *)
Definition print_titles (title_batch : list pyval) : M unit :=
  if forallb is_str title_batch
  then print Plain "Scraping titles"
  else raise (Error TypeError).

(** [executor.submit(self.scrape_title, title_url, ranking)]: what the
    call raises is kept in the future, which nobody reads. *)
Definition submit (task : M unit) : M unit :=
  fun s => match task s with (_, s') => (Ok tt, s') end.

(** The order in which the jobs of a batch get hold of the lock. *)
Definition schedule : Type := list Job -> list Job.

(** One batch: the pool has [max_workers = self.max_threads] workers and a
    batch never has more jobs, so all of them run at once; each appends
    under the lock, in the order [sched] says. *)
Definition run_pool (self : scraper) (w : World) (sched : schedule)
    (jobs : list Job) : M unit :=
  for_each (sched jobs)
    (fun job => submit (scrape_title self w (fst job) (snd job))).

(** [for title_batch, ranking_batch in zip(title_batches, rankings_batches)];
    [i] is the position of [title_batch] in [title_batches] and [last] the
    position of [title_batches[-1]]. *)
Fixpoint batch_loop (self : scraper) (w : World) (sched : schedule)
    (last i : nat) (zipped : list (list pyval * list string)) : M unit :=
  match zipped with
  | [] => ret tt
  | (title_batch, ranking_batch) :: rest =>
      print_titles title_batch ;;;
      run_pool self w sched (combine title_batch ranking_batch) ;;;
      print Plain "Batch scraping completed" ;;;
      (if (i =? last)%nat then ret tt else emit EvSleep) ;;;
      batch_loop self w sched last (S i) rest
  end.

Definition get_data : M (list Row) := fun s => (Ok (data s), s).

(** The first half of [run_scraping]: the search page, then the
    batches. *)
Definition collect_rows (self : scraper) (w : World) (sched : schedule)
    : M unit :=
  scraped_adv_data <- scrap_adv_search_page (self_n self) (search_page w) ;;
  match titles_url scraped_adv_data with
  | [] => ret tt
  | _ =>
      let titles_urls := titles_url scraped_adv_data in
      let ranks := rankings scraped_adv_data in
      (if negb (List.length titles_urls =? List.length ranks)%nat
       then print Plain "len(titles_urls) len(rankings)" ;;;
            print Plain "titles_urls rankings" ;;;
            print Yellow "im_Warn: Number of title urls and rankings does not match..."
       else ret tt) ;;;
      let batch_size := Nat.min (List.length titles_urls) max_threads in
      let title_batches := batches titles_urls batch_size in
      let rankings_batches := batches ranks batch_size in
      batch_loop self w sched (List.length title_batches - 1)%nat 0%nat
                 (combine title_batches rankings_batches)
  end.

(** The second half: the DataFrame and the file. *)
Definition save_rows (self : scraper) (w : World) : M unit :=
  collected <- get_data ;;
  let df := DataFrame_of collected in
  print Plain "Scraped properly len(df) video games." ;;;
  print Plain "Saving dataset..." ;;;
  save_dataset self w df ;;;
  print Plain "Scraping completed".

Definition run_scraping (self : scraper) (w : World) (sched : schedule)
    : M unit :=
  collect_rows self w sched ;;;
  save_rows self w.

End Scraper.

(* ===================================================================== *)
(** * main.py: main                                                       *)
(* ===================================================================== *)

Module Entry.
Import Main Scraper.

(** [None if n == 0 else n] *)
Definition none_if_zero (n : option Z) : option Z :=
  match n with
  | Some z => if z =? 0 then None else Some z
  | None => None
  end.

Definition main (py_int : string -> option Z) (w : World) (sched : schedule)
    (args : list string) : M unit :=
  parsed <- process_arguments py_int args ;;
  let '(n, dwl_type, dwl_imgs) := parsed in
  let n := none_if_zero n in
  scraper <- new_scraper n dwl_type dwl_imgs ;;
  run_scraping scraper w sched.

(** The state in which the interpreter starts [main(sys.argv)]. *)
Definition start : state := mkState [] [].

End Entry.

(* ===================================================================== *)
(** * Concrete pages and worlds                                           *)
(* ===================================================================== *)

Module Sample.
Import Pages Scraper.

Definition head_ok (title : string) : PageHead :=
  {| ph_get := Returned tt;
     ph_page_source := Returned "<html>...</html>";
     ph_title := Returned title |}.

Definition head_timeout : PageHead :=
  {| ph_get := Raised TimeoutException;
     ph_page_source := Returned "";
     ph_title := Returned "" |}.

(** A title page on which everything is found. *)
Definition full_title_page : TitlePage :=
  {| tp_get := Returned "Halo (Video Game 2001) - IMDb";
     tp_title := Returned "Halo";
     tp_release_date := Returned "2001-11-15";
     tp_countries := Returned ["United States"];
     tp_sites := Returned [];
     tp_languages := Returned ["English"];
     tp_companies := Returned ["Bungie"];
     tp_top_cast := Returned ["Steve Downes"];
     tp_award_numbers := Returned ["3"; "7"];
     tp_genres := Returned ["Action"];
     tp_parent_c_url := Returned (Some "https://www.imdb.com/title/tt0282209/parentalguide");
     tp_ratings_url := Returned (Some "https://www.imdb.com/title/tt0282209/ratings");
     tp_images_url := Returned (Some "https://www.imdb.com/title/tt0282209/mediaviewer") |}.

(** The same page without the link to the ratings page. *)
Definition title_page_without_ratings_link : TitlePage :=
  {| tp_get := tp_get full_title_page;
     tp_title := tp_title full_title_page;
     tp_release_date := tp_release_date full_title_page;
     tp_countries := tp_countries full_title_page;
     tp_sites := tp_sites full_title_page;
     tp_languages := tp_languages full_title_page;
     tp_companies := tp_companies full_title_page;
     tp_top_cast := tp_top_cast full_title_page;
     tp_award_numbers := tp_award_numbers full_title_page;
     tp_genres := tp_genres full_title_page;
     tp_parent_c_url := tp_parent_c_url full_title_page;
     tp_ratings_url := Raised NoSuchElementException;
     tp_images_url := tp_images_url full_title_page |}.

(** A title page whose load times out. *)
Definition title_page_timeout : TitlePage :=
  {| tp_get := Raised TimeoutException;
     tp_title := Raised NoSuchElementException;
     tp_release_date := Raised NoSuchElementException;
     tp_countries := Returned [];
     tp_sites := Returned [];
     tp_languages := Returned [];
     tp_companies := Returned [];
     tp_top_cast := Returned [];
     tp_award_numbers := Raised NoSuchElementException;
     tp_genres := Returned [];
     tp_parent_c_url := Raised NoSuchElementException;
     tp_ratings_url := Raised NoSuchElementException;
     tp_images_url := Raised NoSuchElementException |}.

Definition ratings_ok : RatingsPage :=
  {| rp_head := head_ok "Halo (Video Game 2001) - Ratings - IMDb";
     rp_rating := Returned "8.6";
     rp_votes := fun i => if i =? 10 then Returned "12K" else Raised NoSuchElementException |}.

Definition ratings_timeout : RatingsPage :=
  {| rp_head := head_timeout;
     rp_rating := Raised NoSuchElementException;
     rp_votes := fun _ => Raised NoSuchElementException |}.

Definition parents_ok : ParentsPage :=
  {| pp_head := head_ok "Halo (Video Game 2001) - Parents Guide - IMDb";
     pp_advisory := fun el => if String.eqb el "violence" then Returned "Moderate"
                              else Raised NoSuchElementException |}.

Definition parents_timeout : ParentsPage :=
  {| pp_head := head_timeout;
     pp_advisory := fun _ => Raised NoSuchElementException |}.

Definition images_ok : ImagesPage :=
  {| ip_head := head_ok "Halo (2001)";
     ip_poster_src := Returned (Some "https://m.media-amazon.com/images/halo.jpg") |}.

Definition images_timeout : ImagesPage :=
  {| ip_head := head_timeout;
     ip_poster_src := Raised NoSuchElementException |}.

Definition url1 : pyval := PyStr "https://www.imdb.com/title/tt0282209/".
Definition url2 : pyval := PyStr "https://www.imdb.com/title/tt0000002/".
Definition url3 : pyval := PyStr "https://www.imdb.com/title/tt0000003/".

(** A search page that lists three titles. *)
Definition search_three : SearchPage :=
  {| sp_user_agent := Returned "Mozilla/5.0";
     sp_get := Returned tt;
     sp_titles_len := Returned 3%N;
     sp_click := fun _ => Returned tt;
     sp_hrefs := ([url1; url2; url3], None);
     sp_rankings := (["1"; "2"; "3"], None) |}.

(** A search page whose load times out. *)
Definition search_timeout : SearchPage :=
  {| sp_user_agent := Returned "Mozilla/5.0";
     sp_get := Raised TimeoutException;
     sp_titles_len := Returned 0%N;
     sp_click := fun _ => Returned tt;
     sp_hrefs := ([], None);
     sp_rankings := ([], None) |}.

(** Every page answers. *)
Definition world_ok : World :=
  {| search_page := search_three;
     title_page := fun _ => full_title_page;
     ratings_page := fun _ => ratings_ok;
     parents_page := fun _ => parents_ok;
     images_page := fun _ => images_ok;
     http_status := fun _ => Returned 200;
     store_image := fun _ _ => Returned tt;
     dataset_dir := "/repo/dataset" |}.

(** The title pages answer, every secondary page times out. *)
Definition world_secondary_timeouts : World :=
  {| search_page := search_three;
     title_page := fun _ => full_title_page;
     ratings_page := fun _ => ratings_timeout;
     parents_page := fun _ => parents_timeout;
     images_page := fun _ => images_timeout;
     http_status := fun _ => Raised OtherWebDriverException;
     store_image := fun _ _ => Returned tt;
     dataset_dir := "/repo/dataset" |}.

(** The title pages lack the link to the ratings page. *)
Definition world_without_ratings_link : World :=
  {| search_page := search_three;
     title_page := fun _ => title_page_without_ratings_link;
     ratings_page := fun _ => ratings_ok;
     parents_page := fun _ => parents_ok;
     images_page := fun _ => images_ok;
     http_status := fun _ => Returned 200;
     store_image := fun _ _ => Returned tt;
     dataset_dir := "/repo/dataset" |}.

(** No title page loads. *)
Definition world_title_timeouts : World :=
  {| search_page := search_three;
     title_page := fun _ => title_page_timeout;
     ratings_page := fun _ => ratings_ok;
     parents_page := fun _ => parents_ok;
     images_page := fun _ => images_ok;
     http_status := fun _ => Returned 200;
     store_image := fun _ _ => Returned tt;
     dataset_dir := "/repo/dataset" |}.

(** A search page whose browser fails when asked for its user agent. *)
Definition search_user_agent_fails : SearchPage :=
  {| sp_user_agent := Raised OtherWebDriverException;
     sp_get := Returned tt;
     sp_titles_len := Returned 3%N;
     sp_click := fun _ => Returned tt;
     sp_hrefs := ([url1; url2; url3], None);
     sp_rankings := (["1"; "2"; "3"], None) |}.

(** A search page that lists seven titles. *)
Definition search_seven : SearchPage :=
  {| sp_user_agent := Returned "Mozilla/5.0";
     sp_get := Returned tt;
     sp_titles_len := Returned 7%N;
     sp_click := fun _ => Returned tt;
     sp_hrefs := ([url1; url2; url3; url1; url2; url3; url1], None);
     sp_rankings := (["1"; "2"; "3"; "4"; "5"; "6"; "7"], None) |}.

(** A search page on which the second link has no [href]. *)
Definition search_link_without_url : SearchPage :=
  {| sp_user_agent := Returned "Mozilla/5.0";
     sp_get := Returned tt;
     sp_titles_len := Returned 2%N;
     sp_click := fun _ => Returned tt;
     sp_hrefs := ([url1; PyNone], None);
     sp_rankings := (["1"; "2"], None) |}.

(** [world_ok] with another search page. *)
Definition world_with_search (sp : SearchPage) : World :=
  {| search_page := sp;
     title_page := title_page world_ok;
     ratings_page := ratings_page world_ok;
     parents_page := parents_page world_ok;
     images_page := images_page world_ok;
     http_status := http_status world_ok;
     store_image := store_image world_ok;
     dataset_dir := dataset_dir world_ok |}.

Definition scraper_of (n : option Z) (t : option string) (imgs : bool) : scraper :=
  {| self_n := n; dwl_type := t; dwl_imgs := imgs |}.

(** Jobs finish in the order they were submitted, or in the opposite one. *)
Definition in_order : schedule := fun jobs => jobs.
Definition reversed : schedule := fun jobs => rev jobs.

End Sample.

(* ===================================================================== *)
(** * The notions in which the properties are stated                      *)
(* ===================================================================== *)

Module Props.
Local Open Scope list_scope.

(** [adds k P E m]: whatever [m] answers, it has only appended to the
    state, at most [k] rows and only events that satisfy [P]; and an
    exception that leaves [m] satisfies [E]. *)
Definition adds {A} (k : nat) (P : event -> Prop) (E : exn -> Prop)
    (m : M A) : Prop :=
  forall s, exists rows evs,
    snd (m s) = mkState (data s ++ rows) (trace s ++ evs)
    /\ (List.length rows <= k)%nat
    /\ Forall P evs
    /\ (forall e, fst (m s) = Raise e -> E e).

(** Events that are not the writing of a dataset file. *)
Definition no_dataset (ev : event) : Prop :=
  match ev with
  | EvWriteDataset _ _ => False
  | _ => True
  end.

(** Events that do not load a page. *)
Definition no_get (ev : event) : Prop :=
  match ev with
  | EvGet _ => False
  | _ => True
  end.

(** Exceptions that are not a process exit. *)
Definition no_exit (e : exn) : Prop :=
  match e with
  | SystemExit _ => False
  | Error _ => True
  end.

Definition any_exn (e : exn) : Prop := True.

(** [m] loads [url], once and first, and appends no row. *)
Definition loads_once {A} (url : pyval) (m : M A) : Prop :=
  forall s, exists evs,
    snd (m s) = mkState (data s) (trace s ++ EvGet url :: evs)
    /\ Forall no_get evs.

(** The first [k] slices of width [bs] of a list. *)
Definition chunks {A} (k bs : nat) (l : list A) : list (list A) :=
  map (fun j => firstn bs (skipn (j * bs)%nat l)) (seq 0 k).

(** How many records a dataset file holds. *)
Definition saved_rows (c : file_content) : nat :=
  match c with
  | JsonRecords records => List.length records
  | CsvTable _ lines => List.length lines
  end.

(** The argument lists that [process_arguments] refuses: too many
    arguments, or a count argument that is no integer or is negative. *)
Definition invalid_arguments (py_int : string -> option Z)
    (args : list string) : Prop :=
  (4 < List.length args)%nat
  \/ ((2 <= List.length args <= 4)%nat
      /\ (py_int (Main.arg args 1) = None
          \/ exists n, py_int (Main.arg args 1) = Some n /\ n < 0)).

(** The call answered, or it failed with a timeout or another WebDriver
    error. *)
Definition webdriver_failure_at_worst {A} (r : answer A) : Prop :=
  match r with
  | Returned _ => True
  | Raised e => is_WebDriverException (Error e) = true
  end.

(** The process has been stopped by [sys.exit]. *)
Definition exited {A} (r : res A) : Prop :=
  exists msg, r = Raise (SystemExit msg).

(** What a [try: v = <call>  except ...: v = None] leaves in [v] when the
    call answers or its exception is caught. *)
Definition or_none {A} (wrap : A -> pyval) (r : answer A) : pyval :=
  match r with
  | Returned a => wrap a
  | Raised _ => PyNone
  end.

(** The element was found or is missing: no other failure. *)
Definition found_or_missing {A} (r : answer A) : Prop :=
  match r with
  | Returned _ => True
  | Raised e => e = NoSuchElementException
  end.

(** The keys of the dict that [scrape_title] appends, in its order. *)
Definition row_keys : list string :=
  ["title"; "ranking"; "release_date"; "countries"; "sites"; "languages";
   "companies"; "top_cast"; "nominations"; "awards"; "genres";
   "parental_guide"; "rating"; "user_ratings"; "imdb_url"].

(** The dict that [scrape_title] builds from the title Series, the job and
    the two secondary Series. *)
Definition title_row (td : Pages.TitleData) (ranking : string)
    (title_url : pyval) (pd : Pages.ParentsData) (rd : Pages.RatingsData) : Row :=
  [("title", Pages.td_title td);
   ("ranking", PyStr ranking);
   ("release_date", Pages.td_release_date td);
   ("countries", Pages.td_countries td);
   ("sites", Pages.td_sites td);
   ("languages", Pages.td_languages td);
   ("companies", Pages.td_companies td);
   ("top_cast", Pages.td_top_cast td);
   ("nominations", Pages.td_nominations td);
   ("awards", Pages.td_awards td);
   ("genres", Pages.td_genres td);
   ("parental_guide", Pages.parental_guide pd);
   ("rating", Pages.rating rd);
   ("user_ratings", Pages.user_ratings rd);
   ("imdb_url", title_url)].

(** What a joined thread has left in its [scraped_data]. *)
Definition thread_result {A} (r : res A) : option A :=
  match r with
  | Ok a => Some a
  | Raise _ => None
  end.

Definition is_sleep (ev : event) : bool :=
  match ev with EvSleep => true | _ => false end.


(** How often the run has slept, and how often it has clicked. *)
Definition sleeps (evs : list event) : nat := List.length (filter is_sleep evs).

(** Events that are not part of fetching or storing an image file. *)
Definition no_image_transfer (ev : event) : Prop :=
  match ev with
  | EvHttpGet _ | EvWriteImage _ _ => False
  | _ => True
  end.

(** Events other than a sleep. *)
Definition no_sleep (ev : event) : Prop :=
  match ev with
  | EvSleep => False
  | _ => True
  end.

(** The jobs of one batch. *)
Definition zip_batch (tr : list pyval * list string) : list Scraper.Job :=
  combine (fst tr) (snd tr).

(** What [m] does is the same in every state: the same outcome, the same
    rows appended and the same events. *)
Definition uniform {A} (m : M A) : Prop :=
  exists (r : res A) (rows : list Row) (evs : list event),
    forall s, m s = (r, mkState (data s ++ rows) (trace s ++ evs)).

(** The rows that a job appends. *)
Definition job_rows (self : Scraper.scraper) (w : Scraper.World)
    (job : Scraper.Job) : list Row :=
  data (snd (Scraper.scrape_title self w (fst job) (snd job) (mkState [] []))).

(** The call answers, or it raises what the clause [matches] catches. *)
Definition caught_by {A} (matches : exn -> bool) (r : answer A) : Prop :=
  match r with
  | Returned _ => True
  | Raised e => matches (Error e) = true
  end.

(** Every field of a title page is found or fails in the way its own
    [except] clause expects. *)
Definition title_fields_fail_softly (pg : Pages.TitlePage) : Prop :=
  found_or_missing (Pages.tp_title pg)
  /\ caught_by is_NoSuchElement_or_ValueError (Pages.tp_release_date pg)
  /\ found_or_missing (Pages.tp_countries pg)
  /\ found_or_missing (Pages.tp_sites pg)
  /\ found_or_missing (Pages.tp_languages pg)
  /\ found_or_missing (Pages.tp_companies pg)
  /\ found_or_missing (Pages.tp_top_cast pg)
  /\ caught_by is_NoSuchElement_or_IndexError (Pages.tp_award_numbers pg)
  /\ found_or_missing (Pages.tp_genres pg)
  /\ found_or_missing (Pages.tp_parent_c_url pg)
  /\ found_or_missing (Pages.tp_ratings_url pg)
  /\ found_or_missing (Pages.tp_images_url pg).

(** What a [try: d[k] = <text>  except Exception: d[k] = np.nan] leaves
    in [d[k]]. *)
Definition or_nan (r : answer string) : pyval :=
  match r with
  | Returned t => PyStr t
  | Raised _ => PyNaN
  end.

(** A page head that loads and passes [check_page_content] for
    [page_name] with IMDb expected. *)
Definition head_passes (h : Pages.PageHead) (page_name : string) : Prop :=
  Pages.ph_get h = Returned tt
  /\ exists source title,
       Pages.ph_page_source h = Returned source
       /\ Pages.ph_title h = Returned title
       /\ contains "No results found." source = false
       /\ contains "IMDb" title = true
       /\ contains page_name title = true.

(** The number of titles a run goes for: the page's total when no count
    (or 0) was asked for, the count asked for when the page has as many,
    the page's total otherwise. *)
Definition target_count (n0 : option Z) (total : Z) : Z :=
  match n0 with
  | Some z => if z =? 0 then total else Z.min z total
  | None => total
  end.

End Props.

(* ===================================================================== *)
(** * How a computation extends the state                                 *)
(* ===================================================================== *)

Module Frame.
Import Props.
Local Open Scope list_scope.

Lemma state_eta (s : state) : s = mkState (data s ++ []) (trace s ++ []).
Proof. destruct s; simpl; now rewrite !app_nil_r. Qed.

Section Rules.
Context {A : Type} (P : event -> Prop) (E : exn -> Prop).

Lemma adds_same (r : res A) :
  (forall e, r = Raise e -> E e) -> adds 0 P E (fun s => (r, s)).
Proof.
  intros H s. exists [], []. simpl.
  split; [apply state_eta | repeat split; auto].
Qed.

Lemma adds_ret (a : A) : adds 0 P E (ret a).
Proof. apply adds_same. discriminate. Qed.

Lemma adds_raise (e : exn) : E e -> adds 0 P E (@raise A e).
Proof. intros H. apply adds_same. now intros e' [= <-]. Qed.

Lemma adds_ask (r : answer A) :
  (forall e, E (Error e)) -> adds 0 P E (ask r).
Proof.
  intros H s. exists [], []. unfold ask.
  destruct r; simpl; (split; [apply state_eta | repeat split; auto]);
    intros e' [=]; subst; auto.
Qed.

Lemma adds_weaken (k k' : nat) (m : M A) :
  adds k P E m -> (k <= k')%nat -> adds k' P E m.
Proof.
  intros H Hle s. destruct (H s) as (rows & evs & Es & L & F & X).
  exists rows, evs. repeat split; auto. lia.
Qed.

Lemma adds_if (k : nat) (b : bool) (m1 m2 : M A) :
  adds k P E m1 -> adds k P E m2 -> adds k P E (if b then m1 else m2).
Proof. now destruct b. Qed.

End Rules.

Section Effects.
Context (P : event -> Prop) (E : exn -> Prop).

Lemma adds_emit (ev : event) : P ev -> adds 0 P E (emit ev).
Proof.
  intros H s. exists [], [ev]. simpl.
  rewrite app_nil_r. repeat split; auto. discriminate.
Qed.

Lemma adds_print (c : colour) (t : string) :
  P (EvPrint c t) -> adds 0 P E (print c t).
Proof. apply adds_emit. Qed.

Lemma adds_append (row : Row) : adds 1 P E (append_row row).
Proof.
  intros s. exists [row], []. simpl.
  rewrite app_nil_r. repeat split; auto. discriminate.
Qed.

Lemma adds_get_data : adds 0 P E Scraper.get_data.
Proof.
  intros s. exists [], []. simpl.
  split; [apply state_eta | repeat split; auto]. discriminate.
Qed.

End Effects.

Section Composition.
Context {A B : Type} (P : event -> Prop) (E : exn -> Prop).

(** The rule for [;;], with what the first part is known to answer. *)
Lemma adds_bind_with (R : A -> Prop) (k1 k2 : nat) (m : M A) (f : A -> M B) :
  adds k1 P E m ->
  (forall s a s', m s = (Ok a, s') -> R a) ->
  (forall a, R a -> adds k2 P E (f a)) ->
  adds (k1 + k2) P E (bind m f).
Proof.
  intros Hm HR Hf s. unfold bind.
  destruct (Hm s) as (rows & evs & Es & L & F & X).
  destruct (m s) as [[a | e] s1] eqn:Em; simpl in Es; subst s1.
  - destruct (Hf a (HR _ _ _ Em) (mkState (data s ++ rows) (trace s ++ evs)))
      as (rows' & evs' & Es' & L' & F' & X').
    simpl in Es'. exists (rows ++ rows'), (evs ++ evs').
    rewrite Es', !app_assoc. repeat split.
    + rewrite length_app. lia.
    + apply Forall_app. auto.
    + exact X'.
  - exists rows, evs. simpl in *.
    repeat split; auto; [lia | intros e0 [= <-]; now apply X].
Qed.

Lemma adds_bind_with0 (R : A -> Prop) (m : M A) (f : A -> M B) :
  adds 0 P E m ->
  (forall s a s', m s = (Ok a, s') -> R a) ->
  (forall a, R a -> adds 0 P E (f a)) ->
  adds 0 P E (bind m f).
Proof.
  intros. change 0%nat with (0 + 0)%nat. now apply adds_bind_with with (R := R).
Qed.

Lemma adds_bind (k1 k2 : nat) (m : M A) (f : A -> M B) :
  adds k1 P E m -> (forall a, adds k2 P E (f a)) ->
  adds (k1 + k2) P E (bind m f).
Proof.
  intros Hm Hf.
  apply adds_bind_with with (R := fun _ => True); auto.
Qed.

Lemma adds_bind0 (m : M A) (f : A -> M B) :
  adds 0 P E m -> (forall a, adds 0 P E (f a)) -> adds 0 P E (bind m f).
Proof. intros. change 0%nat with (0 + 0)%nat. now apply adds_bind. Qed.

Lemma adds_bind_left (k : nat) (m : M A) (f : A -> M B) :
  adds k P E m -> (forall a, adds 0 P E (f a)) -> adds k P E (bind m f).
Proof.
  intros. eapply adds_weaken; [apply (adds_bind k 0); eauto | lia].
Qed.

Lemma adds_bind_right (k : nat) (m : M A) (f : A -> M B) :
  adds 0 P E m -> (forall a, adds k P E (f a)) -> adds k P E (bind m f).
Proof. intros. change k with (0 + k)%nat. now apply adds_bind. Qed.

End Composition.

Section Handlers.
Context {A : Type} (P : event -> Prop) (E : exn -> Prop).

Lemma select_clause_in (clauses : list (clause A)) (e : exn) (h : M A) :
  select_clause clauses e = Some h ->
  exists cl, In cl clauses /\ h = snd cl e.
Proof.
  induction clauses as [| [matches handler] rest IH]; simpl; [discriminate |].
  destruct (matches e).
  - intros [= <-]. exists (matches, handler). auto.
  - intros H. destruct (IH H) as (cl & Hin & ->). eauto.
Qed.

Lemma adds_try_except (k1 k2 : nat) (body : M A) (clauses : list (clause A)) :
  adds k1 P E body ->
  Forall (fun cl => forall e, adds k2 P E (snd cl e)) clauses ->
  adds (k1 + k2) P E (try_except body clauses).
Proof.
  intros Hb Hc s. unfold try_except.
  destruct (Hb s) as (rows & evs & Es & L & F & X).
  destruct (body s) as [[a | e] s1]; simpl in Es; subst s1.
  - exists rows, evs. simpl. repeat split; auto; try lia; discriminate.
  - destruct (select_clause clauses e) as [h |] eqn:Sel.
    + apply select_clause_in in Sel. destruct Sel as (cl & Hin & ->).
      rewrite Forall_forall in Hc.
      destruct (Hc cl Hin e (mkState (data s ++ rows) (trace s ++ evs)))
        as (rows' & evs' & Es' & L' & F' & X').
      simpl in Es'. exists (rows ++ rows'), (evs ++ evs').
      rewrite Es', !app_assoc. repeat split.
      * rewrite length_app. lia.
      * apply Forall_app. auto.
      * exact X'.
    + exists rows, evs. simpl in *. repeat split; auto. lia.
Qed.

Lemma adds_try_except0 (body : M A) (clauses : list (clause A)) :
  adds 0 P E body ->
  Forall (fun cl => forall e, adds 0 P E (snd cl e)) clauses ->
  adds 0 P E (try_except body clauses).
Proof. intros. change 0%nat with (0 + 0)%nat. now apply adds_try_except. Qed.

Lemma adds_try_finally (k : nat) (body : M A) (cleanup : M unit) :
  adds k P E body -> adds 0 P E cleanup ->
  adds k P E (try_finally body cleanup).
Proof.
  intros Hb Hc s. unfold try_finally.
  destruct (Hb s) as (rows & evs & Es & L & F & X).
  destruct (body s) as [r s1]; simpl in Es; subst s1.
  destruct (Hc (mkState (data s ++ rows) (trace s ++ evs)))
    as (rows' & evs' & Es' & L' & F' & X').
  simpl in Es', X.
  destruct (cleanup _) as [[u | e] s2]; simpl in Es', X'; subst s2;
    exists (rows ++ rows'), (evs ++ evs'); simpl;
    rewrite !app_assoc; repeat split; auto;
    try (rewrite length_app; lia);
    try (apply Forall_app; now auto);
    intros e0 [= <-]; now apply X'.
Qed.

Lemma adds_run_thread (E' : exn -> Prop) (k : nat) (body : M A) :
  (forall e, P (EvTraceback e)) ->
  adds k P E' body -> adds k P E (Scraper.run_thread body).
Proof.
  intros Ht Hb s. unfold Scraper.run_thread.
  destruct (Hb s) as (rows & evs & Es & L & F & X).
  destruct (body s) as [[a | e] s1]; simpl in Es; subst s1; simpl.
  - exists rows, evs. repeat split; auto. discriminate.
  - exists rows, (evs ++ [EvTraceback e]).
    rewrite app_assoc. repeat split; auto.
    + apply Forall_app. auto.
    + discriminate.
Qed.

End Handlers.

Lemma adds_submit (P : event -> Prop) (E E' : exn -> Prop) (k : nat)
    (task : M unit) :
  adds k P E' task -> adds k P E (Scraper.submit task).
Proof.
  intros H s. unfold Scraper.submit.
  destruct (H s) as (rows & evs & Es & L & F & X).
  destruct (task s) as [r s1]. simpl in *.
  exists rows, evs. repeat split; auto. discriminate.
Qed.

Lemma adds_map_m {A B} (P : event -> Prop) (E : exn -> Prop)
    (f : A -> M B) (l : list A) :
  (forall x, adds 0 P E (f x)) -> adds 0 P E (map_m f l).
Proof.
  intros Hf. induction l as [| x rest IH]; simpl.
  - apply adds_ret.
  - apply adds_bind0; [apply Hf | intros y].
    apply adds_bind0; [apply IH | intros ys]. apply adds_ret.
Qed.

(** A loop adds what its rounds add. *)
Lemma adds_for_each {A} (P : event -> Prop) (E : exn -> Prop) (k : nat)
    (f : A -> M unit) (l : list A) :
  (forall x, adds k P E (f x)) ->
  adds (List.length l * k) P E (for_each l f).
Proof.
  intros Hf. induction l as [| x rest IH]; simpl.
  - apply adds_ret.
  - apply adds_bind; [apply Hf | intros _; apply IH].
Qed.

(** What [adds] says about the rows alone. *)
Lemma adds_data {A} (k : nat) P E (m : M A) (s : state) :
  adds k P E m ->
  exists rows, data (snd (m s)) = data s ++ rows /\ (List.length rows <= k)%nat.
Proof.
  intros H. destruct (H s) as (rows & evs & Es & L & _).
  exists rows. rewrite Es. auto.
Qed.

Lemma adds_keeps_data {A} P E (m : M A) (s : state) :
  adds 0 P E m -> data (snd (m s)) = data s.
Proof.
  intros H. destruct (adds_data 0 P E m s H) as (rows & Es & L).
  destruct rows; [| simpl in L; lia]. now rewrite Es, app_nil_r.
Qed.

(** ** Pages that are loaded once *)

Lemma loads_once_bind_get {A} E (url : pyval) (k : M A) :
  adds 0 no_get E k -> loads_once url (emit (EvGet url) ;;; k).
Proof.
  intros Hk s. unfold bind, emit.
  destruct (Hk (mkState (data s) (trace s ++ [EvGet url])))
    as (rows & evs & Es & L & F & _).
  destruct rows; [| simpl in L; lia].
  simpl in Es. rewrite app_nil_r, <- app_assoc in Es. simpl in Es.
  exists evs. split; [| exact F].
  destruct (k _) as [[a | e] s1]; simpl in *; exact Es.
Qed.

Lemma loads_once_try_except {A} E (url : pyval) (body : M A)
    (clauses : list (clause A)) :
  loads_once url body ->
  Forall (fun cl => forall e, adds 0 no_get E (snd cl e)) clauses ->
  loads_once url (try_except body clauses).
Proof.
  intros Hb Hc s. unfold try_except.
  destruct (Hb s) as (evs & Es & F).
  destruct (body s) as [[a | e] s1]; simpl in Es; subst s1.
  - exists evs. auto.
  - destruct (select_clause clauses e) as [h |] eqn:Sel.
    + apply select_clause_in in Sel. destruct Sel as (cl & Hin & ->).
      rewrite Forall_forall in Hc.
      destruct (Hc cl Hin e (mkState (data s) (trace s ++ EvGet url :: evs)))
        as (rows' & evs' & Es' & L' & F' & _).
      destruct rows'; [| simpl in L'; lia].
      simpl in Es'. rewrite app_nil_r, <- app_assoc in Es'. simpl in Es'.
      exists (evs ++ evs'). rewrite Es'. split; auto.
      apply Forall_app. auto.
    + exists evs. auto.
Qed.

Lemma loads_once_try_finally {A} E (url : pyval) (body : M A)
    (cleanup : M unit) :
  loads_once url body -> adds 0 no_get E cleanup ->
  loads_once url (try_finally body cleanup).
Proof.
  intros Hb Hc s. unfold try_finally.
  destruct (Hb s) as (evs & Es & F).
  destruct (body s) as [r s1]; simpl in Es; subst s1.
  destruct (Hc (mkState (data s) (trace s ++ EvGet url :: evs)))
    as (rows' & evs' & Es' & L' & F' & _).
  destruct rows'; [| simpl in L'; lia].
  simpl in Es'. rewrite app_nil_r, <- app_assoc in Es'. simpl in Es'.
  exists (evs ++ evs').
  destruct (cleanup _) as [[u | e] s2]; simpl in Es'; subst s2; simpl;
    (split; [reflexivity | apply Forall_app; auto]).
Qed.

(** A side condition on one event or one exception. *)
Ltac side := solve [intros; simpl; auto | intros; hnf; auto].

(** One step in taking apart a computation that appends no row. *)
Ltac quiet_step :=
  match goal with
  | |- adds _ _ _ (ret _) => apply adds_ret
  | |- adds _ _ _ (raise _) => apply adds_raise; side
  | |- adds _ _ _ (ask _) => apply adds_ask; side
  | |- adds _ _ _ (emit _) => apply adds_emit; side
  | |- adds _ _ _ (print _ _) => apply adds_print; side
  | |- adds _ _ _ (bind _ _) => apply adds_bind0; [| intro]
  | |- adds _ _ _ (try_except _ _) =>
      apply adds_try_except0; [| repeat constructor; intro; simpl]
  | |- adds _ _ _ (try_finally _ _) => apply adds_try_finally
  | |- adds _ _ _ (map_m _ _) => apply adds_map_m; intro
  | |- adds _ _ _ (if ?c then _ else _) => destruct c
  | |- adds _ _ _ (match ?x with _ => _ end) => destruct x
  end.

Ltac quiet := repeat quiet_step.

Section PageRules.
Import Pages.
Context (P : event -> Prop) (E : exn -> Prop).
Hypothesis P_print : forall c t, P (EvPrint c t).
Hypothesis P_quit : P EvQuit.
Hypothesis P_click : P EvClick.
Hypothesis E_error : forall e, E (Error e).

Lemma check_page_content_adds (h : PageHead) (name : string) (imdb : bool) :
  adds 0 P E (check_page_content h name imdb).
Proof. unfold check_page_content. quiet. Qed.

Lemma attempt_adds {A} (call : answer A) (wrap : A -> pyval)
    (matches : exn -> bool) :
  adds 0 P E (attempt call wrap matches).
Proof. unfold attempt. quiet. Qed.

Lemma warn_if_ended_adds (ended : option error) (text : string) :
  adds 0 P E (warn_if_ended ended text).
Proof. unfold warn_if_ended. quiet. Qed.

Lemma click_loop_adds (sp : SearchPage) (count i : nat) :
  adds 0 P E (click_loop sp i count).
Proof.
  revert i. induction count as [| count IH]; intros i; cbn [click_loop].
  - apply adds_ret.
  - apply adds_bind0; [apply adds_emit; auto | intros _].
    destruct (sp_click sp i) as [u | e].
    + apply adds_bind0; [apply adds_print; auto | intros _; apply IH].
    + destruct (is_WebDriverException (Error e)).
      * apply adds_bind0; [apply adds_print; auto | intros _; apply IH].
      * apply adds_ret.
Qed.

End PageRules.

(** Takes apart the body of a page scraper. *)
Ltac page_quiet :=
  repeat first
    [ apply attempt_adds; side
    | apply check_page_content_adds; side
    | apply warn_if_ended_adds; side
    | apply click_loop_adds; side
    | quiet_step ].

Section Scrapers.
Import Pages.
Context (P : event -> Prop) (E : exn -> Prop).
Hypothesis P_print : forall c t, P (EvPrint c t).
Hypothesis P_quit : P EvQuit.
Hypothesis P_click : P EvClick.
Hypothesis P_get : forall url, P (EvGet url).
Hypothesis E_error : forall e, E (Error e).

(** What leaves the click loop, and so the [try] of the search page,
    is an [Exception]. *)
Lemma click_loop_left_by (sp : SearchPage) (c i : nat) st e s1 :
  click_loop sp i c st = (Ok (Some e), s1) -> exists e', e = Error e'.
Proof.
  revert i st. induction c as [| c IH]; intros i st; cbn [click_loop].
  - intros [=].
  - unfold bind at 1. unfold emit at 1.
    destruct (sp_click sp i) as [u | e2].
    + unfold bind at 1. unfold print at 1, emit at 1. apply IH.
    + destruct (is_WebDriverException (Error e2)).
      * unfold bind at 1. unfold print at 1, emit at 1. apply IH.
      * intros [= <- _]. eauto.
Qed.

Lemma adv_search_try_left_by (n0 : option Z) (sp : SearchPage) s loc e s' :
  adv_search_try n0 sp s = (Ok (loc, Some e), s') -> exists e', e = Error e'.
Proof.
  unfold adv_search_try. unfold bind at 1. unfold emit at 1.
  destruct (sp_get sp) as [u | e1]; [| intros [= _ <- _]; eauto].
  destruct (sp_titles_len sp) as [len | e1]; [| intros [= _ <- _]; eauto].
  unfold bind at 1.
  destruct (click_loop sp 0 _ _) as [[[e1 |] | e1] s1] eqn:Ec.
  - apply click_loop_left_by in Ec. destruct Ec as (e' & ->).
    intros [= _ <- _]. eauto.
  - unfold warn_if_ended, bind, ret, print, emit.
    destruct (snd (sp_hrefs sp)), (snd (sp_rankings sp)); intros [=].
  - intros [=].
Qed.

Lemma scrap_adv_search_page_adds (n0 : option Z) (sp : SearchPage) :
  adds 0 P E (scrap_adv_search_page n0 sp).
Proof.
  unfold scrap_adv_search_page.
  apply adds_bind0; [apply adds_ask; side | intros ua].
  apply adds_bind0; [apply adds_print; side | intros _].
  apply adds_bind_with0
    with (R := fun out => forall e, snd out = Some e -> exists e', e = Error e').
  - unfold adv_search_try. page_quiet.
  - intros s [loc left_by] s' H e Hs. simpl in Hs. subst left_by.
    eapply adv_search_try_left_by; eauto.
  - intros [loc left_by] HR. simpl in HR.
    apply adds_bind_with0
      with (R := fun pending => forall e, pending = Some e -> exists e', e = Error e').
    + page_quiet.
    + intros s pending s'.
      destruct left_by as [e |]; [| now intros [= <- _]].
      destruct (is_TimeoutException e); [now intros [= <- _] |].
      destruct (is_WebDriverException e); [now intros [= <- _] |].
      intros [= <- _] e0 [= <-]. apply HR. reflexivity.
    + intros pending Hp.
      apply adds_bind0; [page_quiet | intros _].
      apply adds_bind0; [page_quiet | intros _].
      destruct pending as [e |]; [| apply adds_ret].
      destruct (Hp e eq_refl) as (e' & ->).
      apply adds_raise. auto.
Qed.

Lemma scrap_titles_page_adds (url : pyval) (pg : TitlePage) :
  adds 0 P E (scrap_titles_page url pg).
Proof. unfold scrap_titles_page, titles_try. page_quiet. Qed.

Lemma scrap_ratings_page_adds (url : pyval) (pg : RatingsPage) :
  adds 0 P E (scrap_ratings_page url pg).
Proof. unfold scrap_ratings_page, ratings_try. page_quiet. Qed.

Lemma scrap_parents_control_page_adds (url : pyval) (pg : ParentsPage) :
  adds 0 P E (scrap_parents_control_page url pg).
Proof. unfold scrap_parents_control_page, parents_try. page_quiet. Qed.

Lemma scrap_images_page_adds (url : pyval) (pg : ImagesPage) :
  adds 0 P E (scrap_images_page url pg).
Proof. unfold scrap_images_page, images_try. page_quiet. Qed.

End Scrapers.

(** Every secondary scraper and the title scraper load their page once. *)
Section LoadsOnce.
Import Pages.

Ltac one_load :=
  apply loads_once_try_finally with (E := any_exn);
  [ apply loads_once_try_except with (E := any_exn);
    [ apply loads_once_bind_get with (E := any_exn); page_quiet
    | repeat constructor; intro; simpl; page_quiet ]
  | page_quiet ].

Lemma scrap_titles_page_loads_once (url : pyval) (pg : TitlePage) :
  loads_once url (scrap_titles_page url pg).
Proof. unfold scrap_titles_page, titles_try. one_load. Qed.

Lemma scrap_ratings_page_loads_once (url : pyval) (pg : RatingsPage) :
  loads_once url (scrap_ratings_page url pg).
Proof. unfold scrap_ratings_page, ratings_try. one_load. Qed.

Lemma scrap_parents_control_page_loads_once (url : pyval) (pg : ParentsPage) :
  loads_once url (scrap_parents_control_page url pg).
Proof. unfold scrap_parents_control_page, parents_try. one_load. Qed.

Lemma scrap_images_page_loads_once (url : pyval) (pg : ImagesPage) :
  loads_once url (scrap_images_page url pg).
Proof. unfold scrap_images_page, images_try. one_load. Qed.

End LoadsOnce.

(** ** The scraper *)

Section ScraperRules.
Import Pages Scraper.
Context (self : scraper) (w : World).

Lemma download_image_adds (url title : pyval) :
  adds 0 no_dataset no_exit (download_image w url title).
Proof. unfold download_image. quiet. Qed.

Lemma scrape_ratings_adds (url : pyval) :
  adds 0 no_dataset no_exit (scrape_ratings w url).
Proof. apply scrap_ratings_page_adds; side. Qed.

Lemma scrape_parent_control_adds (url : pyval) :
  adds 0 no_dataset no_exit (scrape_parent_control w url).
Proof. apply scrap_parents_control_page_adds; side. Qed.

Lemma scrape_images_adds (url title : pyval) :
  adds 0 no_dataset no_exit (scrape_images w url title).
Proof.
  unfold scrape_images.
  apply adds_bind0; [apply scrap_images_page_adds; side | intros d].
  apply adds_if; [apply download_image_adds | apply adds_ret].
Qed.

Lemma subscript_adds {A} (series : option A) (field : A -> pyval) :
  adds 0 no_dataset no_exit (subscript series field).
Proof. unfold subscript. quiet. Qed.

(** [scrape_title] appends at most one row and writes no dataset. *)
Lemma scrape_title_adds (title_url : pyval) (ranking : string) :
  adds 1 no_dataset no_exit (scrape_title self w title_url ranking).
Proof.
  unfold scrape_title.
  apply adds_bind_right; [apply scrap_titles_page_adds; side | intros td].
  apply adds_if; [eapply adds_weaken; [apply adds_ret | lia] |].
  apply adds_bind_right; [| intros rd].
  { apply adds_if; [| apply adds_ret].
    apply adds_bind0; [apply adds_print; side | intros _].
    eapply adds_run_thread; [side | apply scrape_ratings_adds]. }
  apply adds_bind_right; [| intros pd].
  { apply adds_if; [| apply adds_ret].
    apply adds_bind0; [apply adds_print; side | intros _].
    eapply adds_run_thread; [side | apply scrape_parent_control_adds]. }
  apply adds_bind_right; [| intros _].
  { apply adds_if; [| apply adds_ret].
    apply adds_bind0; [apply adds_print; side | intros _].
    apply adds_bind0; [| intros _; apply adds_ret].
    eapply adds_run_thread; [side | apply scrape_images_adds]. }
  apply adds_bind_right; [apply subscript_adds | intros v1].
  apply adds_bind_right; [apply subscript_adds | intros v2].
  apply adds_bind_right; [apply subscript_adds | intros v3].
  apply adds_bind_left; [apply adds_append | intros _].
  apply adds_print; side.
Qed.

Lemma print_titles_adds (batch : list pyval) :
  adds 0 no_dataset no_exit (print_titles batch).
Proof. unfold print_titles. quiet. Qed.

(** A pool appends at most one row per job it is given. *)
Lemma run_pool_adds (sched : schedule) (jobs : list Job) :
  adds (List.length (sched jobs)) no_dataset no_exit
       (run_pool self w sched jobs).
Proof.
  unfold run_pool.
  eapply adds_weaken.
  - apply adds_for_each with (k := 1%nat). intros job.
    eapply adds_submit, scrape_title_adds.
  - lia.
Qed.

End ScraperRules.

End Frame.

(* ===================================================================== *)
(** * Slices and batches                                                  *)
(* ===================================================================== *)

Module Batches.
Local Open Scope list_scope.
Local Open Scope nat_scope.
Import Scraper Props.

Section Chunks.
Context {A : Type}.

Lemma batches_chunks (l : list A) (bs : nat) :
  batches l bs = chunks ((List.length l + bs - 1) / bs) bs l.
Proof.
  unfold batches, range_step, chunks, slice. rewrite map_map.
  apply map_ext. intros j. f_equal. lia.
Qed.

Lemma chunks_succ (k bs : nat) (l : list A) :
  chunks (S k) bs l = firstn bs l :: chunks k bs (skipn bs l).
Proof.
  unfold chunks. rewrite <- cons_seq, <- seq_shift. simpl.
  rewrite map_map. f_equal. apply map_ext. intros j.
  rewrite skipn_skipn. do 2 f_equal. lia.
Qed.

Lemma length_chunks (k bs : nat) (l : list A) :
  List.length (chunks k bs l) = k.
Proof. unfold chunks. now rewrite length_map, length_seq. Qed.

Lemma concat_chunks (bs k : nat) (l : list A) :
  List.length l <= k * bs -> List.concat (chunks k bs l) = l.
Proof.
  revert l. induction k as [| k IH]; intros l Hl.
  - destruct l; [reflexivity | simpl in Hl; lia].
  - rewrite chunks_succ. simpl. rewrite IH.
    + apply firstn_skipn.
    + rewrite length_skipn. lia.
Qed.

Lemma nth_map_seq {X} (f : nat -> X) (k i : nat) (d : X) :
  i < k -> nth i (map f (seq 0 k)) d = f i.
Proof.
  intros Hi.
  rewrite nth_indep with (d' := f 0)
    by (rewrite length_map, length_seq; exact Hi).
  rewrite map_nth, seq_nth by exact Hi. reflexivity.
Qed.

Lemma nth_chunks (bs k i : nat) (l : list A) :
  i < k -> nth i (chunks k bs l) [] = firstn bs (skipn (i * bs) l).
Proof. intros Hi. unfold chunks. now rewrite nth_map_seq. Qed.

Lemma In_chunks (bs k : nat) (l : list A) (b : list A) :
  In b (chunks k bs l) ->
  exists j, j < k /\ b = firstn bs (skipn (j * bs) l).
Proof.
  unfold chunks. rewrite in_map_iff. intros (j & <- & Hj).
  apply in_seq in Hj. exists j. split; [lia | reflexivity].
Qed.

End Chunks.

(** [range(0, n, bs)] has enough elements to cover [n], and its last
    element is below [n]. *)
Lemma ceil_covers (n bs : nat) : 0 < bs -> n <= (n + bs - 1) / bs * bs.
Proof.
  intros Hbs.
  pose proof (Nat.div_mod_eq (n + bs - 1) bs) as E.
  pose proof (Nat.mod_upper_bound (n + bs - 1) bs ltac:(lia)) as U.
  nia.
Qed.

Lemma ceil_last_below (n bs j : nat) :
  0 < bs -> j < (n + bs - 1) / bs -> j * bs < n.
Proof.
  intros Hbs Hj.
  pose proof (Nat.div_mod_eq (n + bs - 1) bs) as E.
  assert (S j * bs <= (n + bs - 1) / bs * bs) by (apply Nat.mul_le_mono_r; lia).
  nia.
Qed.

Lemma ceil_full_before_last (n bs j : nat) :
  0 < bs -> S j < (n + bs - 1) / bs -> j * bs + bs <= n.
Proof.
  intros Hbs Hj.
  assert (S j * bs < n) by (apply ceil_last_below; assumption).
  simpl in *. lia.
Qed.

Section Bounds.
Context {A B : Type}.

(** Zipping two lists of batches keeps at most the first list's items. *)
Lemma zipped_total (a : list (list A)) (b : list (list B)) :
  list_sum (map (fun tr => List.length (fst tr)) (combine a b))
  <= List.length (List.concat a).
Proof.
  revert b. induction a as [| x a IH]; intros b; simpl; [lia |].
  destruct b as [| y b]; simpl; [lia |].
  rewrite length_app. specialize (IH b). lia.
Qed.

Lemma zipped_in (a : list (list A)) (b : list (list B)) tr :
  In tr (combine a b) -> In (fst tr) a.
Proof. destruct tr as [x y]. apply in_combine_l. Qed.

End Bounds.

End Batches.

(* ===================================================================== *)
(** * The search result, the batch loop and the two halves of a run       *)
(* ===================================================================== *)

Module Run.
Import Pages Scraper Props Frame Batches.
Local Open Scope list_scope.

Lemma bind_ok_inv {A B} (m : M A) (f : A -> M B) s b s' :
  bind m f s = (Ok b, s') ->
  exists a s1, m s = (Ok a, s1) /\ f a s1 = (Ok b, s').
Proof.
  unfold bind. destruct (m s) as [[a | e] s1]; [eauto | discriminate].
Qed.

Lemma adds_events_weaken {A} (k : nat) (P P' : event -> Prop) E (m : M A) :
  adds k P E m -> (forall ev, P ev -> P' ev) -> adds k P' E m.
Proof.
  intros H Himp s. destruct (H s) as (rows & evs & Es & L & F & X).
  exists rows, evs. repeat split; auto.
  eapply Forall_impl; eauto.
Qed.

Lemma slice_to_nil {A} (n : option Z) : slice_to (@nil A) n = [].
Proof.
  destruct n as [z |]; simpl; [| reflexivity].
  destruct (z <? 0); first [reflexivity | apply firstn_nil].
Qed.

Lemma length_slice_to {A} (l : list A) (n : option Z) :
  (List.length (slice_to l n) <= List.length l)%nat.
Proof.
  destruct n as [z |]; simpl; [| lia].
  destruct (z <? 0); rewrite length_firstn; lia.
Qed.

(** The locals with which the [try] of the search page is left: nothing
    has been collected, or the page's hrefs under a count that is neither
    negative nor above a positive requested one. *)
Lemma adv_search_try_locals (n0 : option Z) (sp : SearchPage) s loc left_by s' :
  adv_search_try n0 sp s = (Ok (loc, left_by), s') ->
  (l_titles_url loc = [] /\ l_rankings loc = [])
  \/ (l_titles_url loc = fst (sp_hrefs sp)
      /\ l_rankings loc = fst (sp_rankings sp)
      /\ exists n', l_n loc = Some n'
                    /\ (forall n, n0 = Some n -> 0 < n -> 0 <= n' <= n)).
Proof.
  unfold adv_search_try. unfold bind at 1. unfold emit at 1.
  destruct (sp_get sp) as [u | e1]; [| intros [= <- _ _]; auto].
  destruct (sp_titles_len sp) as [len | e1]; [| intros [= <- _ _]; auto].
  unfold bind at 1.
  destruct (click_loop sp 0 _ _) as [[[e1 |] | e1] s1]; try discriminate.
  - intros [= <- _ _]. auto.
  - intros H.
    apply bind_ok_inv in H. destruct H as (u1 & s2 & _ & H).
    apply bind_ok_inv in H. destruct H as (u2 & s3 & _ & H).
    injection H as <- _ _. right. split; [reflexivity |]. split; [reflexivity |].
    eexists. split; [reflexivity |].
    intros n -> Hn. unfold wants_all.
    destruct (n =? 0) eqn:Z0; simpl; [lia |].
    destruct (Z.of_N len <? n) eqn:Lt; lia.
Qed.

Lemma length_slice_to_nonneg {A} (l : list A) (n' n : Z) :
  0 <= n' <= n -> Z.of_nat (List.length (slice_to l (Some n'))) <= n.
Proof.
  intros H. unfold slice_to. destruct (n' <? 0) eqn:Neg; [lia |].
  pose proof (firstn_le_length (Z.to_nat n') l). lia.
Qed.

(** What [scrap_adv_search_page] returns is a slice of what the page
    lists, of at most [n] entries when a positive [n] was requested. *)
Lemma scrap_adv_search_page_length (n0 : option Z) (sp : SearchPage) s sd s' :
  scrap_adv_search_page n0 sp s = (Ok sd, s') ->
  (List.length (titles_url sd) <= List.length (fst (sp_hrefs sp)))%nat
  /\ (forall n, n0 = Some n -> 0 < n ->
      Z.of_nat (List.length (titles_url sd)) <= n
      /\ Z.of_nat (List.length (rankings sd)) <= n).
Proof.
  unfold scrap_adv_search_page. intros H.
  apply bind_ok_inv in H. destruct H as (ua & s1 & _ & H).
  apply bind_ok_inv in H. destruct H as (u1 & s2 & _ & H).
  apply bind_ok_inv in H. destruct H as ([loc left_by] & s3 & Htry & H).
  apply bind_ok_inv in H. destruct H as (pending & s4 & _ & H).
  apply bind_ok_inv in H. destruct H as (u2 & s5 & _ & H).
  apply bind_ok_inv in H. destruct H as (u3 & s6 & _ & H).
  destruct pending as [e |]; [discriminate |].
  injection H as <- _. simpl.
  apply adv_search_try_locals in Htry.
  destruct Htry as [[-> ->] | (-> & -> & n' & -> & Hle)].
  - rewrite !slice_to_nil. simpl. split; [lia | intros; lia].
  - split; [apply length_slice_to |].
    intros n Hn0 Hn. specialize (Hle n Hn0 Hn).
    split; apply length_slice_to_nonneg; exact Hle.
Qed.

(** The batches cover the list. *)
Lemma concat_batches {A} (l : list A) (bs : nat) :
  (0 < bs)%nat -> List.concat (batches l bs) = l.
Proof.
  intros Hbs. rewrite batches_chunks.
  apply concat_chunks, ceil_covers, Hbs.
Qed.

Section BatchLoop.
Context (self : scraper) (w : World) (sched : schedule).
Hypothesis sched_length : forall jobs, (List.length (sched jobs) <= List.length jobs)%nat.

Lemma batch_loop_adds (last : nat) (zipped : list (list pyval * list string))
    (i : nat) :
  adds (list_sum (map (fun tr => List.length (fst tr)) zipped))
       no_dataset no_exit
       (batch_loop self w sched last i zipped).
Proof.
  revert i. induction zipped as [| [title_batch ranking_batch] rest IH];
    intros i; cbn [batch_loop map list_sum fst].
  - apply adds_ret.
  - apply adds_bind_right; [apply print_titles_adds | intros _].
    apply adds_bind.
    + eapply adds_weaken; [apply run_pool_adds |].
      etransitivity; [apply sched_length |].
      unfold Job. rewrite length_combine. lia.
    + intros _.
      apply adds_bind_right; [apply adds_print; side | intros _].
      apply adds_bind_right; [| intros _; apply IH].
      apply adds_if; [apply adds_ret | apply adds_emit; side].
Qed.

(** The first half of a run appends at most one row per title that the
    search page returned. *)
Lemma collect_rows_adds_upto (k : nat) :
  (forall s sd s',
      scrap_adv_search_page (self_n self) (search_page w) s = (Ok sd, s') ->
      (List.length (titles_url sd) <= k)%nat) ->
  adds k no_dataset no_exit (collect_rows self w sched).
Proof.
  intros Hk. unfold collect_rows.
  change k with (0 + k)%nat.
  apply adds_bind_with with (R := fun sd => (List.length (titles_url sd) <= k)%nat).
  - apply scrap_adv_search_page_adds; side.
  - exact Hk.
  - intros sd Hsd.
    destruct (titles_url sd) as [| u us] eqn:Et.
    + eapply adds_weaken; [apply adds_ret | lia].
    + rewrite <- Et in *.
      apply adds_bind_right.
      * apply adds_if; [| apply adds_ret].
        apply adds_bind0; [apply adds_print; side | intros _].
        apply adds_bind0; [apply adds_print; side | intros _].
        apply adds_print; side.
      * intros _. eapply adds_weaken; [apply batch_loop_adds |].
        rewrite zipped_total, concat_batches; [exact Hsd |].
        rewrite Et. unfold max_threads. simpl. lia.
Qed.

Lemma collect_rows_adds :
  adds (List.length (fst (sp_hrefs (search_page w)))) no_dataset no_exit
       (collect_rows self w sched).
Proof.
  apply collect_rows_adds_upto. intros s sd s' H.
  apply scrap_adv_search_page_length in H. apply H.
Qed.

Lemma collect_rows_adds_requested (n : Z) :
  self_n self = Some n -> 0 < n ->
  adds (Z.to_nat n) no_dataset no_exit (collect_rows self w sched).
Proof.
  intros Hn Hpos. apply collect_rows_adds_upto. intros s sd s' H.
  apply scrap_adv_search_page_length in H. destruct H as [_ H].
  specialize (H n Hn Hpos). lia.
Qed.

End BatchLoop.

(** ** The second half *)

(** How [save_dataset] ends: by a file or by an error message. *)
Lemma save_dataset_run (self : scraper) (w : World) (df : DataFrame) (s : state) :
  exists ev,
    save_dataset self w df s = (Ok tt, mkState (data s) (trace s ++ [ev]))
    /\ ((dwl_type self = Some "json" \/ dwl_type self = None) ->
        ev = EvWriteDataset
               (path_join (dataset_dir w) (filename ++ ".json")%string)
               (to_json_records df))
    /\ (dwl_type self = Some "csv" ->
        ev = EvWriteDataset
               (path_join (dataset_dir w) (filename ++ ".csv")%string)
               (to_csv df))
    /\ (forall t, dwl_type self = Some t -> t <> "json" -> t <> "csv" ->
        ev = EvPrint Red "Error: Invalid file type. Please specify 'json' or 'csv'").
Proof.
  unfold save_dataset, is_type, is_None.
  destruct (dwl_type self) as [t |]; simpl.
  - destruct (String.eqb t "json") eqn:Ej; simpl.
    + apply String.eqb_eq in Ej. subst t.
      eexists. split; [reflexivity |]. repeat split; auto.
      * discriminate.
      * intros t [= <-] H. now contradiction H.
    + apply String.eqb_neq in Ej.
      destruct (String.eqb t "csv") eqn:Ec.
      * apply String.eqb_eq in Ec. subst t.
        eexists. split; [reflexivity |]. repeat split; auto.
        -- intros [[=] | [=]].
        -- intros t [= <-] _ H. now contradiction H.
      * apply String.eqb_neq in Ec.
        eexists. split; [reflexivity |]. repeat split; auto.
        -- intros [[= ->] | [=]]. now contradiction Ej.
        -- intros [= ->]. now contradiction Ec.
  - eexists. split; [reflexivity |]. repeat split; auto; discriminate.
Qed.

Lemma length_records_DataFrame_of (rows : list Row) :
  List.length (records (DataFrame_of rows)) = List.length rows.
Proof. unfold DataFrame_of. simpl. apply length_map. Qed.

Lemma saved_rows_to_json (df : DataFrame) :
  saved_rows (to_json_records df) = List.length (records df).
Proof. unfold to_json_records. simpl. apply length_map. Qed.

Lemma saved_rows_to_csv (df : DataFrame) :
  saved_rows (to_csv df) = List.length (records df).
Proof. reflexivity. Qed.

(** The second half of a run returns, keeps the rows, and what it saves
    has one record per row. *)
Lemma save_rows_run (self : scraper) (w : World) (s : state) :
  exists ev,
    save_rows self w s =
      (Ok tt,
       mkState (data s)
               (trace s ++ [EvPrint Plain "Scraped properly len(df) video games.";
                            EvPrint Plain "Saving dataset...";
                            ev;
                            EvPrint Plain "Scraping completed"]))
    /\ (forall path c, ev = EvWriteDataset path c ->
        saved_rows c = List.length (data s))
    /\ (forall t, dwl_type self = Some t -> t <> "json" -> t <> "csv" ->
        ev = EvPrint Red "Error: Invalid file type. Please specify 'json' or 'csv'").
Proof.
  unfold save_rows, get_data, bind, print, emit. simpl.
  destruct (save_dataset_run self w (DataFrame_of (data s))
              (mkState (data s)
                 ((trace s ++ [EvPrint Plain "Scraped properly len(df) video games."])
                    ++ [EvPrint Plain "Saving dataset..."])))
    as (ev & Hrun & Hjson & Hcsv & Hbad).
  exists ev. rewrite Hrun. simpl. split; [| split].
  - now rewrite <- !app_assoc.
  - intros path c Hev.
    unfold save_dataset, is_type, is_None in Hrun.
    destruct (dwl_type self) as [t |]; simpl in Hrun.
    + destruct (String.eqb t "json"); simpl in Hrun.
      * injection Hrun as Hrun. apply app_inv_head in Hrun.
        injection Hrun as Hrun. rewrite Hev in Hrun. injection Hrun as _ <-.
        rewrite saved_rows_to_json. apply length_records_DataFrame_of.
      * destruct (String.eqb t "csv").
        -- injection Hrun as Hrun. apply app_inv_head in Hrun.
           injection Hrun as Hrun. rewrite Hev in Hrun. injection Hrun as _ <-.
           rewrite saved_rows_to_csv. apply length_records_DataFrame_of.
        -- injection Hrun as Hrun. apply app_inv_head in Hrun.
           injection Hrun as Hrun. rewrite Hev in Hrun. discriminate.
    + injection Hrun as Hrun. apply app_inv_head in Hrun.
      injection Hrun as Hrun. rewrite Hev in Hrun. injection Hrun as _ <-.
      rewrite saved_rows_to_json. apply length_records_DataFrame_of.
  - exact Hbad.
Qed.

End Run.

(* ===================================================================== *)
(** * Properties of scrape_title                                          *)
(* ===================================================================== *)

Import Pages Scraper Props.
Local Open Scope list_scope.

(** A title page that fails to load gives a Series of [None] only. *)
Lemma failed_load_is_all_missing (url : pyval) (pg : TitlePage) (e : error)
    (s : state) :
  tp_get pg = Raised e ->
  is_WebDriverException (Error e) = true ->
  exists text,
    scrap_titles_page url pg s =
      (Ok title_all_none,
       mkState (data s) (trace s ++ [EvGet url; EvPrint Yellow text; EvQuit]))
    /\ title_isna_all title_all_none = true.
Proof.
  intros Hget Hwd.
  unfold scrap_titles_page, titles_try, try_finally, try_except, bind, emit, ask.
  rewrite Hget. simpl.
  destruct e; simpl in Hwd; try discriminate; simpl;
    eexists; (split; [| reflexivity]);
    unfold print, emit, bind, ret; simpl;
    rewrite <- !app_assoc; reflexivity.
Qed.

(** C2: when every field of the scraped title data is missing,
    [scrape_title] returns at once: it starts no secondary fetch and the
    shared list is left as it was, so the job contributes no row. *)
Theorem scrape_title_all_missing_appends_nothing (self : scraper) (w : World)
    (title_url : pyval) (ranking : string) (s s1 : state) (td : TitleData) :
  scrap_titles_page title_url (title_page w title_url) s = (Ok td, s1) ->
  title_isna_all td = true ->
  scrape_title self w title_url ranking s = (Ok tt, s1) /\ data s1 = data s.
Proof.
  intros Hpage Hna. split.
  - unfold scrape_title, bind. rewrite Hpage, Hna. reflexivity.
  - change s1 with (snd (Ok td, s1)). rewrite <- Hpage.
    apply Frame.adds_keeps_data with (P := fun _ => True) (E := fun _ => True).
    apply Frame.scrap_titles_page_adds; auto.
Qed.

Lemma scrape_title_all_missing_appends_nothing_witness :
  let s1 := mkState [] [EvGet Sample.url1;
                        EvPrint Yellow "t_Warn: Scraping timed out"; EvQuit] in
  scrap_titles_page Sample.url1
    (title_page Sample.world_title_timeouts Sample.url1) Entry.start
    = (Ok title_all_none, s1)
  /\ title_isna_all title_all_none = true
  /\ (scrape_title (Sample.scraper_of None None true) Sample.world_title_timeouts
        Sample.url1 "1" Entry.start = (Ok tt, s1)
      /\ data s1 = data Entry.start).
Proof.
  split; [reflexivity | split; [reflexivity |]].
  apply (scrape_title_all_missing_appends_nothing
           (Sample.scraper_of None None true) Sample.world_title_timeouts
           Sample.url1 "1" Entry.start _ title_all_none); reflexivity.
Defined.

(** C8: one execution of [scrape_title] leaves the shared list as it was or
    with one more row at its end, whatever the pages answer and whether it
    returns or raises. *)
Theorem scrape_title_appends_at_most_one_row (self : scraper) (w : World)
    (title_url : pyval) (ranking : string) (s : state) :
  exists rows,
    data (snd (scrape_title self w title_url ranking s)) = data s ++ rows
    /\ (List.length rows <= 1)%nat.
Proof.
  eapply Frame.adds_data. apply Frame.scrape_title_adds.
Qed.

(** When both secondary links are there and both secondary fetches time
    out, the row is appended with [None] in the three sub-fields. *)
Lemma scrape_title_secondary_timeouts_keep_row :
  let r := scrape_title (Sample.scraper_of None None true)
             Sample.world_secondary_timeouts Sample.url1 "1" Entry.start in
  fst r = Ok tt
  /\ exists row, data (snd r) = [row]
       /\ Scraper.cell row "title" = PyStr "Halo"
       /\ Scraper.cell row "parental_guide" = PyNone
       /\ Scraper.cell row "rating" = PyNone
       /\ Scraper.cell row "user_ratings" = PyNone.
Proof.
  simpl. split; [reflexivity |].
  eexists. split; [reflexivity |]. repeat split; reflexivity.
Qed.

(** When the title data is usable but a secondary fetch is not started
    (its link is missing) or its thread dies, the Series of that fetch is
    still [None] when the row is built: subscripting it raises [TypeError]
    and nothing is appended. *)
Lemma subscript_None_raises {A} (field : A -> pyval) (s : state) :
  subscript (@None A) field s = (Raise (Error TypeError), s).
Proof. reflexivity. Qed.

(** C1: on a title page that shows a title, a date, a cast and the link to
    the parents guide but no link to the ratings page, [scrape_title]
    raises [TypeError] and appends no row. *)
Theorem scrape_title_without_ratings_link_drops_row :
  let self := Sample.scraper_of None None false in
  let w := Sample.world_without_ratings_link in
  (exists td s1,
      scrap_titles_page Sample.url1 (title_page w Sample.url1) Entry.start
        = (Ok td, s1)
      /\ title_isna_all td = false
      /\ td_title td = PyStr "Halo"
      /\ td_ratings_url td = PyNone)
  /\ fst (scrape_title self w Sample.url1 "1" Entry.start) = Raise (Error TypeError)
  /\ data (snd (scrape_title self w Sample.url1 "1" Entry.start)) = [].
Proof.
  simpl. split; [| split; reflexivity].
  eexists. eexists. split; [reflexivity |]. repeat split; reflexivity.
Qed.

(** A thread that is started and joined always gives the control back,
    with the rows as its body left them. *)
Lemma run_thread_returns {A} (body : M A) (s : state) :
  exists o s', run_thread body s = (Ok o, s') /\ data s' = data (snd (body s)).
Proof.
  unfold run_thread. destruct (body s) as [[a | e] s1]; simpl; eauto.
Qed.

(** X4: with usable title data, a missing ratings or parents-guide link
    makes [scrape_title] raise [TypeError] when it builds the row, and
    nothing is appended. *)
Lemma scrape_title_missing_link_raises (self : scraper) (w : World)
    (title_url : pyval) (ranking : string) (s s1 : state) (td : TitleData) :
  scrap_titles_page title_url (title_page w title_url) s = (Ok td, s1) ->
  title_isna_all td = false ->
  truthy (td_ratings_url td) = false \/ truthy (td_parent_c_url td) = false ->
  exists s',
    scrape_title self w title_url ranking s = (Raise (Error TypeError), s')
    /\ data s' = data s.
Proof.
  intros Hpage Hna Hlink.
  assert (Hs1 : data s1 = data s).
  { change s1 with (snd (Ok td, s1)). rewrite <- Hpage.
    apply Frame.adds_keeps_data with (P := fun _ => True) (E := fun _ => True).
    apply Frame.scrap_titles_page_adds; auto. }
  unfold scrape_title. unfold bind at 1. rewrite Hpage, Hna.
  (* the ratings thread *)
  unfold bind at 1.
  assert (HR : exists o s2,
             (if truthy (td_ratings_url td)
              then print Plain "Scraping the ratings page" ;;;
                   run_thread (scrape_ratings w (td_ratings_url td))
              else ret None) s1 = (Ok o, s2)
             /\ data s2 = data s1
             /\ (truthy (td_ratings_url td) = false -> o = None)).
  { destruct (truthy (td_ratings_url td)).
    - unfold bind, print, emit.
      match goal with |- context [run_thread ?b ?st] =>
        destruct (run_thread_returns b st) as (o & s2 & -> & Hd);
        rewrite (Frame.adds_keeps_data _ _ _ st (Frame.scrape_ratings_adds w _)) in Hd
      end.
      exists o, s2. repeat split; auto. discriminate.
    - exists None, s1. repeat split; auto. }
  destruct HR as (rd & s2 & -> & Hs2 & Hrd).
  (* the parents-guide thread *)
  unfold bind at 1.
  assert (HP : exists o s3,
             (if truthy (td_parent_c_url td)
              then print Plain "Scraping the parents guide page" ;;;
                   run_thread (scrape_parent_control w (td_parent_c_url td))
              else ret None) s2 = (Ok o, s3)
             /\ data s3 = data s2
             /\ (truthy (td_parent_c_url td) = false -> o = None)).
  { destruct (truthy (td_parent_c_url td)).
    - unfold bind, print, emit.
      match goal with |- context [run_thread ?b ?st] =>
        destruct (run_thread_returns b st) as (o & s3 & -> & Hd);
        rewrite (Frame.adds_keeps_data _ _ _ st (Frame.scrape_parent_control_adds w _)) in Hd
      end.
      exists o, s3. repeat split; auto. discriminate.
    - exists None, s2. repeat split; auto. }
  destruct HP as (pd & s3 & -> & Hs3 & Hpd).
  (* the image thread *)
  unfold bind at 1.
  assert (HI : exists s4,
             (if dwl_imgs self && truthy (td_images_url td)
              then print Plain "Scraping the images page" ;;;
                   run_thread (scrape_images w (td_images_url td) (td_title td)) ;;;
                   ret tt
              else ret tt) s3 = (Ok tt, s4)
             /\ data s4 = data s3).
  { destruct (dwl_imgs self && truthy (td_images_url td)).
    - unfold bind, print, emit, ret.
      match goal with |- context [run_thread ?b ?st] =>
        destruct (run_thread_returns b st) as (o & s4 & -> & Hd);
        rewrite (Frame.adds_keeps_data _ _ _ st (Frame.scrape_images_adds w _ _)) in Hd
      end.
      exists s4. split; auto.
    - exists s3. split; auto. }
  destruct HI as (s4 & -> & Hs4).
  assert (Hdata : data s4 = data s) by congruence.
  (* building the row *)
  exists s4. split; [| exact Hdata].
  destruct pd as [pd |].
  - destruct rd as [rd |].
    + destruct Hlink as [H | H]; [specialize (Hrd H) | specialize (Hpd H)];
        discriminate.
    + reflexivity.
  - reflexivity.
Qed.

(* ===================================================================== *)
(** * Properties of a run                                                 *)
(* ===================================================================== *)

(** A schedule only reorders the jobs of a batch. *)
Lemma schedule_length (sched : schedule) :
  (forall jobs, Permutation (sched jobs) jobs) ->
  forall jobs, (List.length (sched jobs) <= List.length jobs)%nat.
Proof. intros H jobs. now rewrite (Permutation_length (H jobs)). Qed.

(** A run is its first half, then (when that returned) its second half. *)
Lemma run_scraping_halves (self : scraper) (w : World) (sched : schedule)
    (s : state) :
  run_scraping self w sched s =
    match collect_rows self w sched s with
    | (Ok _, s1) => save_rows self w s1
    | (Raise e, s1) => (Raise e, s1)
    end.
Proof. reflexivity. Qed.

(** C3: a run for a positive count [n] ends with at most [n] rows in
    [self.data], and a dataset file it writes holds at most [n] records;
    the search page returns at most [n] title URLs and rankings, and the
    jobs, however a batch is scheduled, append at most one row each. *)
Theorem rows_at_most_requested_count (w : World) (sched : schedule) (n : Z)
    (t : option string) (imgs : bool) (s : state) :
  0 < n ->
  (forall jobs, Permutation (sched jobs) jobs) ->
  (forall s0 sd s1,
      scrap_adv_search_page (Some n) (search_page w) s0 = (Ok sd, s1) ->
      Z.of_nat (List.length (titles_url sd)) <= n
      /\ Z.of_nat (List.length (rankings sd)) <= n)
  /\ exists rows evs,
       snd ((self <- new_scraper (Some n) t imgs ;; run_scraping self w sched) s)
         = mkState rows (trace s ++ evs)
       /\ Z.of_nat (List.length rows) <= n
       /\ forall path c, In (EvWriteDataset path c) evs ->
                         Z.of_nat (saved_rows c) <= n.
Proof.
  intros Hn Hsched. split.
  - intros s0 sd s1 H.
    apply Run.scrap_adv_search_page_length in H. destruct H as [_ H].
    now apply H.
  - unfold bind at 1. unfold new_scraper at 1.
    set (self := {| self_n := Some n; dwl_type := t; dwl_imgs := imgs |}).
    rewrite run_scraping_halves.
    destruct (Run.collect_rows_adds_requested self w sched
                (schedule_length sched Hsched) n eq_refl Hn
                (mkState [] (trace s)))
      as (rows & evs & Es & L & F & _).
    simpl in Es.
    destruct (collect_rows self w sched (mkState [] (trace s))) as [[u | e] s1];
      simpl in Es; subst s1.
    + destruct (Run.save_rows_run self w (mkState rows (trace s ++ evs)))
        as (ev & -> & Hsaved & _).
      simpl. eexists. eexists. split; [rewrite <- app_assoc; reflexivity |].
      split; [lia |].
      intros path c Hin. apply in_app_or in Hin. destruct Hin as [Hin | Hin].
      * rewrite Forall_forall in F. apply F in Hin. contradiction.
      * simpl in Hin.
        destruct Hin as [Hin | [Hin | [Hin | [Hin | []]]]]; try discriminate.
        rewrite (Hsaved path c Hin). simpl. lia.
    + simpl. exists rows, evs. split; [reflexivity |]. split; [lia |].
      intros path c Hin. rewrite Forall_forall in F. apply F in Hin.
      contradiction.
Qed.

Lemma rows_at_most_requested_count_witness :
  0 < 2
  /\ (forall jobs, Permutation (Sample.reversed jobs) jobs)
  /\ exists rows evs,
       snd ((self <- new_scraper (Some 2) (Some "csv") false ;;
             run_scraping self Sample.world_ok Sample.reversed) Entry.start)
         = mkState rows (trace Entry.start ++ evs)
       /\ Z.of_nat (List.length rows) <= 2
       /\ forall path c, In (EvWriteDataset path c) evs ->
                         Z.of_nat (saved_rows c) <= 2.
Proof.
  split; [lia |].
  split; [intros jobs; symmetry; apply Permutation_rev |].
  apply (rows_at_most_requested_count Sample.world_ok Sample.reversed 2
           (Some "csv") false Entry.start).
  - lia.
  - intros jobs. symmetry. apply Permutation_rev.
Defined.

(** The list comprehension of [run_scraping] cuts a list that is not empty
    into consecutive slices of [min(len, 5)] items: the slices in order make
    up the list again, every slice has between one and five items, every
    slice but the last is full, and zipped with the slices of the rankings
    it gives at most five pairs. *)
Lemma batches_partition (titles_urls : list pyval)
    (ranks : list string) :
  titles_urls <> [] ->
  let batch_size := Nat.min (List.length titles_urls) max_threads in
  let title_batches := batches titles_urls batch_size in
  batch_size = Nat.min (List.length titles_urls) 5
  /\ List.concat title_batches = titles_urls
  /\ Forall (fun b => (1 <= List.length b <= batch_size)%nat
                      /\ (List.length b <= 5)%nat) title_batches
  /\ (forall i, (S i < List.length title_batches)%nat ->
                List.length (nth i title_batches []) = batch_size)
  /\ Forall (fun tr => (List.length (combine (fst tr) (snd tr)) <= 5)%nat)
            (combine title_batches (batches ranks batch_size)).
Proof.
  intros Hne batch_size title_batches.
  assert (Hlen : (0 < List.length titles_urls)%nat)
    by (destruct titles_urls; [congruence | simpl; lia]).
  assert (Hbs : (0 < batch_size)%nat)
    by (unfold batch_size, max_threads; lia).
  assert (Hbs5 : (batch_size <= 5)%nat)
    by (unfold batch_size, max_threads; lia).
  assert (Hall : Forall (fun b => (1 <= List.length b <= batch_size)%nat
                                  /\ (List.length b <= 5)%nat) title_batches).
  { apply Forall_forall. intros b Hb.
    unfold title_batches in Hb. rewrite Batches.batches_chunks in Hb.
    apply Batches.In_chunks in Hb. destruct Hb as (j & Hj & ->).
    pose proof (Batches.ceil_last_below _ _ _ Hbs Hj).
    rewrite length_firstn, length_skipn. lia. }
  split; [reflexivity |].
  split; [apply Run.concat_batches; exact Hbs |].
  split; [exact Hall |].
  split.
  - intros i Hi. unfold title_batches in *.
    rewrite Batches.batches_chunks in *. rewrite Batches.length_chunks in Hi.
    rewrite Batches.nth_chunks by lia.
    pose proof (Batches.ceil_full_before_last _ _ _ Hbs Hi).
    rewrite length_firstn, length_skipn. lia.
  - apply Forall_forall. intros [tb rb] Hin. simpl.
    apply in_combine_l in Hin.
    rewrite Forall_forall in Hall. destruct (Hall tb Hin) as [_ H5].
    rewrite length_combine. lia.
Qed.


(* ===================================================================== *)
(** * Properties of the page scrapers                                     *)
(* ===================================================================== *)

(** The handlers that the four single-page scrapers share: a timeout or
    WebDriver error that leaves the [try] body is answered by a warning,
    the null result and [driver.quit()]; nothing is loaded again. *)
Lemma page_wrapper_on_error {A} (body : M A) (none : A) (t1 t2 : string)
    (s s1 : state) (e : exn) :
  body s = (Raise e, s1) ->
  is_WebDriverException e = true ->
  exists text,
    try_finally
      (try_except body
         [(is_TimeoutException, fun _ => print Yellow t1 ;;; ret none);
          (is_WebDriverException, fun _ => print Yellow t2 ;;; ret none)])
      (emit EvQuit) s
    = (Ok none, mkState (data s1) (trace s1 ++ [EvPrint Yellow text; EvQuit])).
Proof.
  intros Hbody Hwd. unfold try_finally, try_except. rewrite Hbody.
  cbn [select_clause]. rewrite Hwd.
  destruct (is_TimeoutException e);
    eexists; unfold bind, print, emit, ret; cbn [data trace];
    rewrite <- app_assoc; reflexivity.
Qed.

(** The click loop keeps going after a WebDriver error: such an error
    never leaves it. *)
Lemma click_loop_not_left_by_WebDriverException (sp : SearchPage)
    (count i : nat) (s s1 : state) (e : exn) :
  click_loop sp i count s = (Ok (Some e), s1) ->
  is_WebDriverException e = false.
Proof.
  revert i s. induction count as [| count IH]; intros i s; cbn [click_loop].
  - intros [=].
  - unfold bind at 1. unfold emit at 1.
    destruct (sp_click sp i) as [u | e2].
    + unfold bind at 1. unfold print at 1, emit at 1. apply IH.
    + destruct (is_WebDriverException (Error e2)) eqn:Hwd.
      * unfold bind at 1. unfold print at 1, emit at 1. apply IH.
      * intros [= <- _]. exact Hwd.
Qed.

(** C4, amended: every page scraper answers a timeout or WebDriver error
    that leaves its [try] block (for the search page: an error of loading
    the page or of reading the total) by a warning and a result whose
    fields are all the missing marker ([None]; the empty lists for the
    search page), quits its browser and returns; the page is loaded once,
    never again. *)
Theorem fetch_errors_are_downgraded :
  (forall url pg s s1 e,
      titles_try url pg s = (Raise e, s1) ->
      is_WebDriverException e = true ->
      exists text,
        scrap_titles_page url pg s =
          (Ok title_all_none,
           mkState (data s1) (trace s1 ++ [EvPrint Yellow text; EvQuit])))
  /\ (forall url pg s s1 e,
      ratings_try url pg s = (Raise e, s1) ->
      is_WebDriverException e = true ->
      exists text,
        scrap_ratings_page url pg s =
          (Ok ratings_none,
           mkState (data s1) (trace s1 ++ [EvPrint Yellow text; EvQuit])))
  /\ (forall url pg s s1 e,
      parents_try url pg s = (Raise e, s1) ->
      is_WebDriverException e = true ->
      exists text,
        scrap_parents_control_page url pg s =
          (Ok parents_none,
           mkState (data s1) (trace s1 ++ [EvPrint Yellow text; EvQuit])))
  /\ (forall url pg s s1 e,
      images_try url pg s = (Raise e, s1) ->
      is_WebDriverException e = true ->
      exists text,
        scrap_images_page url pg s =
          (Ok images_none,
           mkState (data s1) (trace s1 ++ [EvPrint Yellow text; EvQuit])))
  /\ (forall n0 sp s ua e,
      sp_user_agent sp = Returned ua ->
      sp_get sp = Raised e
      \/ (sp_get sp = Returned tt /\ sp_titles_len sp = Raised e) ->
      is_WebDriverException (Error e) = true ->
      exists text,
        scrap_adv_search_page n0 sp s =
          (Ok {| titles_url := []; rankings := [] |},
           mkState (data s)
             (trace s
              ++ [EvPrint Plain ("User-Agent to scrape the initial web page is " ++ ua)%string;
                  EvGet (PyStr search_url);
                  EvPrint Yellow text]
              ++ (if differs n0 0
                  then [EvPrint Red "Error: Expected n titles, but scraped another number."]
                  else [])
              ++ [EvQuit])))
  /\ (forall url,
      (forall pg, loads_once url (scrap_titles_page url pg))
      /\ (forall pg, loads_once url (scrap_ratings_page url pg))
      /\ (forall pg, loads_once url (scrap_parents_control_page url pg))
      /\ (forall pg, loads_once url (scrap_images_page url pg))).
Proof.
  repeat split.
  - intros url pg s s1 e. apply page_wrapper_on_error.
  - intros url pg s s1 e. apply page_wrapper_on_error.
  - intros url pg s s1 e. apply page_wrapper_on_error.
  - intros url pg s s1 e. apply page_wrapper_on_error.
  - intros n0 sp s ua e Hua Hfail Hwd.
    assert (Htry : forall s0,
               adv_search_try n0 sp s0 =
                 (Ok (Build_locals n0 [] [], Some (Error e)),
                  mkState (data s0) (trace s0 ++ [EvGet (PyStr search_url)]))).
    { intros s0. unfold adv_search_try, bind, emit, ret.
      destruct Hfail as [-> | [-> ->]]; reflexivity. }
    unfold scrap_adv_search_page. unfold bind at 1. unfold ask. rewrite Hua.
    unfold bind at 1. unfold print at 1, emit at 1.
    unfold bind at 1. rewrite Htry. cbn [data trace l_n l_titles_url l_rankings].
    rewrite !Run.slice_to_nil. cbn [List.length].
    destruct (is_TimeoutException (Error e)).
    + eexists. unfold bind, print, emit, ret. cbn [data trace].
      destruct (differs n0 0); cbn [data trace];
        rewrite <- ?app_assoc; reflexivity.
    + rewrite Hwd.
      eexists. unfold bind, print, emit, ret. cbn [data trace].
      destruct (differs n0 0); cbn [data trace];
        rewrite <- ?app_assoc; reflexivity.
  - apply Frame.scrap_titles_page_loads_once.
  - apply Frame.scrap_ratings_page_loads_once.
  - apply Frame.scrap_parents_control_page_loads_once.
  - apply Frame.scrap_images_page_loads_once.
Qed.

Lemma fetch_errors_are_downgraded_witness :
  let timeout := Error TimeoutException in
  let loaded url := mkState [] [EvGet url] in
  is_WebDriverException timeout = true
  /\ (titles_try Sample.url1 Sample.title_page_timeout Entry.start
        = (Raise timeout, loaded Sample.url1)
      /\ exists text,
           scrap_titles_page Sample.url1 Sample.title_page_timeout Entry.start
           = (Ok title_all_none,
              mkState [] [EvGet Sample.url1; EvPrint Yellow text; EvQuit]))
  /\ (ratings_try Sample.url2 Sample.ratings_timeout Entry.start
        = (Raise timeout, loaded Sample.url2)
      /\ exists text,
           scrap_ratings_page Sample.url2 Sample.ratings_timeout Entry.start
           = (Ok ratings_none,
              mkState [] [EvGet Sample.url2; EvPrint Yellow text; EvQuit]))
  /\ (parents_try Sample.url3 Sample.parents_timeout Entry.start
        = (Raise timeout, loaded Sample.url3)
      /\ exists text,
           scrap_parents_control_page Sample.url3 Sample.parents_timeout Entry.start
           = (Ok parents_none,
              mkState [] [EvGet Sample.url3; EvPrint Yellow text; EvQuit]))
  /\ (images_try Sample.url1 Sample.images_timeout Entry.start
        = (Raise timeout, loaded Sample.url1)
      /\ exists text,
           scrap_images_page Sample.url1 Sample.images_timeout Entry.start
           = (Ok images_none,
              mkState [] [EvGet Sample.url1; EvPrint Yellow text; EvQuit]))
  /\ (sp_user_agent Sample.search_timeout = Returned "Mozilla/5.0"
      /\ sp_get Sample.search_timeout = Raised TimeoutException
      /\ exists text,
           scrap_adv_search_page (Some 2) Sample.search_timeout Entry.start
           = (Ok {| titles_url := []; rankings := [] |},
              mkState []
                [EvPrint Plain "User-Agent to scrape the initial web page is Mozilla/5.0";
                 EvGet (PyStr search_url);
                 EvPrint Yellow text;
                 EvPrint Red "Error: Expected n titles, but scraped another number.";
                 EvQuit])).
Proof.
  destruct fetch_errors_are_downgraded as (Ht & Hr & Hp & Hi & Hs & _).
  cbv zeta.
  split; [reflexivity |].
  split; [split; [reflexivity |] |].
  { apply (Ht Sample.url1 Sample.title_page_timeout Entry.start
              (mkState [] [EvGet Sample.url1]) (Error TimeoutException));
      reflexivity. }
  split; [split; [reflexivity |] |].
  { apply (Hr Sample.url2 Sample.ratings_timeout Entry.start
              (mkState [] [EvGet Sample.url2]) (Error TimeoutException));
      reflexivity. }
  split; [split; [reflexivity |] |].
  { apply (Hp Sample.url3 Sample.parents_timeout Entry.start
              (mkState [] [EvGet Sample.url3]) (Error TimeoutException));
      reflexivity. }
  split; [split; [reflexivity |] |].
  { apply (Hi Sample.url1 Sample.images_timeout Entry.start
              (mkState [] [EvGet Sample.url1]) (Error TimeoutException));
      reflexivity. }
  split; [reflexivity |]. split; [reflexivity |].
  apply (Hs (Some 2) Sample.search_timeout Entry.start "Mozilla/5.0"
            TimeoutException); [reflexivity | left; reflexivity | reflexivity].
Defined.

(** Against C4 as it is stated: the search page scraper asks the browser
    for its user agent before its [try] block, and a WebDriver error of
    this query is not caught: the scraper raises, with no warning and no
    result.  And a WebDriver error that an inner handler catches does not
    null the whole result: a title page on which only the link to the
    ratings page is missing (a [NoSuchElementException], which is a
    [WebDriverException]) gives a Series that keeps its other fields, and
    no warning. *)
Lemma fetch_error_outside_the_try_is_not_downgraded :
  is_WebDriverException (Error OtherWebDriverException) = true
  /\ scrap_adv_search_page None Sample.search_user_agent_fails Entry.start
     = (Raise (Error OtherWebDriverException), Entry.start)
  /\ is_WebDriverException (Error NoSuchElementException) = true
  /\ tp_ratings_url Sample.title_page_without_ratings_link
     = Raised NoSuchElementException
  /\ exists td s',
       scrap_titles_page Sample.url1 Sample.title_page_without_ratings_link
         Entry.start = (Ok td, s')
       /\ td_ratings_url td = PyNone
       /\ td_title td = PyStr "Halo"
       /\ td <> title_all_none
       /\ Forall (fun ev => forall t, ev <> EvPrint Yellow t) (trace s').
Proof.
  split; [reflexivity |]. split; [reflexivity |]. split; [reflexivity |].
  split; [reflexivity |].
  eexists. eexists. split; [vm_compute; reflexivity |].
  split; [reflexivity |]. split; [reflexivity |]. split; [discriminate |].
  repeat constructor; discriminate.
Qed.

(* ===================================================================== *)
(** * Properties of save_dataset                                          *)
(* ===================================================================== *)

Lemma has_key_In (k : string) (keys : list string) :
  has_key k keys = true <-> In k keys.
Proof.
  unfold has_key. rewrite existsb_exists. split.
  - intros (x & Hin & Heq). apply String.eqb_eq in Heq. now subst.
  - intros Hin. exists k. split; [exact Hin | apply String.eqb_refl].
Qed.



Lemma map_fst_combine {A B} (l : list A) (l' : list B) :
  List.length l = List.length l' -> map fst (combine l l') = l.
Proof.
  revert l'. induction l as [| x l IH]; intros [| y l'] H; simpl in *;
    try discriminate; [reflexivity |].
  f_equal. apply IH. lia.
Qed.



(** The second half of a run never raises; with a type other than 'json'
    and 'csv' it writes no dataset. *)
Lemma save_rows_adds (self : scraper) (w : World) :
  adds 0 (fun _ => True) no_exit (save_rows self w).
Proof.
  intros s. destruct (Run.save_rows_run self w s) as (ev & Heq & _).
  exists [], [EvPrint Plain "Scraped properly len(df) video games.";
              EvPrint Plain "Saving dataset..."; ev;
              EvPrint Plain "Scraping completed"].
  rewrite Heq, app_nil_r. simpl. repeat split; auto. discriminate.
Qed.

Lemma save_rows_adds_unknown_type (self : scraper) (w : World) (t : string) :
  dwl_type self = Some t -> t <> "json" -> t <> "csv" ->
  adds 0 no_dataset no_exit (save_rows self w).
Proof.
  intros Ht Hj Hc s.
  destruct (Run.save_rows_run self w s) as (ev & Heq & _ & Hbad).
  rewrite (Hbad t Ht Hj Hc) in Heq.
  eexists [], _. rewrite Heq, app_nil_r. simpl.
  repeat split; auto; try discriminate.
  repeat constructor.
Qed.

(** C10: with a file type other than 'json', 'csv' and None,
    [save_dataset] only prints the error message and returns; a run whose
    first half returned goes on to its end and returns; and no run, however
    it ends, writes a dataset file or exits the process. *)
Theorem save_dataset_unknown_type_writes_nothing (self : scraper) (w : World)
    (sched : schedule) (t : string) :
  dwl_type self = Some t -> t <> "json" -> t <> "csv" ->
  (forall jobs, Permutation (sched jobs) jobs) ->
  (forall df s,
      save_dataset self w df s =
        (Ok tt,
         mkState (data s)
           (trace s ++ [EvPrint Red
                          "Error: Invalid file type. Please specify 'json' or 'csv'"])))
  /\ (forall s0 s1,
      collect_rows self w sched s0 = (Ok tt, s1) ->
      run_scraping self w sched s0 =
        (Ok tt,
         mkState (data s1)
           (trace s1 ++ [EvPrint Plain "Scraped properly len(df) video games.";
                         EvPrint Plain "Saving dataset...";
                         EvPrint Red
                           "Error: Invalid file type. Please specify 'json' or 'csv'";
                         EvPrint Plain "Scraping completed"])))
  /\ (forall s0, exists rows evs,
      snd (run_scraping self w sched s0)
        = mkState (data s0 ++ rows) (trace s0 ++ evs)
      /\ Forall no_dataset evs
      /\ ~ exited (fst (run_scraping self w sched s0))).
Proof.
  intros Ht Hj Hc Hsched. split; [| split].
  - intros df s.
    destruct (Run.save_dataset_run self w df s) as (ev & Hrun & _ & _ & Hbad).
    now rewrite (Hbad t Ht Hj Hc) in Hrun.
  - intros s0 s1 Hfirst.
    rewrite run_scraping_halves, Hfirst.
    destruct (Run.save_rows_run self w s1) as (ev & Heq & _ & Hbad).
    now rewrite (Hbad t Ht Hj Hc) in Heq.
  - intros s0.
    assert (H : adds (List.length (fst (sp_hrefs (search_page w))))
                  no_dataset no_exit (run_scraping self w sched)).
    { unfold run_scraping. apply Frame.adds_bind_left.
      - apply Run.collect_rows_adds, schedule_length, Hsched.
      - intros _. eapply save_rows_adds_unknown_type; eauto. }
    destruct (H s0) as (rows & evs & Es & _ & F & X).
    exists rows, evs. repeat split; auto.
    intros (msg & Hexit). apply X in Hexit. exact Hexit.
Qed.

Lemma save_dataset_unknown_type_writes_nothing_witness :
  let self := Sample.scraper_of (Some 2) (Some "xml") false in
  dwl_type self = Some "xml" /\ "xml" <> "json" /\ "xml" <> "csv"
  /\ (forall jobs, Permutation (Sample.in_order jobs) jobs)
  /\ forall df s,
       save_dataset self Sample.world_ok df s =
         (Ok tt,
          mkState (data s)
            (trace s ++ [EvPrint Red
                           "Error: Invalid file type. Please specify 'json' or 'csv'"])).
Proof.
  cbv zeta. split; [reflexivity |].
  split; [discriminate |]. split; [discriminate |].
  split; [intros jobs; apply Permutation_refl |].
  apply (save_dataset_unknown_type_writes_nothing
           (Sample.scraper_of (Some 2) (Some "xml") false) Sample.world_ok
           Sample.in_order "xml");
    [reflexivity | discriminate | discriminate |
     intros jobs; apply Permutation_refl].
Defined.

(* ===================================================================== *)
(** * Properties of process_arguments and main                            *)
(* ===================================================================== *)

Import Main Entry.

(** [process_arguments] case by case.  A negative count raises
    [SystemExit] inside the [try]; the bare [except] catches it and exits
    with the message for a count that is no integer. *)
Lemma process_arguments_eq (py_int : string -> option Z) (args : list string)
    (s : state) :
  process_arguments py_int args s =
    if (4 <? List.length args)%nat then
      (Raise (SystemExit "ERROR: too many arguments"), s)
    else if (2 <=? List.length args)%nat then
      match py_int (arg args 1) with
      | Some n =>
          if n <? 0
          then (Raise (SystemExit "ERROR: Invalid argument. n must be an integer"), s)
          else (Ok (Some n,
                    if (List.length args =? 2)%nat then None else Some (arg args 2),
                    (List.length args =? 4)%nat && negb (String.eqb (arg args 3) "")),
                s)
      | None =>
          (Raise (SystemExit "ERROR: Invalid argument. n must be an integer"), s)
      end
    else (Ok (None, None, false), s).
Proof.
  unfold process_arguments.
  destruct args as [| a0 [| a1 [| a2 [| a3 [| a4 rest]]]]]; try reflexivity;
    cbn [List.length Nat.ltb Nat.leb Nat.eqb arg nth];
    unfold try_except, bind, int_, sys_exit, raise, ret;
    destruct (py_int a1) as [n |]; try reflexivity;
    destruct (n <? 0); reflexivity.
Qed.

(** Whatever the pages answer, a run does not exit the process. *)
Lemma run_scraping_never_exits (self : scraper) (w : World) (sched : schedule)
    (s : state) :
  (forall jobs, Permutation (sched jobs) jobs) ->
  ~ exited (fst (run_scraping self w sched s)).
Proof.
  intros Hsched.
  assert (H : adds (List.length (fst (sp_hrefs (search_page w))))
                (fun _ => True) no_exit (run_scraping self w sched)).
  { unfold run_scraping. apply Frame.adds_bind_left.
    - eapply Run.adds_events_weaken.
      + apply Run.collect_rows_adds, schedule_length, Hsched.
      + auto.
    - intros _. apply save_rows_adds. }
  destruct (H s) as (rows & evs & _ & _ & _ & X).
  intros (msg & Hexit). apply X in Hexit. exact Hexit.
Qed.

(** C6, amended: [process_arguments] calls [sys.exit] exactly on more
    than four arguments, or on a count argument that [int] refuses or that
    is negative; otherwise it returns a triple; and a whole run raises
    [SystemExit] exactly in those cases, so no later stage calls
    [sys.exit].  (Whether a later stage ends the run by an exception that
    nothing catches is another matter.) *)
Theorem hard_stop_iff_invalid_arguments (py_int : string -> option Z)
    (w : World) (sched : schedule) (args : list string) (s : state) :
  (forall jobs, Permutation (sched jobs) jobs) ->
  (exited (fst (process_arguments py_int args s))
   <-> invalid_arguments py_int args)
  /\ (~ invalid_arguments py_int args ->
      exists n t i, process_arguments py_int args s = (Ok (n, t, i), s))
  /\ (exited (fst (main py_int w sched args s))
      <-> invalid_arguments py_int args).
Proof.
  intros Hsched.
  assert (Hcases :
    (invalid_arguments py_int args
     /\ exists msg, process_arguments py_int args s = (Raise (SystemExit msg), s))
    \/ (~ invalid_arguments py_int args
        /\ exists n t i, process_arguments py_int args s = (Ok (n, t, i), s))).
  { rewrite process_arguments_eq. unfold invalid_arguments.
    destruct (4 <? List.length args)%nat eqn:H4.
    - apply Nat.ltb_lt in H4. left. split; [left; exact H4 | eauto].
    - apply Nat.ltb_ge in H4.
      destruct (2 <=? List.length args)%nat eqn:H2.
      + apply Nat.leb_le in H2.
        destruct (py_int (arg args 1)) as [n |] eqn:Hint.
        * destruct (n <? 0) eqn:Hneg.
          -- apply Z.ltb_lt in Hneg. left. split; [| eauto].
             right. split; [lia |]. right. eauto.
          -- apply Z.ltb_ge in Hneg. right. split; [| eauto].
             intros [H | [_ [H | (m & H & Hm)]]]; [lia | discriminate |].
             injection H as <-. lia.
        * left. split; [| eauto]. right. split; [lia |]. left. reflexivity.
      + apply Nat.leb_gt in H2. right. split; [| eauto].
        intros [H | [H _]]; lia. }
  split; [| split].
  - destruct Hcases as [[Hinv (msg & Heq)] | [Hvalid (n & t & i & Heq)]];
      rewrite Heq; simpl.
    + split; [auto | intros _; exists msg; reflexivity].
    + split; [intros (msg & [=]) | intros H; contradiction].
  - intros Hvalid.
    destruct Hcases as [[Hinv _] | [_ H]]; [contradiction | exact H].
  - unfold main. unfold bind at 1.
    destruct Hcases as [[Hinv (msg & Heq)] | [Hvalid (n & t & i & Heq)]];
      rewrite Heq.
    + simpl. split; [auto | intros _; exists msg; reflexivity].
    + split; [| intros H; contradiction].
      intros Hexit. exfalso.
      unfold bind, new_scraper in Hexit.
      eapply run_scraping_never_exits; eauto.
Qed.

Lemma hard_stop_iff_invalid_arguments_witness :
  (forall jobs, Permutation (Sample.in_order jobs) jobs)
  /\ (exited (fst (process_arguments ascii_int ["main.py"; "-3"; "csv"] start))
      <-> invalid_arguments ascii_int ["main.py"; "-3"; "csv"])
  /\ (exited (fst (main ascii_int Sample.world_ok Sample.in_order
                        ["main.py"; "-3"; "csv"] start))
      <-> invalid_arguments ascii_int ["main.py"; "-3"; "csv"]).
Proof.
  split; [intros jobs; apply Permutation_refl |].
  destruct (hard_stop_iff_invalid_arguments ascii_int Sample.world_ok
              Sample.in_order ["main.py"; "-3"; "csv"] start
              (fun jobs => Permutation_refl jobs)) as (H1 & _ & H3).
  split; [exact H1 | exact H3].
Defined.

(** Against C6 as it is stated, in its last part: a later stage can end
    the process although the arguments are valid.  With no argument but the
    program name, a search page on which a link has no [href] makes
    [run_scraping] raise a [TypeError] that nothing catches: [main] does
    not return, the interpreter ends with the traceback, and no dataset
    has been written. *)
Lemma valid_arguments_do_not_keep_the_run_alive :
  ~ invalid_arguments Main.ascii_int ["main.py"]
  /\ exists s',
       Entry.main Main.ascii_int
         (Sample.world_with_search Sample.search_link_without_url)
         Sample.in_order ["main.py"] Entry.start
       = (Raise (Error TypeError), s')
       /\ Forall no_dataset (trace s').
Proof.
  split.
  - unfold invalid_arguments. cbn [List.length]. intros [H | [H _]]; lia.
  - exists (snd (Entry.main Main.ascii_int
                   (Sample.world_with_search Sample.search_link_without_url)
                   Sample.in_order ["main.py"] Entry.start)).
    split; [vm_compute; reflexivity |].
    vm_compute. repeat constructor.
Qed.

(** The runs on both sides of the line: a negative count exits, a valid
    one does not. *)
Lemma main_exits_on_negative_count :
  fst (main ascii_int Sample.world_ok Sample.in_order ["main.py"; "-3"; "csv"] start)
  = Raise (SystemExit "ERROR: Invalid argument. n must be an integer").
Proof. reflexivity. Qed.

Lemma main_returns_on_valid_count :
  fst (main ascii_int Sample.world_ok Sample.in_order ["main.py"; "2"; "csv"] start)
  = Ok tt.
Proof. vm_compute. reflexivity. Qed.

(** C9: for four arguments, [process_arguments] returns (whenever it
    returns, that is for a count that is an integer and not negative) the
    image flag [True] for every non-empty fourth argument, whatever its
    text, and [False] for the empty one; with fewer arguments the flag is
    [False]. *)
Theorem image_flag_is_nonempty_test (py_int : string -> option Z)
    (args : list string) (s : state) :
  (forall n, List.length args = 4%nat -> py_int (arg args 1) = Some n ->
             0 <= n ->
             process_arguments py_int args s =
               (Ok (Some n, Some (arg args 2),
                    negb (String.eqb (arg args 3) "")), s))
  /\ (forall n t flag s',
         process_arguments py_int args s = (Ok (n, t, flag), s') ->
         (flag = true <-> (List.length args = 4%nat /\ arg args 3 <> ""))
         /\ (flag = false <->
             ((List.length args < 4)%nat
              \/ (List.length args = 4%nat /\ arg args 3 = "")))).
Proof.
  split.
  - intros n Hlen Hint Hn. rewrite process_arguments_eq, Hlen, Hint.
    simpl. destruct (n <? 0) eqn:Hneg; [apply Z.ltb_lt in Hneg; lia |].
    reflexivity.
  - intros n t flag s'. rewrite process_arguments_eq.
    destruct (4 <? List.length args)%nat eqn:H4; [discriminate |].
    apply Nat.ltb_ge in H4.
    destruct (2 <=? List.length args)%nat eqn:H2.
    + destruct (py_int (arg args 1)) as [z |]; [| discriminate].
      destruct (z <? 0); [discriminate |].
      intros [= _ _ <- _].
      destruct (List.length args =? 4)%nat eqn:E4.
      * apply Nat.eqb_eq in E4.
        destruct (String.eqb (arg args 3) "") eqn:Es; simpl.
        -- apply String.eqb_eq in Es. split.
           ++ split; [discriminate | intros [_ H]; contradiction].
           ++ split; [auto | reflexivity].
        -- apply String.eqb_neq in Es. split.
           ++ split; [auto | reflexivity].
           ++ split; [discriminate |].
              intros [H | [_ H]]; [lia | contradiction].
      * apply Nat.eqb_neq in E4. simpl. split.
        -- split; [discriminate | intros [H _]; contradiction].
        -- split; [intros _; left; lia | reflexivity].
    + apply Nat.leb_gt in H2. intros [= _ _ <- _]. split.
      * split; [discriminate | intros [H _]; lia].
      * split; [intros _; left; lia | reflexivity].
Qed.

Lemma image_flag_is_nonempty_test_witness :
  List.length ["main.py"; "5"; "json"; "False"] = 4%nat
  /\ ascii_int "5" = Some 5
  /\ 0 <= 5
  /\ process_arguments ascii_int ["main.py"; "5"; "json"; "False"] start
     = (Ok (Some 5, Some "json", true), start).
Proof.
  split; [reflexivity |]. split; [reflexivity |]. split; [lia |].
  apply (image_flag_is_nonempty_test ascii_int
           ["main.py"; "5"; "json"; "False"] start); [reflexivity | reflexivity | lia].
Defined.

(* ===================================================================== *)
(** * Runs that come to their end                                         *)
(* ===================================================================== *)

Section Completion.
Context (self : scraper) (w : World) (sched : schedule).

Let sp := search_page w.

(** The failures that the search page is allowed: timeouts and other
    WebDriver errors; and the hrefs it lists are strings. *)
Hypothesis user_agent_answers : exists ua, sp_user_agent sp = Returned ua.
Hypothesis get_fails_softly : webdriver_failure_at_worst (sp_get sp).
Hypothesis count_fails_softly : webdriver_failure_at_worst (sp_titles_len sp).
Hypothesis clicks_fail_softly : forall i, webdriver_failure_at_worst (sp_click sp i).
Hypothesis hrefs_are_strings : Forall (fun v => is_str v = true) (fst (sp_hrefs sp)).

Lemma click_loop_completes (count i : nat) (s : state) :
  exists s', click_loop sp i count s = (Ok None, s').
Proof.
  revert i s. induction count as [| count IH]; intros i s; cbn [click_loop].
  - eexists. reflexivity.
  - unfold bind at 1. unfold emit at 1.
    pose proof (clicks_fail_softly i) as Hc.
    unfold webdriver_failure_at_worst in Hc.
    destruct (sp_click sp i) as [u | e].
    + unfold bind at 1. unfold print at 1, emit at 1. apply IH.
    + rewrite Hc. unfold bind at 1. unfold print at 1, emit at 1. apply IH.
Qed.

Lemma adv_search_try_completes (n0 : option Z) (s : state) :
  exists loc left_by s',
    adv_search_try n0 sp s = (Ok (loc, left_by), s')
    /\ (forall e, left_by = Some e -> is_WebDriverException e = true).
Proof.
  unfold adv_search_try. unfold bind at 1. unfold emit at 1.
  pose proof get_fails_softly as Hg. pose proof count_fails_softly as Hl.
  unfold webdriver_failure_at_worst in Hg, Hl.
  destruct (sp_get sp) as [u | e].
  - destruct (sp_titles_len sp) as [len | e].
    + unfold bind at 1.
      match goal with |- context [click_loop sp 0 ?c ?st] =>
        destruct (click_loop_completes c 0 st) as (s1 & ->)
      end.
      unfold warn_if_ended, bind, print, emit, ret.
      destruct (snd (sp_hrefs sp)), (snd (sp_rankings sp));
        do 3 eexists; (split; [reflexivity | discriminate]).
    + do 3 eexists. split; [reflexivity |]. now intros e' [= <-].
  - do 3 eexists. split; [reflexivity |]. now intros e' [= <-].
Qed.

Lemma scrap_adv_search_page_completes (n0 : option Z) (s : state) :
  exists sd s',
    scrap_adv_search_page n0 sp s = (Ok sd, s')
    /\ Forall (fun v => is_str v = true) (titles_url sd).
Proof.
  destruct user_agent_answers as (ua & Hua).
  unfold scrap_adv_search_page. unfold bind at 1. unfold ask. rewrite Hua.
  unfold bind at 1. unfold print at 1, emit at 1.
  unfold bind at 1.
  match goal with |- context [adv_search_try n0 sp ?st] =>
    destruct (adv_search_try_completes n0 st) as (loc & left_by & s1 & Htry & Hwd);
    pose proof (Run.adv_search_try_locals _ _ _ _ _ _ Htry) as Hloc;
    rewrite Htry
  end.
  assert (Hstr : Forall (fun v => is_str v = true)
                        (slice_to (l_titles_url loc) (l_n loc))).
  { destruct Hloc as [[-> _] | (-> & _ & n' & -> & _)].
    - rewrite Run.slice_to_nil. constructor.
    - unfold slice_to. apply Forall_forall. intros v Hin.
      rewrite Forall_forall in hrefs_are_strings. apply hrefs_are_strings.
      rewrite <- (firstn_skipn
                    (if n' <? 0
                     then (List.length (fst (sp_hrefs sp)) - Z.to_nat (- n'))%nat
                     else Z.to_nat n') (fst (sp_hrefs sp))).
      apply in_or_app. left. destruct (n' <? 0); exact Hin. }
  destruct left_by as [e |].
  - rewrite (Hwd e eq_refl).
    destruct (is_TimeoutException e);
      unfold bind, print, emit, ret;
      destruct (differs _ _); do 2 eexists; (split; [reflexivity | exact Hstr]).
  - unfold bind, print, emit, ret.
    destruct (differs _ _); do 2 eexists; (split; [reflexivity | exact Hstr]).
Qed.

(** A pool gives the control back whatever its jobs do. *)
Lemma run_pool_returns (jobs : list Job) (s : state) :
  exists s', run_pool self w sched jobs s = (Ok tt, s').
Proof.
  unfold run_pool. revert s.
  induction (sched jobs) as [| job rest IH]; intros s; simpl.
  - eexists. reflexivity.
  - unfold bind, submit.
    destruct (scrape_title self w (fst job) (snd job) s) as [r s1].
    apply IH.
Qed.

Lemma batch_loop_completes (last : nat)
    (zipped : list (list pyval * list string)) (i : nat) (s : state) :
  Forall (fun tr => Forall (fun v => is_str v = true) (fst tr)) zipped ->
  exists s', batch_loop self w sched last i zipped s = (Ok tt, s').
Proof.
  revert i s. induction zipped as [| [tb rb] rest IH]; intros i s Hstr;
    cbn [batch_loop].
  - eexists. reflexivity.
  - inversion Hstr as [| ? ? Htb Hrest]; subst. simpl in Htb.
    unfold bind at 1. unfold print_titles.
    assert (Hall : forallb is_str tb = true)
      by (apply forallb_forall; now rewrite Forall_forall in Htb).
    rewrite Hall. unfold print at 1, emit at 1.
    unfold bind at 1.
    match goal with |- context [run_pool self w sched ?j ?st] =>
      destruct (run_pool_returns j st) as (s1 & ->)
    end.
    unfold bind at 1. unfold print at 1, emit at 1.
    unfold bind at 1.
    destruct (i =? last)%nat; unfold ret, emit; apply IH; exact Hrest.
Qed.

Lemma batches_keep {A} (P : A -> Prop) (l : list A) (bs : nat) :
  Forall P l -> Forall (Forall P) (batches l bs).
Proof.
  intros Hl. apply Forall_forall. intros b Hb.
  rewrite Batches.batches_chunks in Hb. apply Batches.In_chunks in Hb.
  destruct Hb as (j & _ & ->).
  apply Forall_forall. intros x Hx.
  rewrite Forall_forall in Hl. apply Hl.
  rewrite <- (firstn_skipn (j * bs) l). apply in_or_app. right.
  rewrite <- (firstn_skipn bs (skipn (j * bs) l)). apply in_or_app. now left.
Qed.

(** X25: when the search page fails at worst with timeouts and WebDriver
    errors and the links it lists have string URLs, a run comes to its end
    and returns: whatever the title pages and the secondary pages do is
    kept inside the jobs. *)
Theorem run_scraping_completes (s : state) :
  exists s', run_scraping self w sched s = (Ok tt, s').
Proof.
  rewrite run_scraping_halves.
  assert (Hfirst : exists s1, collect_rows self w sched s = (Ok tt, s1)).
  { unfold collect_rows. unfold bind at 1.
    destruct (scrap_adv_search_page_completes (self_n self) s)
      as (sd & s1 & Hsd & Hstr).
    fold sp. rewrite Hsd.
    destruct (titles_url sd) as [| u us] eqn:Et; [eexists; reflexivity |].
    rewrite <- Et in *.
    unfold bind at 1.
    match goal with |- context [batch_loop self w sched ?l ?i ?z] =>
      assert (Hz : Forall (fun tr => Forall (fun v => is_str v = true) (fst tr)) z)
    end.
    { apply Forall_forall. intros [tb rb] Hin. simpl.
      apply in_combine_l in Hin.
      pose proof (batches_keep _ _ (Nat.min (List.length (titles_url sd)) max_threads)
                    Hstr) as Hb.
      rewrite Forall_forall in Hb. now apply Hb. }
    destruct (negb _); unfold bind, print, emit;
      apply batch_loop_completes; exact Hz. }
  destruct Hfirst as (s1 & ->).
  destruct (Run.save_rows_run self w s1) as (ev & -> & _).
  eexists. reflexivity.
Qed.

End Completion.

(** A run in which no title page loads still comes to its end. *)
Lemma run_scraping_completes_without_title_pages :
  exists s',
    run_scraping (Sample.scraper_of (Some 2) None true)
      Sample.world_title_timeouts Sample.reversed start = (Ok tt, s')
    /\ data s' = [].
Proof.
  destruct (run_scraping_completes (Sample.scraper_of (Some 2) None true)
              Sample.world_title_timeouts Sample.reversed) with (s := start)
    as (s' & Hrun).
  - exists "Mozilla/5.0". reflexivity.
  - exact I.
  - exact I.
  - intros i. exact I.
  - repeat constructor.
  - exists s'. split; [exact Hrun |].
    change s' with (snd (Ok tt, s')). rewrite <- Hrun. reflexivity.
Defined.

(* ===================================================================== *)
(** * The jobs of a run                                                   *)
(* ===================================================================== *)

Lemma combine_nil_r {A B} (l : list A) : combine l (@nil B) = [].
Proof. now destruct l. Qed.

Lemma combine_firstn_skipn {A B} (n : nat) (a : list A) (b : list B) :
  combine (firstn n a) (firstn n b) ++ combine (skipn n a) (skipn n b)
  = combine a b.
Proof.
  revert a b. induction n as [| n IH]; intros a b; [reflexivity |].
  destruct a as [| x a]; [reflexivity |].
  destruct b as [| y b]; [simpl; now rewrite combine_nil_r |].
  simpl. f_equal. apply IH.
Qed.

Lemma zipped_chunks {A B} (bs k1 k2 : nat) (a : list A) (b : list B) :
  (List.length a <= k1 * bs)%nat -> (List.length b <= k2 * bs)%nat ->
  List.concat (map (fun tr => combine (fst tr) (snd tr))
                 (combine (chunks k1 bs a) (chunks k2 bs b)))
  = combine a b.
Proof.
  revert k2 a b. induction k1 as [| k1 IH]; intros k2 a b Ha Hb.
  - destruct a; [reflexivity | simpl in Ha; lia].
  - destruct k2 as [| k2].
    + destruct b; [| simpl in Hb; lia].
      unfold chunks at 2. simpl. now rewrite !combine_nil_r.
    + rewrite !Batches.chunks_succ. simpl. rewrite IH.
      * apply combine_firstn_skipn.
      * rewrite length_skipn. lia.
      * rewrite length_skipn. lia.
Qed.

(** Zipping slice by slice is zipping the whole lists. *)
Lemma zip_of_the_batches (titles_urls : list pyval)
    (ranks : list string) :
  titles_urls <> [] ->
  let batch_size := Nat.min (List.length titles_urls) max_threads in
  List.concat (map zip_batch
                 (combine (batches titles_urls batch_size)
                          (batches ranks batch_size)))
    = combine titles_urls ranks
  /\ List.length (combine titles_urls ranks)
     = Nat.min (List.length titles_urls) (List.length ranks).
Proof.
  intros Hne batch_size.
  assert (Hbs : (0 < batch_size)%nat).
  { unfold batch_size, max_threads.
    destruct titles_urls; [congruence | simpl; lia]. }
  split; [| apply length_combine].
  rewrite !Batches.batches_chunks.
  apply zipped_chunks; apply Batches.ceil_covers; exact Hbs.
Qed.


(* ===================================================================== *)
(** * scrape_title, phase by phase                                        *)
(* ===================================================================== *)

(** With usable title data, [scrape_title] is: the ratings thread (when
    its link is there), the parents-guide thread (when its link is there),
    the image thread, none of which touches [self.data]; then the row, which
    is appended when both threads have left a Series and is a [TypeError]
    otherwise. *)
Lemma scrape_title_phases (self : scraper) (w : World) (title_url : pyval)
    (ranking : string) (s s1 : state) (td : TitleData) :
  scrap_titles_page title_url (title_page w title_url) s = (Ok td, s1) ->
  title_isna_all td = false ->
  exists rd pd s4,
    data s4 = data s
    /\ (if truthy (td_ratings_url td)
        then exists sa,
            rd = thread_result (fst (scrape_ratings w (td_ratings_url td) sa))
        else rd = None)
    /\ (if truthy (td_parent_c_url td)
        then exists sa,
            pd = thread_result
                   (fst (scrape_parent_control w (td_parent_c_url td) sa))
        else pd = None)
    /\ scrape_title self w title_url ranking s =
         match pd, rd with
         | Some p, Some r =>
             (Ok tt,
              mkState (data s4 ++ [title_row td ranking title_url p r])
                      (trace s4 ++ [EvPrint Green "Video game added to dataset"]))
         | _, _ => (Raise (Error TypeError), s4)
         end.
Proof.
  intros Hpage Hna.
  assert (Hs1 : data s1 = data s).
  { change s1 with (snd (Ok td, s1)). rewrite <- Hpage.
    apply Frame.adds_keeps_data with (P := fun _ => True) (E := fun _ => True).
    apply Frame.scrap_titles_page_adds; auto. }
  unfold scrape_title. unfold bind at 1. rewrite Hpage, Hna.
  unfold bind at 1.
  assert (HR : exists o s2,
             (if truthy (td_ratings_url td)
              then print Plain "Scraping the ratings page" ;;;
                   run_thread (scrape_ratings w (td_ratings_url td))
              else ret None) s1 = (Ok o, s2)
             /\ data s2 = data s1
             /\ (if truthy (td_ratings_url td)
                 then exists sa,
                     o = thread_result
                           (fst (scrape_ratings w (td_ratings_url td) sa))
                 else o = None)).
  { destruct (truthy (td_ratings_url td)).
    - unfold bind, print, emit, run_thread.
      match goal with |- context [scrape_ratings w ?u ?st] =>
        pose proof (Frame.adds_keeps_data _ _ _ st (Frame.scrape_ratings_adds w u)) as Hd;
        destruct (scrape_ratings w u st) as [[a | e] s2] eqn:Eb
      end; simpl in Hd; do 2 eexists; (split; [reflexivity |]);
        (split; [exact Hd |]); eexists; rewrite Eb; reflexivity.
    - exists None, s1. repeat split; auto. }
  destruct HR as (rd & s2 & -> & Hs2 & Hrd).
  unfold bind at 1.
  assert (HP : exists o s3,
             (if truthy (td_parent_c_url td)
              then print Plain "Scraping the parents guide page" ;;;
                   run_thread (scrape_parent_control w (td_parent_c_url td))
              else ret None) s2 = (Ok o, s3)
             /\ data s3 = data s2
             /\ (if truthy (td_parent_c_url td)
                 then exists sa,
                     o = thread_result
                           (fst (scrape_parent_control w (td_parent_c_url td) sa))
                 else o = None)).
  { destruct (truthy (td_parent_c_url td)).
    - unfold bind, print, emit, run_thread.
      match goal with |- context [scrape_parent_control w ?u ?st] =>
        pose proof (Frame.adds_keeps_data _ _ _ st
                      (Frame.scrape_parent_control_adds w u)) as Hd;
        destruct (scrape_parent_control w u st) as [[a | e] s3] eqn:Eb
      end; simpl in Hd; do 2 eexists; (split; [reflexivity |]);
        (split; [exact Hd |]); eexists; rewrite Eb; reflexivity.
    - exists None, s2. repeat split; auto. }
  destruct HP as (pd & s3 & -> & Hs3 & Hpd).
  unfold bind at 1.
  assert (HI : exists s4,
             (if dwl_imgs self && truthy (td_images_url td)
              then print Plain "Scraping the images page" ;;;
                   run_thread (scrape_images w (td_images_url td) (td_title td)) ;;;
                   ret tt
              else ret tt) s3 = (Ok tt, s4)
             /\ data s4 = data s3).
  { destruct (dwl_imgs self && truthy (td_images_url td)).
    - unfold bind, print, emit, ret.
      match goal with |- context [run_thread ?b ?st] =>
        destruct (run_thread_returns b st) as (o & s4 & -> & Hd);
        rewrite (Frame.adds_keeps_data _ _ _ st (Frame.scrape_images_adds w _ _)) in Hd
      end.
      exists s4. split; auto.
    - exists s3. split; auto. }
  destruct HI as (s4 & -> & Hs4).
  exists rd, pd, s4.
  split; [congruence |]. split; [exact Hrd |]. split; [exact Hpd |].
  destruct pd as [p |]; [| reflexivity].
  destruct rd as [r |]; reflexivity.
Qed.

(** X2: an execution of [scrape_title] that raises has appended nothing,
    and one that returns has either appended nothing or one dict with the
    fifteen keys in their fixed order, the job's ranking and the job's URL. *)
Theorem scrape_title_outcome (self : scraper) (w : World) (title_url : pyval)
    (ranking : string) (s : state) :
  (forall e s',
      scrape_title self w title_url ranking s = (Raise e, s') ->
      data s' = data s)
  /\ (forall s',
      scrape_title self w title_url ranking s = (Ok tt, s') ->
      data s' = data s
      \/ exists row,
          data s' = data s ++ [row]
          /\ map fst row = row_keys
          /\ cell row "ranking" = PyStr ranking
          /\ cell row "imdb_url" = title_url).
Proof.
  destruct (scrap_titles_page title_url (title_page w title_url) s)
    as [[td | e0] s1] eqn:Hpage.
  - destruct (title_isna_all td) eqn:Hna.
    + assert (Hs1 : data s1 = data s).
      { change s1 with (snd (Ok td, s1)). rewrite <- Hpage.
        apply Frame.adds_keeps_data with (P := fun _ => True) (E := fun _ => True).
        apply Frame.scrap_titles_page_adds; auto. }
      unfold scrape_title, bind. rewrite Hpage, Hna. unfold ret.
      split; [intros e s' [=] | intros s' [= <-]; auto].
    + destruct (scrape_title_phases self w title_url ranking s s1 td Hpage Hna)
        as (rd & pd & s4 & Hd & _ & _ & ->).
      destruct pd as [p |]; [destruct rd as [r |] |].
      * split; [intros e s' [=] |].
        intros s' [= <-]. right. eexists. simpl. rewrite Hd.
        split; [reflexivity |]. repeat split; reflexivity.
      * split; [intros e s' [= _ <-]; exact Hd | intros s' [=]].
      * split; [intros e s' [= _ <-]; exact Hd | intros s' [=]].
  - assert (Hs1 : data s1 = data s).
    { change s1 with (snd (@Raise TitleData e0, s1)). rewrite <- Hpage.
      apply Frame.adds_keeps_data with (P := fun _ => True) (E := fun _ => True).
      apply Frame.scrap_titles_page_adds; auto. }
    unfold scrape_title, bind. rewrite Hpage.
    split; [intros e s' [= _ <-]; exact Hs1 | intros s' [=]].
Qed.

Lemma scrape_title_outcome_witness :
  let run := scrape_title (Sample.scraper_of None None false) Sample.world_ok
               Sample.url1 "1" start in
  run = (Ok tt, snd run)
  /\ (data (snd run) = data start
      \/ exists row,
          data (snd run) = data start ++ [row]
          /\ map fst row = row_keys
          /\ cell row "ranking" = PyStr "1"
          /\ cell row "imdb_url" = Sample.url1).
Proof.
  cbv zeta. split; [vm_compute; reflexivity |].
  apply (proj2 (scrape_title_outcome (Sample.scraper_of None None false)
                  Sample.world_ok Sample.url1 "1" start)).
  vm_compute. reflexivity.
Defined.

(** A page whose load fails with a timeout or WebDriver error: what the
    two secondary scrapers with a Series answer, in any state. *)
Lemma scrap_ratings_page_load_fails (url : pyval) (pg : RatingsPage)
    (e : error) (s : state) :
  ph_get (rp_head pg) = Raised e ->
  is_WebDriverException (Error e) = true ->
  exists s', scrap_ratings_page url pg s = (Ok ratings_none, s').
Proof.
  intros Hget Hwd.
  destruct (page_wrapper_on_error (ratings_try url pg) ratings_none
              "r_Warn: Scraping timed out"
              "r_Warn: WebDriverException occurred while scraping"
              s (mkState (data s) (trace s ++ [EvGet url])) (Error e))
    as (text & H); [| exact Hwd | eexists; exact H].
  unfold ratings_try, bind, emit, ask. rewrite Hget. reflexivity.
Qed.

Lemma scrap_parents_control_page_load_fails (url : pyval) (pg : ParentsPage)
    (e : error) (s : state) :
  ph_get (pp_head pg) = Raised e ->
  is_WebDriverException (Error e) = true ->
  exists s', scrap_parents_control_page url pg s = (Ok parents_none, s').
Proof.
  intros Hget Hwd.
  destruct (page_wrapper_on_error (parents_try url pg) parents_none
              "pc_Warn: Scraping timed out"
              "pc_Warn: WebDriverException occurred while scraping"
              s (mkState (data s) (trace s ++ [EvGet url])) (Error e))
    as (text & H); [| exact Hwd | eexists; exact H].
  unfold parents_try, bind, emit, ask. rewrite Hget. reflexivity.
Qed.

(** X3: with usable title data and both secondary links on the page, a
    ratings page and a parents-guide page that both fail to load (timeout
    or WebDriver error) cost no row: [scrape_title] returns and appends the
    row of the title with [None] as parental guide, rating and user
    ratings. *)
Theorem secondary_load_failures_keep_the_row (self : scraper) (w : World)
    (title_url : pyval) (ranking : string) (s s1 : state) (td : TitleData)
    (e1 e2 : error) :
  scrap_titles_page title_url (title_page w title_url) s = (Ok td, s1) ->
  title_isna_all td = false ->
  truthy (td_ratings_url td) = true ->
  truthy (td_parent_c_url td) = true ->
  ph_get (rp_head (ratings_page w (td_ratings_url td))) = Raised e1 ->
  is_WebDriverException (Error e1) = true ->
  ph_get (pp_head (parents_page w (td_parent_c_url td))) = Raised e2 ->
  is_WebDriverException (Error e2) = true ->
  exists s',
    scrape_title self w title_url ranking s = (Ok tt, s')
    /\ data s' = data s ++ [title_row td ranking title_url parents_none ratings_none].
Proof.
  intros Hpage Hna Hr Hp Hget1 Hwd1 Hget2 Hwd2.
  destruct (scrape_title_phases self w title_url ranking s s1 td Hpage Hna)
    as (rd & pd & s4 & Hd & Hrd & Hpd & ->).
  rewrite Hr in Hrd. rewrite Hp in Hpd.
  destruct Hrd as (sa & ->). destruct Hpd as (sb & ->).
  unfold scrape_ratings, scrape_parent_control.
  destruct (scrap_ratings_page_load_fails (td_ratings_url td) _ e1 sa Hget1 Hwd1)
    as (sa' & ->).
  destruct (scrap_parents_control_page_load_fails (td_parent_c_url td) _ e2 sb
              Hget2 Hwd2) as (sb' & ->).
  simpl. eexists. split; [reflexivity |]. simpl. now rewrite Hd.
Qed.

Lemma secondary_load_failures_keep_the_row_witness :
  exists td s1 s',
    scrap_titles_page Sample.url1
      (title_page Sample.world_secondary_timeouts Sample.url1) start = (Ok td, s1)
    /\ title_isna_all td = false
    /\ truthy (td_ratings_url td) = true
    /\ truthy (td_parent_c_url td) = true
    /\ scrape_title (Sample.scraper_of None None false)
         Sample.world_secondary_timeouts Sample.url1 "1" start = (Ok tt, s')
    /\ data s' = data start
                 ++ [title_row td "1" Sample.url1 parents_none ratings_none].
Proof.
  eexists. eexists.
  destruct (secondary_load_failures_keep_the_row
              (Sample.scraper_of None None false) Sample.world_secondary_timeouts
              Sample.url1 "1" start _ _ TimeoutException TimeoutException
              eq_refl eq_refl eq_refl eq_refl eq_refl eq_refl eq_refl eq_refl)
    as (s' & Hrun & Hdata).
  exists s'.
  split; [reflexivity |]. split; [reflexivity |]. split; [reflexivity |].
  split; [reflexivity |]. split; [exact Hrun | exact Hdata].
Defined.

Lemma scrape_title_missing_link_raises_witness :
  exists td s1 s',
    scrap_titles_page Sample.url1
      (title_page Sample.world_without_ratings_link Sample.url1) start = (Ok td, s1)
    /\ title_isna_all td = false
    /\ (truthy (td_ratings_url td) = false \/ truthy (td_parent_c_url td) = false)
    /\ scrape_title (Sample.scraper_of None None true)
         Sample.world_without_ratings_link Sample.url1 "1" start
       = (Raise (Error TypeError), s')
    /\ data s' = data start.
Proof.
  eexists. eexists.
  destruct (scrape_title_missing_link_raises
              (Sample.scraper_of None None true) Sample.world_without_ratings_link
              Sample.url1 "1" start _ _ eq_refl eq_refl (or_introl eq_refl))
    as (s' & Hrun & Hdata).
  exists s'.
  split; [reflexivity |]. split; [reflexivity |].
  split; [left; reflexivity |]. split; [exact Hrun | exact Hdata].
Defined.

(* ===================================================================== *)
(** * check_page_content and the scrapers that call it                    *)
(* ===================================================================== *)

Lemma contains_empty (t : string) : contains "" t = true.
Proof. destruct t; reflexivity. Qed.

(** X5: [check_page_content] returns exactly when the page source lacks
    "No results found.", the title has "IMDb" (when that is expected) and
    the title has the page name; it raises otherwise, and either way
    leaves the state alone.  With the empty page name and IMDb not
    expected, as the images scraper calls it, only "No results found."
    makes it raise. *)
Theorem check_page_content_contract (h : PageHead) (name : string)
    (imdb : bool) (source title : string) (s : state) :
  ph_page_source h = Returned source ->
  ph_title h = Returned title ->
  (check_page_content h name imdb s = (Ok tt, s)
   <-> (contains "No results found." source = false
        /\ (imdb = true -> contains "IMDb" title = true)
        /\ contains name title = true))
  /\ (forall r s', check_page_content h name imdb s = (r, s') ->
                   s' = s /\ (r = Ok tt \/ exists msg, r = Raise (Error (PlainException msg))))
  /\ (check_page_content h "" false s = (Ok tt, s)
      <-> contains "No results found." source = false).
Proof.
  intros Hsrc Htitle.
  assert (Hgen : forall name imdb,
    check_page_content h name imdb s =
      if contains "No results found." source
      then (Raise (Error (PlainException "No results found.")), s)
      else if imdb && negb (contains "IMDb" title)
      then (Raise (Error (PlainException "IMDb not found in page title.")), s)
      else if negb (contains name title)
      then (Raise (Error (PlainException (name ++ " not found in page title.")%string)), s)
      else (Ok tt, s)).
  { intros nm im. unfold check_page_content, bind, ask, raise, ret.
    rewrite Hsrc, Htitle.
    destruct (contains "No results found." source); [reflexivity |].
    destruct im; simpl.
    - destruct (contains "IMDb" title); simpl; [| reflexivity].
      destruct (contains nm title); reflexivity.
    - destruct (contains nm title); reflexivity. }
  split; [| split].
  - rewrite Hgen.
    destruct (contains "No results found." source);
      [split; [discriminate | intros [H _]; discriminate] |].
    destruct imdb; simpl.
    + destruct (contains "IMDb" title); simpl.
      * destruct (contains name title); simpl.
        -- split; auto.
        -- split; [discriminate | intros (_ & _ & H); discriminate].
      * split; [discriminate |]. intros (_ & H & _).
        specialize (H eq_refl). discriminate.
    + destruct (contains name title); simpl.
      * split; [intros _; repeat split; auto; discriminate | auto].
      * split; [discriminate | intros (_ & _ & H); discriminate].
  - intros r s'. rewrite Hgen.
    destruct (contains "No results found." source);
      [intros [= <- <-]; eauto |].
    destruct (imdb && negb (contains "IMDb" title)); [intros [= <- <-]; eauto |].
    destruct (negb (contains name title)); intros [= <- <-]; eauto.
  - rewrite Hgen. simpl. rewrite contains_empty. simpl.
    destruct (contains "No results found." source);
      split; auto; discriminate.
Qed.

Lemma check_page_content_contract_witness :
  ph_page_source (Sample.head_ok "Halo (2001)") = Returned "<html>...</html>"
  /\ ph_title (Sample.head_ok "Halo (2001)") = Returned "Halo (2001)"
  /\ (check_page_content (Sample.head_ok "Halo (2001)") "" false start = (Ok tt, start)
      <-> contains "No results found." "<html>...</html>" = false).
Proof.
  split; [reflexivity |]. split; [reflexivity |].
  apply (check_page_content_contract (Sample.head_ok "Halo (2001)") "Ratings" true
           "<html>...</html>" "Halo (2001)" start); reflexivity.
Defined.

(** The ratings scraper on a page that loads and shows
    "No results found.". *)
Lemma scrap_ratings_page_no_results (url : pyval) (pg : RatingsPage)
    (source : string) (s : state) :
  ph_get (rp_head pg) = Returned tt ->
  ph_page_source (rp_head pg) = Returned source ->
  contains "No results found." source = true ->
  scrap_ratings_page url pg s
  = (Raise (Error (PlainException "No results found.")),
     mkState (data s) (trace s ++ [EvGet url; EvQuit])).
Proof.
  intros Hget Hsrc Hno.
  unfold scrap_ratings_page, ratings_try, try_finally, try_except,
    check_page_content, bind, emit, ask, raise. rewrite Hget, Hsrc, Hno.
  simpl. now rewrite <- app_assoc.
Qed.

(** X6: a page that loads but fails [check_page_content] is not
    downgraded: each of the three secondary scrapers quits its browser and
    lets the plain [Exception] out, with no Series and no warning. *)
Theorem content_check_failure_escapes (url : pyval) (source : string)
    (s : state) :
  contains "No results found." source = true ->
  let failed : state := mkState (data s) (trace s ++ [EvGet url; EvQuit]) in
  (forall pg,
      ph_get (rp_head pg) = Returned tt ->
      ph_page_source (rp_head pg) = Returned source ->
      scrap_ratings_page url pg s
      = (Raise (Error (PlainException "No results found.")), failed))
  /\ (forall pg,
      ph_get (pp_head pg) = Returned tt ->
      ph_page_source (pp_head pg) = Returned source ->
      scrap_parents_control_page url pg s
      = (Raise (Error (PlainException "No results found.")), failed))
  /\ (forall pg,
      ph_get (ip_head pg) = Returned tt ->
      ph_page_source (ip_head pg) = Returned source ->
      scrap_images_page url pg s
      = (Raise (Error (PlainException "No results found.")), failed)).
Proof.
  intros Hno failed. unfold failed. repeat split; intros pg Hget Hsrc.
  - unfold scrap_ratings_page, ratings_try, try_finally, try_except,
      check_page_content, bind, emit, ask, raise. rewrite Hget, Hsrc, Hno.
    simpl. now rewrite <- app_assoc.
  - unfold scrap_parents_control_page, parents_try, try_finally, try_except,
      check_page_content, bind, emit, ask, raise. rewrite Hget, Hsrc, Hno.
    simpl. now rewrite <- app_assoc.
  - unfold scrap_images_page, images_try, try_finally, try_except,
      check_page_content, bind, emit, ask, raise. rewrite Hget, Hsrc, Hno.
    simpl. now rewrite <- app_assoc.
Qed.

Lemma content_check_failure_escapes_witness :
  let pg := {| rp_head := {| ph_get := Returned tt;
                             ph_page_source := Returned "<p>No results found.</p>";
                             ph_title := Returned "IMDb" |};
               rp_rating := Returned "8.6";
               rp_votes := fun _ => Returned "1" |} in
  contains "No results found." "<p>No results found.</p>" = true
  /\ scrap_ratings_page Sample.url1 pg start
     = (Raise (Error (PlainException "No results found.")),
        mkState [] [EvGet Sample.url1; EvQuit]).
Proof.
  cbv zeta. split; [reflexivity |].
  apply (content_check_failure_escapes Sample.url1 "<p>No results found.</p>" start);
    reflexivity.
Defined.

(** X7: a ratings page that loads and shows "No results found." costs the row:
    with usable title data and the ratings link on the page,
    [scrape_title] raises [TypeError] and appends nothing. *)
Theorem ratings_without_results_drop_the_row (self : scraper) (w : World)
    (title_url : pyval) (ranking : string) (s s1 : state) (td : TitleData)
    (source : string) :
  scrap_titles_page title_url (title_page w title_url) s = (Ok td, s1) ->
  title_isna_all td = false ->
  truthy (td_ratings_url td) = true ->
  ph_get (rp_head (ratings_page w (td_ratings_url td))) = Returned tt ->
  ph_page_source (rp_head (ratings_page w (td_ratings_url td))) = Returned source ->
  contains "No results found." source = true ->
  exists s',
    scrape_title self w title_url ranking s = (Raise (Error TypeError), s')
    /\ data s' = data s.
Proof.
  intros Hpage Hna Hr Hget Hsrc Hno.
  destruct (scrape_title_phases self w title_url ranking s s1 td Hpage Hna)
    as (rd & pd & s4 & Hd & Hrd & _ & ->).
  rewrite Hr in Hrd. destruct Hrd as (sa & ->).
  unfold scrape_ratings.
  rewrite (scrap_ratings_page_no_results _ _ source sa Hget Hsrc Hno). simpl.
  exists s4. split; [| exact Hd].
  destruct pd; reflexivity.
Qed.

Lemma ratings_without_results_drop_the_row_witness :
  let w := {| search_page := Sample.search_three;
              title_page := fun _ => Sample.full_title_page;
              ratings_page := fun _ =>
                {| rp_head := {| ph_get := Returned tt;
                                 ph_page_source := Returned "<p>No results found.</p>";
                                 ph_title := Returned "IMDb" |};
                   rp_rating := Returned "8.6";
                   rp_votes := fun _ => Returned "1" |};
              parents_page := fun _ => Sample.parents_ok;
              images_page := fun _ => Sample.images_ok;
              http_status := fun _ => Returned 200;
              store_image := fun _ _ => Returned tt;
              dataset_dir := "/repo/dataset" |} in
  contains "No results found." "<p>No results found.</p>" = true
  /\ exists s',
       scrape_title (Sample.scraper_of None None false) w Sample.url1 "1" start
       = (Raise (Error TypeError), s')
       /\ data s' = data start.
Proof.
  cbv zeta. split; [reflexivity |].
  eapply ratings_without_results_drop_the_row with (source := "<p>No results found.</p>");
    reflexivity.
Defined.

(* ===================================================================== *)
(** * Images                                                              *)
(* ===================================================================== *)

(** X8: [download_image] never raises and never touches [self.data]; it
    sends one HTTP request and then either stores the image, which it does
    exactly when the status is 200 and the file could be written, or prints
    one warning. *)
Theorem download_image_stores_or_warns (w : World) (url title : pyval)
    (s : state) :
  exists ev,
    download_image w url title s
    = (Ok tt, mkState (data s) (trace s ++ [EvHttpGet url; ev]))
    /\ ((http_status w url = Returned 200
         /\ store_image w url title = Returned tt)
        -> ev = EvWriteImage url title)
    /\ (~ (http_status w url = Returned 200
           /\ store_image w url title = Returned tt)
        -> exists text, ev = EvPrint Yellow text).
Proof.
  unfold download_image, try_except, bind, emit, ask, print, emit.
  destruct (http_status w url) as [status | e] eqn:Hs; cbn [select_clause is_Exception data trace].
  - destruct (status =? 200) eqn:H200.
    + apply Z.eqb_eq in H200. subst status.
      destruct (store_image w url title) as [[] | e] eqn:Hw;
        cbn [select_clause is_Exception data trace].
      * eexists. split; [cbn [data trace]; rewrite <- ?app_assoc; reflexivity |].
        split; [reflexivity | intros H; contradiction H; auto].
      * eexists. split; [cbn [data trace]; rewrite <- ?app_assoc; reflexivity |].
        split; [intros [_ [=]] | eauto].
    + apply Z.eqb_neq in H200.
      eexists. split; [cbn [data trace]; rewrite <- ?app_assoc; reflexivity |].
      split; [intros [[= H] _]; contradiction | eauto].
  - eexists. split; [cbn [data trace]; rewrite <- ?app_assoc; reflexivity |].
    split; [intros [[=] _] | eauto].
Qed.

Lemma download_image_stores_or_warns_witness :
  http_status Sample.world_ok Sample.url1 = Returned 200
  /\ store_image Sample.world_ok Sample.url1 (PyStr "Halo") = Returned tt
  /\ download_image Sample.world_ok Sample.url1 (PyStr "Halo") start
     = (Ok tt, mkState [] [EvHttpGet Sample.url1;
                           EvWriteImage Sample.url1 (PyStr "Halo")]).
Proof.
  split; [reflexivity |]. split; [reflexivity |].
  destruct (download_image_stores_or_warns Sample.world_ok Sample.url1
              (PyStr "Halo") start) as (ev & Hrun & Hstore & _).
  rewrite Hrun, (Hstore (conj eq_refl eq_refl)). reflexivity.
Defined.

(** X9: [scrape_images] asks for an image only when the images page gave a
    poster URL that is not empty: without one, whether the page failed to
    load, has no poster or the poster has no [src], it sends no HTTP
    request and writes no file. *)
Theorem scrape_images_needs_a_poster (w : World) (images_url title : pyval)
    (s s1 : state) (d : ImagesData) :
  scrap_images_page images_url (images_page w images_url) s = (Ok d, s1) ->
  truthy (poster_url d) = false ->
  scrape_images w images_url title s = (Ok tt, s1)
  /\ exists evs, trace s1 = trace s ++ evs /\ Forall no_image_transfer evs.
Proof.
  intros Hpage Hposter. split.
  - unfold scrape_images, bind. rewrite Hpage, Hposter. reflexivity.
  - destruct (Frame.scrap_images_page_adds no_image_transfer (fun _ => True)
                (fun _ _ => I) I (fun _ => I) (fun _ => I)
                images_url (images_page w images_url) s)
      as (rows & evs & Es & _ & F & _).
    rewrite Hpage in Es. simpl in Es. subst s1. simpl. eauto.
Qed.

Lemma scrape_images_needs_a_poster_witness :
  scrap_images_page Sample.url1
    (images_page Sample.world_secondary_timeouts Sample.url1) start
  = (Ok images_none,
     mkState [] [EvGet Sample.url1; EvPrint Yellow "im_Warn: Scraping timed out";
                 EvQuit])
  /\ truthy (poster_url images_none) = false
  /\ scrape_images Sample.world_secondary_timeouts Sample.url1 (PyStr "Halo") start
     = (Ok tt,
        mkState [] [EvGet Sample.url1; EvPrint Yellow "im_Warn: Scraping timed out";
                    EvQuit]).
Proof.
  split; [reflexivity |]. split; [reflexivity |].
  apply (scrape_images_needs_a_poster Sample.world_secondary_timeouts Sample.url1
           (PyStr "Halo") start _ images_none); reflexivity.
Defined.

(* ===================================================================== *)
(** * What the jobs of a run never do                                     *)
(* ===================================================================== *)

Section JobEvents.
Context (self : scraper) (w : World) (P : event -> Prop).
Hypothesis P_print : forall c t, P (EvPrint c t).
Hypothesis P_quit : P EvQuit.
Hypothesis P_get : forall url, P (EvGet url).
Hypothesis P_traceback : forall e, P (EvTraceback e).
Hypothesis P_images :
  dwl_imgs self = true ->
  forall url title, adds 0 P no_exit (scrape_images w url title).

(** Whatever holds of printing, loading, quitting and of the image thread
    (when images are wanted) holds of everything [scrape_title] does. *)
Lemma scrape_title_events (title_url : pyval) (ranking : string) :
  adds 1 P no_exit (scrape_title self w title_url ranking).
Proof.
  assert (Hside : forall e : error, no_exit (Error e)) by (intros; exact I).
  unfold scrape_title.
  apply Frame.adds_bind_right;
    [apply Frame.scrap_titles_page_adds; auto | intros td].
  apply Frame.adds_if; [eapply Frame.adds_weaken; [apply Frame.adds_ret | lia] |].
  apply Frame.adds_bind_right; [| intros rd].
  { apply Frame.adds_if; [| apply Frame.adds_ret].
    apply Frame.adds_bind0; [apply Frame.adds_print; auto | intros _].
    eapply Frame.adds_run_thread with (E' := no_exit); [auto |].
    apply Frame.scrap_ratings_page_adds; auto. }
  apply Frame.adds_bind_right; [| intros pd].
  { apply Frame.adds_if; [| apply Frame.adds_ret].
    apply Frame.adds_bind0; [apply Frame.adds_print; auto | intros _].
    eapply Frame.adds_run_thread with (E' := no_exit); [auto |].
    apply Frame.scrap_parents_control_page_adds; auto. }
  apply Frame.adds_bind_right; [| intros _].
  { destruct (dwl_imgs self) eqn:Himgs; [| apply Frame.adds_ret].
    simpl. apply Frame.adds_if; [| apply Frame.adds_ret].
    apply Frame.adds_bind0; [apply Frame.adds_print; auto | intros _].
    apply Frame.adds_bind0; [| intros _; apply Frame.adds_ret].
    eapply Frame.adds_run_thread with (E' := no_exit); [auto |].
    apply P_images. reflexivity. }
  apply Frame.adds_bind_right; [| intros v1].
  { unfold subscript. destruct pd; [apply Frame.adds_ret | apply Frame.adds_raise; exact I]. }
  apply Frame.adds_bind_right; [| intros v2].
  { unfold subscript. destruct rd; [apply Frame.adds_ret | apply Frame.adds_raise; exact I]. }
  apply Frame.adds_bind_right; [| intros v3].
  { unfold subscript. destruct rd; [apply Frame.adds_ret | apply Frame.adds_raise; exact I]. }
  apply Frame.adds_bind_left; [apply Frame.adds_append | intros _].
  apply Frame.adds_print; auto.
Qed.

Lemma run_pool_events (sched : schedule) (jobs : list Job) :
  adds (List.length (sched jobs)) P no_exit (run_pool self w sched jobs).
Proof.
  unfold run_pool.
  eapply Frame.adds_weaken.
  - apply Frame.adds_for_each with (k := 1%nat). intros job.
    eapply Frame.adds_submit, scrape_title_events.
  - lia.
Qed.

End JobEvents.

(** The image thread neither sleeps nor writes a dataset. *)
Lemma scrape_images_no_sleep (w : World) (url title : pyval) :
  adds 0 no_sleep no_exit (scrape_images w url title).
Proof.
  unfold scrape_images.
  apply Frame.adds_bind0;
    [apply Frame.scrap_images_page_adds; Frame.side | intros d].
  apply Frame.adds_if; [| apply Frame.adds_ret].
  unfold download_image. Frame.quiet.
Qed.

(** X10: when [dwl_imgs] is [False], a job sends no HTTP request for an
    image and writes no image file, whatever the pages show. *)
Theorem no_image_transfer_unless_wanted (self : scraper) (w : World)
    (title_url : pyval) (ranking : string) (s : state) :
  dwl_imgs self = false ->
  exists evs,
    trace (snd (scrape_title self w title_url ranking s)) = trace s ++ evs
    /\ Forall no_image_transfer evs.
Proof.
  intros Hno.
  destruct (scrape_title_events self w no_image_transfer
              (fun _ _ => I) I (fun _ => I) (fun _ => I)
              ltac:(intros H; congruence) title_url ranking s)
    as (rows & evs & Es & _ & F & _).
  exists evs. rewrite Es. auto.
Qed.

Lemma no_image_transfer_unless_wanted_witness :
  dwl_imgs (Sample.scraper_of None None false) = false
  /\ exists evs,
       trace (snd (scrape_title (Sample.scraper_of None None false)
                     Sample.world_ok Sample.url1 "1" start))
       = trace start ++ evs
       /\ Forall no_image_transfer evs.
Proof.
  split; [reflexivity |].
  apply (no_image_transfer_unless_wanted (Sample.scraper_of None None false)
           Sample.world_ok Sample.url1 "1" start).
  reflexivity.
Defined.

(* ===================================================================== *)
(** * Sleeps and clicks                                                   *)
(* ===================================================================== *)

Lemma sleeps_app (a b : list event) : sleeps (a ++ b) = (sleeps a + sleeps b)%nat.
Proof. unfold sleeps. now rewrite filter_app, length_app. Qed.

Lemma sleeps_none (evs : list event) : Forall no_sleep evs -> sleeps evs = 0%nat.
Proof.
  unfold sleeps. induction 1 as [| ev evs Hev _ IH]; [reflexivity |].
  destruct ev; simpl in *; auto; contradiction.
Qed.


(** A pool returns, and it does not sleep. *)
Lemma run_pool_no_sleep (self : scraper) (w : World) (sched : schedule)
    (jobs : list Job) (s : state) :
  exists s' evs,
    run_pool self w sched jobs s = (Ok tt, s')
    /\ trace s' = trace s ++ evs
    /\ sleeps evs = 0%nat.
Proof.
  destruct (run_pool_returns self w sched jobs s) as (s' & Hrun).
  destruct (run_pool_events self w no_sleep (fun _ _ => I) I (fun _ => I)
              (fun _ => I) (fun _ => scrape_images_no_sleep w) sched jobs s)
    as (rows & evs & Es & _ & F & _).
  rewrite Hrun in Es. simpl in Es.
  exists s', evs. split; [exact Hrun |]. rewrite Es. simpl.
  split; [reflexivity | apply sleeps_none, F].
Qed.

(** The batch loop sleeps after every batch it runs, the one at position
    [last] apart. *)
Lemma batch_loop_sleeps (self : scraper) (w : World) (sched : schedule)
    (last : nat) (zipped : list (list pyval * list string)) (i : nat)
    (s : state) :
  Forall (fun tr => Forall (fun v => is_str v = true) (fst tr)) zipped ->
  exists s' evs,
    batch_loop self w sched last i zipped s = (Ok tt, s')
    /\ trace s' = trace s ++ evs
    /\ sleeps evs
       = (List.length zipped
          - (if (i <=? last)%nat && (last <? i + List.length zipped)%nat
             then 1 else 0))%nat.
Proof.
  revert i s. induction zipped as [| [tb rb] rest IH]; intros i s Hstr;
    cbn [batch_loop].
  - exists s, []. rewrite app_nil_r. repeat split.
  - inversion Hstr as [| ? ? Htb Hrest]; subst. simpl in Htb.
    unfold bind at 1. unfold print_titles.
    assert (Hall : forallb is_str tb = true)
      by (apply forallb_forall; now rewrite Forall_forall in Htb).
    rewrite Hall. unfold print at 1, emit at 1.
    unfold bind at 1.
    match goal with |- context [run_pool self w sched ?j ?st] =>
      destruct (run_pool_no_sleep self w sched j st) as (s1 & evs1 & -> & Ht1 & Hz1)
    end.
    simpl in Ht1.
    unfold bind at 1. unfold print at 1, emit at 1.
    unfold bind at 1.
    destruct (i =? last)%nat eqn:Hi.
    + apply Nat.eqb_eq in Hi. subst last. unfold ret.
      match goal with |- context [batch_loop self w sched i (S i) rest ?st] =>
        destruct (IH (S i) st Hrest) as (s' & evs & -> & Ht & Hz)
      end.
      simpl in Ht. exists s'. eexists. split; [reflexivity |]. split.
      * rewrite Ht, Ht1. rewrite <- !app_assoc. reflexivity.
      * rewrite !sleeps_app, Hz, Hz1.
        cbn -[Nat.leb Nat.ltb Nat.sub Nat.add].
        replace (S i <=? i)%nat with false by (symmetry; apply Nat.leb_gt; lia).
        replace (i <=? i)%nat with true by (symmetry; apply Nat.leb_le; lia).
        replace (i <? i + S (List.length rest))%nat with true
          by (symmetry; apply Nat.ltb_lt; lia).
        cbn [andb]. lia.
    + apply Nat.eqb_neq in Hi. unfold emit.
      match goal with |- context [batch_loop self w sched last (S i) rest ?st] =>
        destruct (IH (S i) st Hrest) as (s' & evs & -> & Ht & Hz)
      end.
      simpl in Ht. exists s'. eexists. split; [reflexivity |]. split.
      * rewrite Ht, Ht1. rewrite <- !app_assoc. reflexivity.
      * rewrite !sleeps_app, Hz, Hz1.
        cbn -[Nat.leb Nat.ltb Nat.sub Nat.add].
        destruct (Nat.leb_spec (S i) last);
          destruct (Nat.ltb_spec last (S i + List.length rest));
          destruct (Nat.leb_spec i last);
          destruct (Nat.ltb_spec last (i + S (List.length rest)));
          cbn [andb]; lia.
Qed.

(** X11: when every title URL is a string, the loop over the batches
    returns, and it sleeps once after each batch but the last; when the
    rankings give fewer batches than the titles, the loop ends early and
    has slept after every batch it ran. *)
Theorem sleeps_between_batches (self : scraper) (w : World) (sched : schedule)
    (title_batches : list (list pyval)) (rankings_batches : list (list string))
    (s : state) :
  Forall (Forall (fun v => is_str v = true)) title_batches ->
  title_batches <> [] ->
  exists s' evs,
    batch_loop self w sched (List.length title_batches - 1) 0
               (combine title_batches rankings_batches) s = (Ok tt, s')
    /\ trace s' = trace s ++ evs
    /\ sleeps evs
       = (if (List.length title_batches <=? List.length rankings_batches)%nat
          then List.length title_batches - 1
          else List.length rankings_batches)%nat.
Proof.
  intros Hstr Hne.
  assert (Hz : Forall (fun tr => Forall (fun v => is_str v = true) (fst tr))
                      (combine title_batches rankings_batches)).
  { apply Forall_forall. intros [tb rb] Hin. simpl.
    apply in_combine_l in Hin. rewrite Forall_forall in Hstr. now apply Hstr. }
  destruct (batch_loop_sleeps self w sched (List.length title_batches - 1)
              _ 0 s Hz) as (s' & evs & Hrun & Ht & Hsl).
  exists s', evs. split; [exact Hrun |]. split; [exact Ht |].
  rewrite Hsl, length_combine. simpl.
  assert (0 < List.length title_batches)%nat
    by (destruct title_batches; [congruence | simpl; lia]).
  destruct (List.length title_batches <=? List.length rankings_batches)%nat eqn:Hle.
  - apply Nat.leb_le in Hle.
    replace (_ <? _)%nat with true by (symmetry; apply Nat.ltb_lt; lia). lia.
  - apply Nat.leb_gt in Hle.
    replace (_ <? _)%nat with false by (symmetry; apply Nat.ltb_ge; lia). lia.
Qed.

Lemma sleeps_between_batches_witness :
  let tbs := [[Sample.url1; Sample.url2]; [Sample.url3]] in
  Forall (Forall (fun v => is_str v = true)) tbs
  /\ tbs <> []
  /\ exists s' evs,
       batch_loop (Sample.scraper_of None None false) Sample.world_title_timeouts
         Sample.in_order (List.length tbs - 1) 0
         (combine tbs [["1"; "2"]; ["3"]]) start = (Ok tt, s')
       /\ trace s' = trace start ++ evs
       /\ sleeps evs = 1%nat.
Proof.
  cbv zeta. split; [repeat constructor |]. split; [discriminate |].
  apply (sleeps_between_batches (Sample.scraper_of None None false)
           Sample.world_title_timeouts Sample.in_order
           [[Sample.url1; Sample.url2]; [Sample.url3]] [["1"; "2"]; ["3"]] start).
  - repeat constructor.
  - discriminate.
Defined.

(* ===================================================================== *)
(** * Computations that do the same in every state                        *)
(* ===================================================================== *)

Module Uniform.

Lemma uniform_same {A} (r : res A) : uniform (fun s => (r, s)).
Proof.
  exists r, [], []. intros [d t]. simpl. now rewrite !app_nil_r.
Qed.

Lemma uniform_ret {A} (a : A) : uniform (ret a).
Proof. apply uniform_same. Qed.

Lemma uniform_raise {A} (e : exn) : uniform (@raise A e).
Proof. apply uniform_same. Qed.

Lemma uniform_ask {A} (r : answer A) : uniform (ask r).
Proof. unfold ask. destruct r; apply uniform_same. Qed.

Section Rules.
Context {A B : Type}.

Lemma uniform_bind (m : M A) (f : A -> M B) :
  uniform m -> (forall a, uniform (f a)) -> uniform (bind m f).
Proof.
  intros (r & rows & evs & Hm) Hf. destruct r as [a | e].
  - destruct (Hf a) as (r2 & rows2 & evs2 & Hf2).
    exists r2, (rows ++ rows2), (evs ++ evs2). intros s.
    unfold bind. rewrite Hm, Hf2. simpl. now rewrite !app_assoc.
  - exists (Raise e), rows, evs. intros s. unfold bind. now rewrite Hm.
Qed.

Lemma uniform_try_except (body : M A) (clauses : list (clause A)) :
  uniform body ->
  Forall (fun c => forall e, uniform (snd c e)) clauses ->
  uniform (try_except body clauses).
Proof.
  intros (r & rows & evs & Hm) Hc. destruct r as [a | e].
  - exists (Ok a), rows, evs. intros s. unfold try_except. now rewrite Hm.
  - destruct (select_clause clauses e) as [h |] eqn:Hsel.
    + assert (Hh : uniform h).
      { clear Hm. induction Hc as [| [t h'] cl Hc1 _ IH]; simpl in Hsel;
          [discriminate |].
        destruct (t e); [injection Hsel as <-; apply Hc1 | auto]. }
      destruct Hh as (r2 & rows2 & evs2 & Hh).
      exists r2, (rows ++ rows2), (evs ++ evs2). intros s.
      unfold try_except. rewrite Hm, Hsel, Hh. simpl. now rewrite !app_assoc.
    + exists (Raise e), rows, evs. intros s. unfold try_except.
      now rewrite Hm, Hsel.
Qed.

Lemma uniform_try_finally (body : M A) (cleanup : M unit) :
  uniform body -> uniform cleanup -> uniform (try_finally body cleanup).
Proof.
  intros (r & rows & evs & Hm) (r2 & rows2 & evs2 & Hc).
  exists (match r2 with Ok _ => r | Raise e => Raise e end),
         (rows ++ rows2), (evs ++ evs2).
  intros s. unfold try_finally. rewrite Hm, Hc. simpl. rewrite !app_assoc.
  now destruct r2.
Qed.

Lemma uniform_run_thread (body : M A) : uniform body -> uniform (run_thread body).
Proof.
  intros (r & rows & evs & Hm). destruct r as [a | e].
  - exists (Ok (Some a)), rows, evs. intros s. unfold run_thread. now rewrite Hm.
  - exists (Ok None), rows, (evs ++ [EvTraceback e]). intros s.
    unfold run_thread. rewrite Hm. simpl. now rewrite app_assoc.
Qed.

Lemma uniform_map_m (f : A -> M B) (l : list A) :
  (forall a, uniform (f a)) -> uniform (map_m f l).
Proof.
  intros Hf. induction l as [| x l IH]; simpl.
  - apply uniform_ret.
  - destruct (Hf x) as (r & rows & evs & Hx). destruct r as [y | e].
    + destruct IH as (r2 & rows2 & evs2 & Hl).
      exists (match r2 with Ok ys => Ok (y :: ys) | Raise e => Raise e end),
             (rows ++ rows2), (evs ++ evs2).
      intros s. unfold bind. rewrite Hx, Hl. simpl. rewrite !app_assoc.
      now destruct r2.
    + exists (Raise e), rows, evs. intros s. unfold bind. now rewrite Hx.
Qed.

End Rules.

Lemma uniform_emit (ev : event) : uniform (emit ev).
Proof.
  exists (Ok tt), [], [ev]. intros s. unfold emit. now rewrite app_nil_r.
Qed.

Lemma uniform_append_row (row : Row) : uniform (append_row row).
Proof.
  exists (Ok tt), [row], []. intros s. unfold append_row. now rewrite app_nil_r.
Qed.

Lemma uniform_submit (task : M unit) : uniform task -> uniform (submit task).
Proof.
  intros (r & rows & evs & Hm). exists (Ok tt), rows, evs. intros s.
  unfold submit. now rewrite Hm.
Qed.

Lemma uniform_for_each {A} (f : A -> M unit) (l : list A) :
  (forall a, uniform (f a)) -> uniform (for_each l f).
Proof.
  intros Hf. induction l as [| x l IH]; simpl.
  - apply uniform_ret.
  - apply uniform_bind; auto.
Qed.

Ltac step :=
  first
    [ apply uniform_ret | apply uniform_raise | apply uniform_emit
    | apply uniform_ask | apply uniform_append_row
    | apply uniform_bind | apply uniform_try_except | apply uniform_try_finally
    | apply uniform_map_m | apply uniform_for_each
    | apply uniform_run_thread | apply uniform_submit
    | match goal with
      | |- Forall _ [] => constructor
      | |- Forall _ (_ :: _) => constructor
      | |- forall _, _ => intro
      | |- uniform (if ?b then _ else _) => destruct b
      | |- uniform (match ?x with _ => _ end) => destruct x
      end ].

Ltac uni := repeat step.

Lemma uniform_check_page_content (h : PageHead) (name : string) (b : bool) :
  uniform (check_page_content h name b).
Proof. unfold check_page_content. uni. Qed.

Lemma uniform_scrap_titles_page (url : pyval) (pg : TitlePage) :
  uniform (scrap_titles_page url pg).
Proof. unfold scrap_titles_page, titles_try, attempt, print. uni. Qed.

Lemma uniform_scrap_ratings_page (url : pyval) (pg : RatingsPage) :
  uniform (scrap_ratings_page url pg).
Proof.
  unfold scrap_ratings_page, ratings_try, attempt, print.
  uni; apply uniform_check_page_content.
Qed.

Lemma uniform_scrap_parents_control_page (url : pyval) (pg : ParentsPage) :
  uniform (scrap_parents_control_page url pg).
Proof.
  unfold scrap_parents_control_page, parents_try, attempt, print.
  uni; apply uniform_check_page_content.
Qed.

Lemma uniform_scrap_images_page (url : pyval) (pg : ImagesPage) :
  uniform (scrap_images_page url pg).
Proof.
  unfold scrap_images_page, images_try, attempt, print.
  uni; apply uniform_check_page_content.
Qed.

Lemma uniform_download_image (w : World) (url title : pyval) :
  uniform (download_image w url title).
Proof. unfold download_image, print. uni. Qed.

Lemma uniform_scrape_title (self : scraper) (w : World) (url : pyval)
    (ranking : string) :
  uniform (scrape_title self w url ranking).
Proof.
  unfold scrape_title, scrape_ratings, scrape_parent_control, scrape_images,
    subscript, print.
  uni;
    first [ apply uniform_scrap_titles_page | apply uniform_scrap_ratings_page
          | apply uniform_scrap_parents_control_page
          | apply uniform_scrap_images_page | apply uniform_download_image ].
Qed.

End Uniform.

(* ===================================================================== *)
(** * The rows of a batch and the order of the threads                    *)
(* ===================================================================== *)

(** What a job appends does not depend on the state it finds. *)
Lemma scrape_title_data (self : scraper) (w : World) (job : Job) (s : state) :
  data (snd (scrape_title self w (fst job) (snd job) s))
  = data s ++ job_rows self w job.
Proof.
  destruct (Uniform.uniform_scrape_title self w (fst job) (snd job))
    as (r & rows & evs & H).
  unfold job_rows. now rewrite !H.
Qed.

Lemma job_rows_at_most_one (self : scraper) (w : World) (job : Job) :
  (List.length (job_rows self w job) <= 1)%nat.
Proof.
  destruct (Frame.adds_data 1 _ _ _ (mkState [] [])
              (Frame.scrape_title_adds self w (fst job) (snd job)))
    as (rows & Hrows & Hlen).
  unfold job_rows. rewrite Hrows. exact Hlen.
Qed.

Lemma for_each_submit_data (self : scraper) (w : World) (jobs : list Job)
    (s : state) :
  data (snd (for_each jobs
               (fun job => submit (scrape_title self w (fst job) (snd job))) s))
  = data s ++ flat_map (job_rows self w) jobs.
Proof.
  revert s. induction jobs as [| job rest IH]; intros s; simpl.
  - now rewrite app_nil_r.
  - unfold bind, submit at 1.
    pose proof (scrape_title_data self w job s) as Hjob.
    destruct (scrape_title self w (fst job) (snd job) s) as [r s1].
    simpl in Hjob. rewrite IH, Hjob. now rewrite app_assoc.
Qed.

(** X12: the rows that a batch appends are those of its jobs, in the order
    in which the jobs get the lock; what a job appends (no row or one) does
    not depend on the jobs that were served before it. *)
Theorem batch_rows_follow_the_schedule (self : scraper) (w : World)
    (sched : schedule) (jobs : list Job) (s : state) :
  data (snd (run_pool self w sched jobs s))
  = data s ++ flat_map (job_rows self w) (sched jobs)
  /\ Forall (fun job => (List.length (job_rows self w job) <= 1)%nat) (sched jobs).
Proof.
  split.
  - unfold run_pool. apply for_each_submit_data.
  - apply Forall_forall. intros job _. apply job_rows_at_most_one.
Qed.

Lemma uniform_run_pool (self : scraper) (w : World) (sched : schedule)
    (jobs : list Job) :
  exists evs, forall s,
    run_pool self w sched jobs s
    = (Ok tt, mkState (data s ++ flat_map (job_rows self w) (sched jobs))
                      (trace s ++ evs)).
Proof.
  assert (U : uniform (run_pool self w sched jobs)).
  { unfold run_pool. apply Uniform.uniform_for_each. intros job.
    apply Uniform.uniform_submit, Uniform.uniform_scrape_title. }
  destruct U as (r & rows & evs & H). exists evs. intros s.
  destruct (run_pool_returns self w sched jobs s) as (s' & Hret).
  pose proof (for_each_submit_data self w (sched jobs) s) as Hd.
  fold (run_pool self w sched jobs) in Hd.
  rewrite H in Hd, Hret |- *. simpl in Hd. injection Hret as -> _.
  apply app_inv_head in Hd. now subst rows.
Qed.

(** Two schedules that serve the same jobs make the loop over the batches
    end in the same way, with the same rows up to their order. *)
Lemma batch_loop_schedules (self : scraper) (w : World)
    (sched1 sched2 : schedule) (last : nat)
    (zipped : list (list pyval * list string)) (i : nat) :
  (forall jobs, Permutation (sched1 jobs) (sched2 jobs)) ->
  exists r rows1 rows2 evs1 evs2,
    (forall s, batch_loop self w sched1 last i zipped s
               = (r, mkState (data s ++ rows1) (trace s ++ evs1)))
    /\ (forall s, batch_loop self w sched2 last i zipped s
                  = (r, mkState (data s ++ rows2) (trace s ++ evs2)))
    /\ Permutation rows1 rows2.
Proof.
  intros Hperm. revert i.
  induction zipped as [| [tb rb] rest IH]; intros i; cbn [batch_loop].
  - exists (Ok tt), [], [], [], []. unfold ret.
    repeat split; try (intros [d t]; simpl; now rewrite !app_nil_r).
    constructor.
  - unfold print_titles. destruct (forallb is_str tb).
    + destruct (uniform_run_pool self w sched1 (combine tb rb)) as (e1 & H1).
      destruct (uniform_run_pool self w sched2 (combine tb rb)) as (e2 & H2).
      destruct (IH (S i)) as (r & rows1 & rows2 & evs1 & evs2 & L1 & L2 & P).
      exists r, (flat_map (job_rows self w) (sched1 (combine tb rb)) ++ rows1),
             (flat_map (job_rows self w) (sched2 (combine tb rb)) ++ rows2).
      destruct (i =? last)%nat.
      * eexists. eexists. split; [| split].
        -- intros s. unfold bind, print, emit, ret. rewrite H1. simpl.
           rewrite L1. simpl. rewrite <- !app_assoc. reflexivity.
        -- intros s. unfold bind, print, emit, ret. rewrite H2. simpl.
           rewrite L2. simpl. rewrite <- !app_assoc. reflexivity.
        -- apply Permutation_app; [apply Permutation_flat_map, Hperm | exact P].
      * eexists. eexists. split; [| split].
        -- intros s. unfold bind, print, emit, ret. rewrite H1. simpl.
           rewrite L1. simpl. rewrite <- !app_assoc. reflexivity.
        -- intros s. unfold bind, print, emit, ret. rewrite H2. simpl.
           rewrite L2. simpl. rewrite <- !app_assoc. reflexivity.
        -- apply Permutation_app; [apply Permutation_flat_map, Hperm | exact P].
    + exists (Raise (Error TypeError)), [], [], [], [].
      repeat split; try (intros [d t]; unfold bind, raise; simpl;
                         now rewrite !app_nil_r).
      constructor.
Qed.

(** X13: the order in which the threads of a batch get the lock changes
    nothing but the order of the rows: two schedules that serve the same
    jobs make the collecting half of [run_scraping] end in the same way
    (return, or the same exception) with the same rows up to a
    permutation. *)
Theorem collected_rows_do_not_depend_on_the_schedule (self : scraper)
    (w : World) (sched1 sched2 : schedule) (s : state) :
  (forall jobs, Permutation (sched1 jobs) (sched2 jobs)) ->
  fst (collect_rows self w sched1 s) = fst (collect_rows self w sched2 s)
  /\ Permutation (data (snd (collect_rows self w sched1 s)))
                 (data (snd (collect_rows self w sched2 s))).
Proof.
  intros Hperm. unfold collect_rows, bind.
  destruct (scrap_adv_search_page (self_n self) (search_page w) s)
    as [[d | e] s1]; [| split; reflexivity].
  destruct (titles_url d) as [| u us]; [split; reflexivity |].
  match goal with |- context [if ?c then _ else _] => destruct c end;
    unfold print, emit, ret;
    match goal with
    | |- context [batch_loop self w sched1 ?last 0 ?z ?st] =>
        destruct (batch_loop_schedules self w sched1 sched2 last z 0%nat Hperm)
          as (r & rows1 & rows2 & evs1 & evs2 & L1 & L2 & P)
    end;
    rewrite L1, L2; simpl; (split; [reflexivity |]);
    apply Permutation_app_head, P.
Qed.

Lemma collected_rows_do_not_depend_on_the_schedule_witness :
  (forall jobs, Permutation (Sample.in_order jobs) (Sample.reversed jobs))
  /\ fst (collect_rows (Sample.scraper_of (Some 3%Z) None false) Sample.world_ok
            Sample.in_order start)
     = fst (collect_rows (Sample.scraper_of (Some 3%Z) None false) Sample.world_ok
              Sample.reversed start)
  /\ Permutation
       (data (snd (collect_rows (Sample.scraper_of (Some 3%Z) None false)
                     Sample.world_ok Sample.in_order start)))
       (data (snd (collect_rows (Sample.scraper_of (Some 3%Z) None false)
                     Sample.world_ok Sample.reversed start))).
Proof.
  split; [intros jobs; apply Permutation_rev |].
  apply (collected_rows_do_not_depend_on_the_schedule
           (Sample.scraper_of (Some 3%Z) None false) Sample.world_ok
           Sample.in_order Sample.reversed start).
  intros jobs. apply Permutation_rev.
Defined.

(* ===================================================================== *)
(** * The batches of a run                                                *)
(* ===================================================================== *)

(** The loop over the batches, when every title URL is a string: it comes
    to its end, and what it has appended are the rows of the jobs of the
    first batch in the order of the lock, then those of the second batch,
    and so on. *)
Lemma batch_loop_data (self : scraper) (w : World) (sched : schedule)
    (last : nat) (zipped : list (list pyval * list string)) (i : nat)
    (s : state) :
  Forall (fun tr => Forall (fun v => is_str v = true) (fst tr)) zipped ->
  exists s',
    batch_loop self w sched last i zipped s = (Ok tt, s')
    /\ data s'
       = data s ++ flat_map (fun tr => flat_map (job_rows self w)
                                                (sched (zip_batch tr))) zipped.
Proof.
  revert i s. induction zipped as [| [tb rb] rest IH]; intros i s Hstr;
    cbn [batch_loop flat_map].
  - exists s. now rewrite app_nil_r.
  - inversion Hstr as [| ? ? Htb Hrest]; subst. cbn [fst] in Htb.
    assert (Hall : forallb is_str tb = true)
      by (apply forallb_forall; now rewrite Forall_forall in Htb).
    unfold print_titles. rewrite Hall.
    destruct (uniform_run_pool self w sched (combine tb rb)) as (evs & Hpool).
    unfold bind at 1. unfold print at 1, emit at 1.
    unfold bind at 1. rewrite Hpool.
    unfold bind at 1. unfold print at 1, emit at 1.
    unfold bind at 1.
    destruct (i =? last)%nat; unfold ret, emit; cbn [data trace];
      match goal with |- context [batch_loop self w sched last (S i) rest ?st] =>
        destruct (IH (S i) st Hrest) as (s' & -> & Hd)
      end;
      exists s'; (split; [reflexivity |]); rewrite Hd; cbn [data];
      unfold zip_batch at 2; cbn [fst snd]; now rewrite <- app_assoc.
Qed.

(** A run whose search gave title URLs, all of them strings: it comes to
    its end, and its rows are those of the jobs, batch after batch. *)
Lemma run_scraping_by_batches (self : scraper) (w : World) (sched : schedule)
    (s s1 : state) (d : SearchData) :
  scrap_adv_search_page (self_n self) (search_page w) s = (Ok d, s1) ->
  titles_url d <> [] ->
  Forall (fun v => is_str v = true) (titles_url d) ->
  let batch_size := Nat.min (List.length (titles_url d)) max_threads in
  exists s',
    run_scraping self w sched s = (Ok tt, s')
    /\ data s'
       = data s ++ flat_map (fun tr => flat_map (job_rows self w)
                                                (sched (zip_batch tr)))
                            (combine (batches (titles_url d) batch_size)
                                     (batches (rankings d) batch_size)).
Proof.
  intros Hsearch Hne Hstr. cbv zeta.
  remember (Nat.min (List.length (titles_url d)) max_threads) as batch_size
    eqn:Hbs.
  assert (Hs1 : data s1 = data s).
  { change s1 with (snd (Ok d, s1)). rewrite <- Hsearch.
    apply Frame.adds_keeps_data with (P := fun _ => True) (E := fun _ => True).
    apply Frame.scrap_adv_search_page_adds; auto. }
  assert (Hz : Forall (fun tr => Forall (fun v => is_str v = true) (fst tr))
                      (combine (batches (titles_url d) batch_size)
                               (batches (rankings d) batch_size))).
  { apply Forall_forall. intros [tb rb] Hin. cbn [fst].
    apply in_combine_l in Hin.
    pose proof (batches_keep _ _ batch_size Hstr) as Hb.
    rewrite Forall_forall in Hb. now apply Hb. }
  assert (Hcollect : exists s2,
             collect_rows self w sched s = (Ok tt, s2)
             /\ data s2
                = data s ++ flat_map (fun tr => flat_map (job_rows self w)
                                                         (sched (zip_batch tr)))
                                     (combine (batches (titles_url d) batch_size)
                                              (batches (rankings d) batch_size))).
  { unfold collect_rows. unfold bind at 1. rewrite Hsearch.
    destruct (titles_url d) as [| u us] eqn:Et; [congruence |].
    rewrite <- Et in *. rewrite <- Hbs. unfold bind at 1.
    destruct (negb _); unfold bind, print, emit, ret; cbn [data trace];
      match goal with |- context [batch_loop self w sched ?l 0%nat ?z ?st] =>
        destruct (batch_loop_data self w sched l z 0%nat st Hz) as (s2 & -> & Hd)
      end;
      exists s2; (split; [reflexivity |]); rewrite Hd; cbn [data];
      now rewrite Hs1. }
  destruct Hcollect as (s2 & Hcollect & Hd).
  rewrite run_scraping_halves, Hcollect.
  destruct (Run.save_rows_run self w s2) as (ev & -> & _).
  eexists. split; [reflexivity |]. cbn [data]. exact Hd.
Qed.

(** C7: [run_scraping] cuts the title URLs that the search returned into
    consecutive batches of [min(len, 5)] URLs: the batches in order make up
    the list again, every batch has between one and five URLs, every batch
    but the last is full, and a pool is given at most five jobs; and these
    are the batches that the run works through: when the URLs are strings
    the run comes to its end, and its rows are those of the jobs of the
    first batch, in the order in which they got the lock, then those of
    the second batch, and so on. *)
Theorem run_scraping_batches_partition (titles_urls : list pyval)
    (ranks : list string) :
  titles_urls <> [] ->
  let batch_size := Nat.min (List.length titles_urls) max_threads in
  let title_batches := batches titles_urls batch_size in
  let rankings_batches := batches ranks batch_size in
  batch_size = Nat.min (List.length titles_urls) 5
  /\ List.concat title_batches = titles_urls
  /\ Forall (fun b => (1 <= List.length b <= batch_size)%nat
                      /\ (List.length b <= 5)%nat) title_batches
  /\ (forall i, (S i < List.length title_batches)%nat ->
                List.length (nth i title_batches []) = batch_size)
  /\ Forall (fun tr => (List.length (zip_batch tr) <= 5)%nat)
            (combine title_batches rankings_batches)
  /\ (forall self w sched s s1,
        scrap_adv_search_page (self_n self) (search_page w) s
        = (Ok {| titles_url := titles_urls; rankings := ranks |}, s1) ->
        Forall (fun v => is_str v = true) titles_urls ->
        exists s',
          run_scraping self w sched s = (Ok tt, s')
          /\ data s'
             = data s ++ flat_map (fun tr => flat_map (job_rows self w)
                                                      (sched (zip_batch tr)))
                                  (combine title_batches rankings_batches)).
Proof.
  intros Hne batch_size title_batches rankings_batches.
  destruct (batches_partition titles_urls ranks Hne)
    as (H1 & H2 & H3 & H4 & H5).
  split; [exact H1 |]. split; [exact H2 |]. split; [exact H3 |].
  split; [exact H4 |]. split; [exact H5 |].
  intros self w sched s s1 Hsearch Hstr.
  apply (run_scraping_by_batches self w sched s s1 _ Hsearch Hne Hstr).
Qed.

Lemma run_scraping_batches_partition_witness :
  let titles := [Sample.url1; Sample.url2; Sample.url3; Sample.url1;
                 Sample.url2; Sample.url3; Sample.url1] in
  let ranks := ["1"; "2"; "3"; "4"; "5"; "6"; "7"] in
  let w := Sample.world_with_search Sample.search_seven in
  titles <> []
  /\ batches titles (Nat.min (List.length titles) max_threads)
     = [[Sample.url1; Sample.url2; Sample.url3; Sample.url1; Sample.url2];
        [Sample.url3; Sample.url1]]
  /\ List.concat (batches titles (Nat.min (List.length titles) max_threads))
     = titles
  /\ exists s',
       run_scraping (Sample.scraper_of None None false) w Sample.reversed start
       = (Ok tt, s')
       /\ map (fun r => cell r "ranking") (data s')
          = [PyStr "5"; PyStr "4"; PyStr "3"; PyStr "2"; PyStr "1";
             PyStr "7"; PyStr "6"].
Proof.
  intros titles ranks w.
  assert (Hne : titles <> []) by discriminate.
  destruct (run_scraping_batches_partition titles ranks Hne)
    as (_ & Hcat & _ & _ & _ & Hrun).
  split; [exact Hne |]. split; [reflexivity |]. split; [exact Hcat |].
  destruct (Hrun (Sample.scraper_of None None false) w Sample.reversed start
              (snd (scrap_adv_search_page None (search_page w) start)))
    as (s' & Hs' & Hd).
  - vm_compute. reflexivity.
  - repeat constructor.
  - exists s'. split; [exact Hs' |]. rewrite Hd. vm_compute. reflexivity.
Defined.

Lemma flat_map_by_batches {A B} (f : A -> list B) (l : list (list A)) :
  flat_map (fun b => flat_map f b) l = flat_map f (List.concat l).
Proof.
  induction l as [| b l IH]; [reflexivity |].
  cbn [flat_map List.concat]. now rewrite flat_map_app, IH.
Qed.

Lemma flat_map_of_zipped {A B C} (f : A -> list B) (g : C -> list A)
    (l : list C) :
  flat_map (fun c => flat_map f (g c)) l = flat_map f (List.concat (map g l)).
Proof.
  induction l as [| c l IH]; [reflexivity |].
  cbn [flat_map map List.concat]. now rewrite flat_map_app, IH.
Qed.

Lemma flat_map_scheduled {A B C} (f : A -> list B) (g g' : C -> list A)
    (l : list C) :
  (forall c, Permutation (g c) (g' c)) ->
  Permutation (flat_map (fun c => flat_map f (g c)) l)
              (flat_map (fun c => flat_map f (g' c)) l).
Proof.
  intros Hg. induction l as [| c l IH]; [constructor |].
  cbn [flat_map]. apply Permutation_app; [| exact IH].
  apply Permutation_flat_map, Hg.
Qed.

(** X1: the jobs of a run are [zip(titles_urls, rankings)]: when the title
    URLs that the search gave are strings and every batch is served in some
    order, the run comes to its end and its rows are, up to their order
    within a batch, the rows of the jobs that pair every URL with the
    ranking at its own index (in exactly this order when the jobs of a
    batch are served in the order they were submitted); the URLs beyond the
    last ranking are not scraped. *)
Theorem jobs_are_zip_of_titles_and_rankings (self : scraper) (w : World)
    (sched : schedule) (s s1 : state) (d : SearchData) :
  scrap_adv_search_page (self_n self) (search_page w) s = (Ok d, s1) ->
  titles_url d <> [] ->
  Forall (fun v => is_str v = true) (titles_url d) ->
  (forall jobs, Permutation (sched jobs) jobs) ->
  exists s',
    run_scraping self w sched s = (Ok tt, s')
    /\ Permutation (data s')
         (data s ++ flat_map (job_rows self w)
                             (combine (titles_url d) (rankings d)))
    /\ ((forall jobs, sched jobs = jobs) ->
        data s' = data s ++ flat_map (job_rows self w)
                                     (combine (titles_url d) (rankings d)))
    /\ List.length (combine (titles_url d) (rankings d))
       = Nat.min (List.length (titles_url d)) (List.length (rankings d)).
Proof.
  intros Hsearch Hne Hstr Hperm.
  destruct (run_scraping_by_batches self w sched s s1 d Hsearch Hne Hstr)
    as (s' & Hrun & Hd).
  destruct (zip_of_the_batches (titles_url d) (rankings d) Hne) as (Hzip & Hlen).
  cbv zeta in Hzip.
  exists s'. split; [exact Hrun |].
  assert (Hjobs : flat_map (fun tr => flat_map (job_rows self w) (zip_batch tr))
                    (combine (batches (titles_url d)
                                (Nat.min (List.length (titles_url d)) max_threads))
                             (batches (rankings d)
                                (Nat.min (List.length (titles_url d)) max_threads)))
                  = flat_map (job_rows self w)
                             (combine (titles_url d) (rankings d)))
    by (now rewrite flat_map_of_zipped, Hzip).
  split; [| split; [| exact Hlen]].
  - rewrite Hd, <- Hjobs. apply Permutation_app_head.
    apply flat_map_scheduled. intros tr. apply Hperm.
  - intros Hid. rewrite Hd, <- Hjobs. f_equal.
    apply flat_map_ext. intros tr. now rewrite Hid.
Qed.

Lemma jobs_are_zip_of_titles_and_rankings_witness :
  let w := Sample.world_with_search Sample.search_seven in
  exists s',
    (forall jobs, Permutation (Sample.reversed jobs) jobs)
    /\ run_scraping (Sample.scraper_of None None false) w Sample.reversed start
       = (Ok tt, s')
    /\ Permutation (map (fun r => cell r "ranking") (data s'))
         [PyStr "1"; PyStr "2"; PyStr "3"; PyStr "4"; PyStr "5"; PyStr "6";
          PyStr "7"].
Proof.
  intros w.
  assert (Hperm : forall jobs, Permutation (Sample.reversed jobs) jobs)
    by (intros jobs; symmetry; apply Permutation_rev).
  destruct (jobs_are_zip_of_titles_and_rankings
              (Sample.scraper_of None None false) w Sample.reversed start
              (snd (scrap_adv_search_page None (search_page w) start))
              {| titles_url := [Sample.url1; Sample.url2; Sample.url3; Sample.url1;
                                Sample.url2; Sample.url3; Sample.url1];
                 rankings := ["1"; "2"; "3"; "4"; "5"; "6"; "7"] |})
    as (s' & Hrun & Hrows & _).
  - vm_compute. reflexivity.
  - discriminate.
  - repeat constructor.
  - exact Hperm.
  - exists s'. split; [exact Hperm |]. split; [exact Hrun |].
    apply (Permutation_map (fun r => cell r "ranking")) in Hrows.
    exact Hrows.
Defined.

(* ===================================================================== *)
(** * Field by field                                                      *)
(* ===================================================================== *)

Lemma attempt_caught {A} (call : answer A) (wrap : A -> pyval)
    (matches : exn -> bool) (s : state) :
  caught_by matches call ->
  attempt call wrap matches s = (Ok (or_none wrap call), s).
Proof.
  unfold attempt, try_except, bind, ask, ret, caught_by.
  destruct call as [a | e]; [reflexivity |].
  intros H. simpl. now rewrite H.
Qed.

Lemma attempt_found_or_missing {A} (call : answer A) (wrap : A -> pyval)
    (s : state) :
  found_or_missing call ->
  attempt call wrap is_NoSuchElementException s = (Ok (or_none wrap call), s).
Proof.
  intros H. apply attempt_caught. destruct call as [a | e]; [exact I |].
  simpl in H. now subst e.
Qed.

(** X14: on a title page that loads, a field that is not found (or, for
    the release date, does not parse; or, for the awards line, lacks its
    numbers) becomes [None] and leaves every other field as found: the
    Series holds, field by field, what was found or [None]; the page is
    loaded once and the driver is quit once. *)
Theorem title_fields_degrade_one_by_one (url : pyval) (pg : TitlePage)
    (page_title : string) (s : state) :
  tp_get pg = Returned page_title ->
  title_fields_fail_softly pg ->
  scrap_titles_page url pg s
  = (Ok {| td_title := or_none PyStr (tp_title pg);
           td_release_date := or_none PyDatetime (tp_release_date pg);
           td_countries := or_none strs (tp_countries pg);
           td_sites := or_none strs (tp_sites pg);
           td_languages := or_none strs (tp_languages pg);
           td_companies := or_none strs (tp_companies pg);
           td_top_cast := or_none strs (tp_top_cast pg);
           td_nominations := or_none nominations_of (tp_award_numbers pg);
           td_awards := or_none awards_of (tp_award_numbers pg);
           td_genres := or_none strs (tp_genres pg);
           td_parent_c_url := or_none of_option (tp_parent_c_url pg);
           td_ratings_url := or_none of_option (tp_ratings_url pg);
           td_images_url := or_none of_option (tp_images_url pg) |},
     mkState (data s)
             (trace s ++ [EvGet url; EvPrint Plain ("Scraping " ++ page_title);
                          EvQuit])).
Proof.
  intros Hget (H1 & H2 & H3 & H4 & H5 & H6 & H7 & H8 & H9 & H10 & H11 & H12).
  unfold scrap_titles_page, try_finally, try_except, titles_try.
  unfold bind at 1. unfold emit at 1.
  unfold bind at 1. unfold ask at 1. rewrite Hget.
  unfold bind at 1. unfold print at 1, emit at 1. cbn [data trace].
  unfold bind at 1. rewrite (attempt_found_or_missing _ _ _ H1).
  unfold bind at 1. rewrite (attempt_caught _ _ _ _ H2).
  unfold bind at 1. rewrite (attempt_found_or_missing _ _ _ H3).
  unfold bind at 1. rewrite (attempt_found_or_missing _ _ _ H4).
  unfold bind at 1. rewrite (attempt_found_or_missing _ _ _ H5).
  unfold bind at 1. rewrite (attempt_found_or_missing _ _ _ H6).
  unfold bind at 1. rewrite (attempt_found_or_missing _ _ _ H7).
  unfold bind at 1.
  assert (Haw : forall st,
    try_except
      (numbers_in_txt <- ask (tp_award_numbers pg) ;;
       ret (awards_of numbers_in_txt, nominations_of numbers_in_txt))
      [(is_NoSuchElement_or_IndexError, fun _ => ret (PyNone, PyNone))] st
    = (Ok (or_none awards_of (tp_award_numbers pg),
           or_none nominations_of (tp_award_numbers pg)), st)).
  { intros st. unfold try_except, bind, ask, ret.
    destruct (tp_award_numbers pg) as [l | e]; [reflexivity |].
    cbv beta iota delta [caught_by] in H8. cbn [select_clause or_none].
    now rewrite H8. }
  rewrite Haw.
  unfold bind at 1. rewrite (attempt_found_or_missing _ _ _ H9).
  unfold bind at 1. rewrite (attempt_found_or_missing _ _ _ H10).
  unfold bind at 1. rewrite (attempt_found_or_missing _ _ _ H11).
  unfold bind at 1. rewrite (attempt_found_or_missing _ _ _ H12).
  unfold ret, emit. cbn [data trace fst snd].
  rewrite <- !app_assoc. reflexivity.
Qed.

Lemma title_fields_degrade_one_by_one_witness :
  tp_get Sample.title_page_without_ratings_link
    = Returned "Halo (Video Game 2001) - IMDb"
  /\ title_fields_fail_softly Sample.title_page_without_ratings_link
  /\ td_ratings_url
       (match fst (scrap_titles_page Sample.url1
                     Sample.title_page_without_ratings_link start) with
        | Ok td => td
        | Raise _ => title_all_none
        end) = PyNone
  /\ td_title
       (match fst (scrap_titles_page Sample.url1
                     Sample.title_page_without_ratings_link start) with
        | Ok td => td
        | Raise _ => title_all_none
        end) = PyStr "Halo".
Proof.
  assert (Hf : title_fields_fail_softly Sample.title_page_without_ratings_link)
    by (repeat split; reflexivity).
  split; [reflexivity |]. split; [exact Hf |].
  rewrite (title_fields_degrade_one_by_one Sample.url1
             Sample.title_page_without_ratings_link
             "Halo (Video Game 2001) - IMDb" start eq_refl Hf).
  split; reflexivity.
Defined.

Lemma check_page_content_passes (h : PageHead) (name : string) (s : state) :
  head_passes h name -> check_page_content h name true s = (Ok tt, s).
Proof.
  intros (_ & source & title & Hs & Ht & H1 & H2 & H3).
  unfold check_page_content, bind, ask, raise, ret.
  now rewrite Hs, Ht, H1, H2, H3.
Qed.

Lemma fill_key_returns {K} (key : K -> pyval) (call : K -> answer string)
    (warn : string) (k : K) (s : state) :
  exists s',
    (v <- try_except
            (t <- ask (call k) ;; ret (PyStr t))
            [(is_Exception, fun _ => print Yellow warn ;;; ret PyNaN)] ;;
     ret (key k, v)) s
    = (Ok (key k, or_nan (call k)), s')
    /\ data s' = data s.
Proof.
  unfold bind, try_except, ask, ret, print, emit.
  destruct (call k) as [t | e]; simpl; eexists; split; reflexivity.
Qed.

(** A loop that fills a dict, one key at a time, with the text found or
    NaN: it fails for no key. *)
Lemma fill_dict_returns {K} (key : K -> pyval) (call : K -> answer string)
    (warn : string) (l : list K) (s : state) :
  exists s',
    map_m (fun k =>
             v <- try_except
                    (t <- ask (call k) ;; ret (PyStr t))
                    [(is_Exception,
                      fun _ => print Yellow warn ;;; ret PyNaN)] ;;
             ret (key k, v)) l s
    = (Ok (map (fun k => (key k, or_nan (call k))) l), s')
    /\ data s' = data s.
Proof.
  revert s. induction l as [| k l IH]; intros s; cbn [map_m map].
  - exists s. split; reflexivity.
  - destruct (fill_key_returns key call warn k s) as (s1 & Hs & Hd1).
    destruct (IH s1) as (s' & Hm & Hd).
    exists s'. split; [| congruence].
    unfold bind at 1. rewrite Hs. unfold bind at 1. rewrite Hm. reflexivity.
Qed.



(** X16: on a parents-guide page that loads and passes the content check,
    no failure of an advisory lookup fails the page: the Series has a dict
    with the five advisory keys in the order of the source, each with the
    severity found or NaN. *)
Theorem advisories_never_fail_the_page (url : pyval) (pg : ParentsPage)
    (s : state) :
  head_passes (pp_head pg) "Parents Guide" ->
  exists s',
    scrap_parents_control_page url pg s
    = (Ok {| parental_guide :=
               PyDict (map (fun el => (PyStr el, or_nan (pp_advisory pg el)))
                           ["nudity"; "violence"; "profanity"; "alcohol";
                            "frightening"]) |}, s')
    /\ data s' = data s.
Proof.
  intros Hhead.
  unfold scrap_parents_control_page, try_finally, try_except, parents_try.
  unfold bind at 1. unfold emit at 1.
  unfold bind at 1. unfold ask at 1. rewrite (proj1 Hhead).
  unfold bind at 1. rewrite (check_page_content_passes _ _ _ Hhead).
  unfold bind at 1.
  match goal with |- context [map_m ?f advisory_elements ?st] =>
    destruct (fill_dict_returns PyStr (pp_advisory pg)
                "pc_Warn: Exception for element" advisory_elements st)
      as (s1 & Hfill & Hd)
  end.
  rewrite Hfill.
  unfold ret, emit. cbn [data trace fst snd].
  eexists. split; [reflexivity |]. cbn [data]. rewrite Hd. reflexivity.
Qed.

Lemma advisories_never_fail_the_page_witness :
  head_passes (pp_head Sample.parents_ok) "Parents Guide"
  /\ exists s',
       scrap_parents_control_page Sample.url1 Sample.parents_ok start
       = (Ok {| parental_guide :=
                  PyDict [(PyStr "nudity", PyNaN); (PyStr "violence", PyStr "Moderate");
                          (PyStr "profanity", PyNaN); (PyStr "alcohol", PyNaN);
                          (PyStr "frightening", PyNaN)] |}, s')
       /\ data s' = data start.
Proof.
  assert (Hh : head_passes (pp_head Sample.parents_ok) "Parents Guide").
  { split; [reflexivity |].
    exists "<html>...</html>", "Halo (Video Game 2001) - Parents Guide - IMDb".
    repeat split; reflexivity. }
  split; [exact Hh |].
  apply (advisories_never_fail_the_page Sample.url1 Sample.parents_ok start Hh).
Defined.

(* ===================================================================== *)
(** * The search page                                                     *)
(* ===================================================================== *)

Lemma slice_to_firstn {A} (l : list A) (n : Z) :
  0 <= n -> slice_to l (Some n) = firstn (Z.to_nat n) l.
Proof.
  intros Hn. unfold slice_to.
  destruct (n <? 0) eqn:Neg; [apply Z.ltb_lt in Neg; lia | reflexivity].
Qed.

Lemma wanted_count (n0 : option Z) (total : Z) :
  (forall z, n0 = Some z -> 0 <= z) ->
  (if wants_all n0 total then total
   else match n0 with Some z => z | None => total end)
  = target_count n0 total.
Proof.
  intros Hn. unfold wants_all, target_count. destruct n0 as [z |]; [| reflexivity].
  specialize (Hn z eq_refl).
  destruct (z =? 0) eqn:Z0; [reflexivity |]. simpl.
  destruct (total <? z) eqn:Lt.
  - apply Z.ltb_lt in Lt. lia.
  - apply Z.ltb_ge in Lt. lia.
Qed.

(** The locals with which the [try] of the search page is left, for a
    count that is not negative: nothing collected, or the page's lists
    and a count that is not negative. *)
Lemma adv_search_try_cut (n0 : option Z) (sp : SearchPage) s loc left_by s' :
  adv_search_try n0 sp s = (Ok (loc, left_by), s') ->
  (forall z, n0 = Some z -> 0 <= z) ->
  (l_titles_url loc = [] /\ l_rankings loc = [])
  \/ (l_titles_url loc = fst (sp_hrefs sp)
      /\ l_rankings loc = fst (sp_rankings sp)
      /\ exists n', l_n loc = Some n' /\ 0 <= n').
Proof.
  intros H Hn. revert H.
  unfold adv_search_try. unfold bind at 1. unfold emit at 1.
  destruct (sp_get sp) as [u | e1]; [| intros [= <- _ _]; auto].
  destruct (sp_titles_len sp) as [len | e1]; [| intros [= <- _ _]; auto].
  unfold bind at 1.
  destruct (click_loop sp 0 _ _) as [[[e1 |] | e1] s1]; try discriminate.
  - intros [= <- _ _]. auto.
  - intros H.
    apply Run.bind_ok_inv in H. destruct H as (u1 & s2 & _ & H).
    apply Run.bind_ok_inv in H. destruct H as (u2 & s3 & _ & H).
    injection H as <- _ _. right. split; [reflexivity |]. split; [reflexivity |].
    eexists. split; [reflexivity |].
    rewrite (wanted_count n0 (Z.of_N len) Hn). unfold target_count.
    destruct n0 as [z |]; [| lia].
    specialize (Hn z eq_refl). destruct (z =? 0); lia.
Qed.

(** X17: what the search page scraper returns, however its [try] was
    left, are the first titles and the first rankings of the page, in page
    order and cut at the same position: the i-th title kept goes with the
    i-th ranking kept. *)
Theorem search_result_is_an_aligned_prefix (n0 : option Z) (sp : SearchPage)
    (s s' : state) (d : SearchData) :
  (forall z, n0 = Some z -> 0 <= z) ->
  scrap_adv_search_page n0 sp s = (Ok d, s') ->
  exists k : nat,
    titles_url d = firstn k (fst (sp_hrefs sp))
    /\ rankings d = firstn k (fst (sp_rankings sp)).
Proof.
  intros Hn H. unfold scrap_adv_search_page in H.
  apply Run.bind_ok_inv in H. destruct H as (ua & s1 & _ & H).
  apply Run.bind_ok_inv in H. destruct H as (u1 & s2 & _ & H).
  apply Run.bind_ok_inv in H. destruct H as ([loc left_by] & s3 & Htry & H).
  apply Run.bind_ok_inv in H. destruct H as (pending & s4 & _ & H).
  apply Run.bind_ok_inv in H. destruct H as (u2 & s5 & _ & H).
  apply Run.bind_ok_inv in H. destruct H as (u3 & s6 & _ & H).
  destruct pending as [e |]; [discriminate |].
  injection H as <- _. cbn [titles_url rankings].
  destruct (adv_search_try_cut _ _ _ _ _ _ Htry Hn)
    as [[-> ->] | (-> & -> & n' & -> & Hpos)].
  - exists 0%nat. now rewrite !Run.slice_to_nil.
  - exists (Z.to_nat n'). now rewrite !slice_to_firstn.
Qed.

Lemma search_result_is_an_aligned_prefix_witness :
  (forall z, Some 2 = Some z -> 0 <= z)
  /\ exists k : nat,
       titles_url (match fst (scrap_adv_search_page (Some 2) Sample.search_three
                                 start) with
                   | Ok d => d
                   | Raise _ => {| titles_url := []; rankings := [] |}
                   end)
       = firstn k (fst (sp_hrefs Sample.search_three))
       /\ rankings (match fst (scrap_adv_search_page (Some 2) Sample.search_three
                                  start) with
                    | Ok d => d
                    | Raise _ => {| titles_url := []; rankings := [] |}
                    end)
          = firstn k (fst (sp_rankings Sample.search_three)).
Proof.
  assert (Hn : forall z, Some 2 = Some z -> 0 <= z) by (intros z [= <-]; lia).
  split; [exact Hn |].
  apply (search_result_is_an_aligned_prefix (Some 2) Sample.search_three start
           (snd (scrap_adv_search_page (Some 2) Sample.search_three start))
           _ Hn).
  reflexivity.
Defined.






(* ===================================================================== *)
(** * The arguments                                                       *)
(* ===================================================================== *)

(** X19: the count 0 stands for no count: with it, [main] does what it
    does without arguments. *)
Theorem zero_count_means_no_count (py_int : string -> option Z) (w : World)
    (sched : schedule) (a0 a1 : string) (s : state) :
  py_int a1 = Some 0 ->
  main py_int w sched [a0; a1] s = main py_int w sched [a0] s.
Proof.
  intros H0. unfold main. unfold bind at 1 3.
  rewrite !process_arguments_eq. cbn [List.length Nat.ltb Nat.leb arg nth Nat.eqb].
  rewrite H0. reflexivity.
Qed.

Lemma zero_count_means_no_count_witness :
  Main.ascii_int "0" = Some 0
  /\ main Main.ascii_int Sample.world_ok Sample.in_order ["main.py"; "0"] start
     = main Main.ascii_int Sample.world_ok Sample.in_order ["main.py"] start.
Proof.
  split; [reflexivity |].
  apply (zero_count_means_no_count Main.ascii_int Sample.world_ok Sample.in_order
           "main.py" "0" start).
  reflexivity.
Defined.

(** X20: the messages written for a negative count are never shown: the
    [sys.exit] that carries them is inside the [try] whose bare [except]
    catches [SystemExit] too, so a negative count is reported as not being
    an integer. *)
Theorem negative_count_is_reported_as_no_integer (py_int : string -> option Z)
    (args : list string) (n : Z) (s : state) :
  (2 <= List.length args <= 4)%nat ->
  py_int (arg args 1) = Some n ->
  n < 0 ->
  process_arguments py_int args s
  = (Raise (SystemExit "ERROR: Invalid argument. n must be an integer"), s).
Proof.
  intros Hlen Hint Hneg. rewrite process_arguments_eq, Hint.
  destruct (4 <? List.length args)%nat eqn:H4;
    [apply Nat.ltb_lt in H4; lia |].
  destruct (2 <=? List.length args)%nat eqn:H2;
    [| apply Nat.leb_gt in H2; lia].
  destruct (n <? 0) eqn:Hn; [reflexivity | apply Z.ltb_ge in Hn; lia].
Qed.

Lemma negative_count_is_reported_as_no_integer_witness :
  (2 <= List.length ["main.py"; "-5"; "csv"] <= 4)%nat
  /\ Main.ascii_int (arg ["main.py"; "-5"; "csv"] 1) = Some (-5)
  /\ -5 < 0
  /\ process_arguments Main.ascii_int ["main.py"; "-5"; "csv"] start
     = (Raise (SystemExit "ERROR: Invalid argument. n must be an integer"), start).
Proof.
  split; [simpl; lia |]. split; [reflexivity |]. split; [lia |].
  apply (negative_count_is_reported_as_no_integer Main.ascii_int
           ["main.py"; "-5"; "csv"] (-5) start).
  - simpl. lia.
  - reflexivity.
  - lia.
Defined.

(* ===================================================================== *)
(** * What ends up in the file                                            *)
(* ===================================================================== *)

(** X21: when the search page does not load (a timeout or another
    WebDriver error), a run loads no other page, collects nothing, and
    still goes on to save: with the type 'json', or none, it writes the
    dataset file with no record in it. *)
Theorem failed_search_saves_an_empty_dataset (self : scraper) (w : World)
    (sched : schedule) (ua : string) (e : error) (s : state) :
  sp_user_agent (search_page w) = Returned ua ->
  sp_get (search_page w) = Raised e ->
  is_WebDriverException (Error e) = true ->
  dwl_type self = None \/ dwl_type self = Some "json" ->
  data s = [] ->
  exists s' before,
    run_scraping self w sched s = (Ok tt, s')
    /\ data s' = []
    /\ trace s'
       = trace s ++ EvPrint Plain ("User-Agent to scrape the initial web page is " ++ ua)
                 :: EvGet (PyStr search_url)
                 :: before
                 ++ [EvQuit;
                     EvPrint Plain "Scraped properly len(df) video games.";
                     EvPrint Plain "Saving dataset...";
                     EvWriteDataset
                       (path_join (dataset_dir w) (filename ++ ".json")%string)
                       (JsonRecords []);
                     EvPrint Plain "Scraping completed"]
    /\ Forall (fun ev => exists c t, ev = EvPrint c t) before.
Proof.
  intros Hua Hget Hwd Htype Hdata.
  rewrite run_scraping_halves.
  assert (Hfirst : exists before,
    collect_rows self w sched s
    = (Ok tt,
       mkState (data s)
         (trace s ++ EvPrint Plain ("User-Agent to scrape the initial web page is " ++ ua)
                  :: EvGet (PyStr search_url) :: before ++ [EvQuit]))
    /\ Forall (fun ev => exists c t, ev = EvPrint c t) before).
  { unfold collect_rows, scrap_adv_search_page, adv_search_try.
    unfold bind at 1. unfold bind at 1. unfold ask at 1. rewrite Hua.
    unfold bind at 1. unfold print at 1, emit at 1.
    unfold bind at 1. unfold bind at 1. unfold emit at 1. rewrite Hget.
    unfold ret at 1. cbn [l_n l_titles_url l_rankings data trace].
    rewrite !Run.slice_to_nil. cbn [List.length].
    rewrite Hwd.
    destruct (is_TimeoutException (Error e));
      destruct (differs (self_n self) 0);
      unfold bind, print, emit, ret; cbn [data trace titles_url];
      [ exists [EvPrint Yellow "Warn: Scraping timed out";
                EvPrint Red "Error: Expected n titles, but scraped another number."]
      | exists [EvPrint Yellow "Warn: Scraping timed out"]
      | exists [EvPrint Yellow "Warn: WebDriverException occurred while scraping";
                EvPrint Red "Error: Expected n titles, but scraped another number."]
      | exists [EvPrint Yellow "Warn: WebDriverException occurred while scraping"] ];
      (split; [rewrite <- !app_assoc; reflexivity | repeat constructor; eauto]). }
  destruct Hfirst as (before & -> & Hbefore).
  destruct (Run.save_dataset_run self w (DataFrame_of [])
              (mkState (data s)
                 (((trace s ++ EvPrint Plain ("User-Agent to scrape the initial web page is " ++ ua)
                     :: EvGet (PyStr search_url) :: before ++ [EvQuit])
                   ++ [EvPrint Plain "Scraped properly len(df) video games."])
                  ++ [EvPrint Plain "Saving dataset..."])))
    as (ev & Hsave & Hjson & _).
  rewrite (Hjson ltac:(tauto)) in Hsave.
  unfold save_rows, get_data, bind, print, emit. cbn [data trace].
  rewrite Hdata in *. rewrite Hsave. cbn [data trace].
  eexists. exists before. split; [reflexivity |]. split; [reflexivity |].
  split; [| exact Hbefore].
  cbn [trace]. rewrite <- !app_assoc. cbn [app]. rewrite <- !app_assoc.
  reflexivity.
Qed.

Lemma failed_search_saves_an_empty_dataset_witness :
  let w := {| search_page := Sample.search_timeout;
              title_page := title_page Sample.world_ok;
              ratings_page := ratings_page Sample.world_ok;
              parents_page := parents_page Sample.world_ok;
              images_page := images_page Sample.world_ok;
              http_status := http_status Sample.world_ok;
              store_image := store_image Sample.world_ok;
              dataset_dir := "/repo/dataset" |} in
  exists s',
    run_scraping (Sample.scraper_of (Some 10) None false) w Sample.in_order start
    = (Ok tt, s')
    /\ In (EvWriteDataset "/repo/dataset/IMDb_Popularity_Video_Games_Dataset.json"
             (JsonRecords [])) (trace s').
Proof.
  intros w.
  destruct (failed_search_saves_an_empty_dataset
              (Sample.scraper_of (Some 10) None false) w Sample.in_order
              "Mozilla/5.0" TimeoutException start
              eq_refl eq_refl eq_refl (or_introl eq_refl) eq_refl)
    as (s' & before & Hrun & _ & Htrace & _).
  exists s'. split; [exact Hrun |].
  rewrite Htrace. apply in_or_app. right. right. right.
  apply in_or_app. right. simpl. tauto.
Defined.

Lemma fold_keys_fresh (ks acc : list string) :
  NoDup (acc ++ ks) ->
  fold_left (fun acc k => if has_key k acc then acc else acc ++ [k]) ks acc
  = acc ++ ks.
Proof.
  revert acc. induction ks as [| k ks IH]; intros acc Hnd; cbn [fold_left].
  - now rewrite app_nil_r.
  - destruct (has_key k acc) eqn:Hk.
    + apply has_key_In in Hk. apply NoDup_remove_2 in Hnd.
      contradiction Hnd. apply in_or_app. now left.
    + rewrite IH; rewrite <- app_assoc; [reflexivity | exact Hnd].
Qed.

Lemma fold_keys_known (ks acc : list string) :
  incl ks acc ->
  fold_left (fun acc k => if has_key k acc then acc else acc ++ [k]) ks acc = acc.
Proof.
  induction ks as [| k ks IH]; intros Hincl; cbn [fold_left]; [reflexivity |].
  assert (Hk : has_key k acc = true) by (apply has_key_In, Hincl; now left).
  rewrite Hk. apply IH. intros x Hx. apply Hincl. now right.
Qed.

(** Rows that all have the same distinct keys give these keys as
    columns, in their order. *)
Lemma columns_of_uniform_rows (ks : list string) (r : Row) (rows : list Row) :
  NoDup ks ->
  Forall (fun r => map fst r = ks) (r :: rows) ->
  columns (DataFrame_of (r :: rows)) = ks.
Proof.
  intros Hnd Hall. inversion Hall as [| ? ? Hr Hrows]; subst.
  unfold DataFrame_of. cbn [columns fold_left].
  assert (H0 : add_keys [] r = map fst r)
    by (unfold add_keys; now rewrite fold_keys_fresh).
  rewrite H0. clear H0. induction Hrows as [| r' rows' Hr' _ IH]; [reflexivity |].
  cbn [fold_left].
  assert (H1 : add_keys (map fst r) r' = map fst r).
  { unfold add_keys. apply fold_keys_known. rewrite Hr'. apply incl_refl. }
  rewrite H1. apply IH. constructor; auto.
  inversion Hall as [| ? ? _ Hrest]; subst. inversion Hrest; subst. assumption.
Qed.

Lemma NoDup_row_keys : NoDup row_keys.
Proof.
  unfold row_keys.
  repeat (constructor; [simpl; intuition discriminate |]). constructor.
Qed.

(** What the DataFrame of such rows gives to the two writers: objects
    with the keys of the rows, one per row; and a table with the keys as
    header and one line per row. *)
Lemma frame_of_uniform_rows (ks : list string) (rows : list Row) :
  NoDup ks ->
  Forall (fun r => map fst r = ks) rows ->
  (exists objects,
      to_json_records (DataFrame_of rows) = JsonRecords objects
      /\ List.length objects = List.length rows
      /\ Forall (fun o => map fst o = ks) objects)
  /\ (rows <> [] ->
      exists lines,
        to_csv (DataFrame_of rows) = CsvTable ks lines
        /\ List.length lines = List.length rows
        /\ Forall (fun ln => List.length ln = List.length ks) lines).
Proof.
  intros Hnd Hall.
  destruct rows as [| r rows].
  - split; [| congruence]. exists []. repeat split; constructor.
  - pose proof (columns_of_uniform_rows ks r rows Hnd Hall) as Hcols.
    unfold to_json_records, to_csv. rewrite Hcols.
    assert (Hrec : Forall (fun rec => List.length rec = List.length ks)
                          (records (DataFrame_of (r :: rows)))).
    { unfold DataFrame_of in *. cbn [columns records] in *. rewrite Hcols.
      apply Forall_forall. intros rec Hin. apply in_map_iff in Hin.
      destruct Hin as (x & <- & _). apply length_map. }
    split.
    + eexists. split; [reflexivity |]. split.
      * rewrite length_map. apply Run.length_records_DataFrame_of.
      * apply Forall_forall. intros o Hin. apply in_map_iff in Hin.
        destruct Hin as (rec & <- & Hin).
        rewrite Forall_forall in Hrec. apply map_fst_combine.
        symmetry. now apply Hrec.
    + intros _. eexists. split; [reflexivity |].
      split; [apply Run.length_records_DataFrame_of | exact Hrec].
Qed.

(** X22: for rows that all have the same distinct keys, as the rows of
    [scrape_title] have, [pd.DataFrame] has exactly these keys as columns,
    in the order of the rows; every JSON record has these keys in this
    order and there is one record per row; the CSV table has the keys as
    header and one line per row with one cell per key.  (What the cells
    look like as text is left to pandas.) *)
Theorem dataset_keeps_the_keys_in_order (ks : list string) (rows : list Row) :
  NoDup ks ->
  Forall (fun r => map fst r = ks) rows ->
  rows <> [] ->
  columns (DataFrame_of rows) = ks
  /\ (exists objects,
        to_json_records (DataFrame_of rows) = JsonRecords objects
        /\ List.length objects = List.length rows
        /\ Forall (fun o => map fst o = ks) objects)
  /\ (exists lines,
        to_csv (DataFrame_of rows) = CsvTable ks lines
        /\ List.length lines = List.length rows
        /\ Forall (fun ln => List.length ln = List.length ks) lines).
Proof.
  intros Hnd Hall Hne.
  destruct (frame_of_uniform_rows ks rows Hnd Hall) as (Hjson & Hcsv).
  split; [| split; [exact Hjson | exact (Hcsv Hne)]].
  destruct rows as [| r rows]; [congruence |].
  now apply columns_of_uniform_rows.
Qed.

Lemma dataset_keeps_the_keys_in_order_witness :
  let rows := [title_row title_all_none "1" Sample.url1 parents_none ratings_none;
               title_row title_all_none "2" Sample.url2 parents_none ratings_none] in
  NoDup row_keys
  /\ Forall (fun r => map fst r = row_keys) rows
  /\ rows <> []
  /\ columns (DataFrame_of rows) = row_keys.
Proof.
  intros rows.
  assert (Hall : Forall (fun r => map fst r = row_keys) rows)
    by (repeat constructor).
  assert (Hne : rows <> []) by discriminate.
  split; [exact NoDup_row_keys |]. split; [exact Hall |]. split; [exact Hne |].
  exact (proj1 (dataset_keeps_the_keys_in_order row_keys rows NoDup_row_keys
                  Hall Hne)).
Defined.

(** The rows of a job have the fifteen keys of the source, in its
    order. *)
Lemma job_rows_keys (self : scraper) (w : World) (job : Job) :
  Forall (fun r => map fst r = row_keys) (job_rows self w job).
Proof.
  unfold job_rows. set (s := mkState [] []).
  destruct (scrap_titles_page (fst job) (title_page w (fst job)) s)
    as [[td | e0] s1] eqn:Hpage.
  - destruct (title_isna_all td) eqn:Hna.
    + assert (Hs1 : data s1 = data s).
      { change s1 with (snd (Ok td, s1)). rewrite <- Hpage.
        apply Frame.adds_keeps_data with (P := fun _ => True) (E := fun _ => True).
        apply Frame.scrap_titles_page_adds; auto. }
      unfold scrape_title, bind. rewrite Hpage, Hna. unfold ret.
      cbn [snd]. rewrite Hs1. constructor.
    + destruct (scrape_title_phases self w (fst job) (snd job) s s1 td Hpage Hna)
        as (rd & pd & s4 & Hd & _ & _ & ->).
      destruct pd as [p |]; [destruct rd as [r |] |]; cbn [snd data];
        rewrite ?Hd; repeat constructor.
  - assert (Hs1 : data s1 = data s).
    { change s1 with (snd (@Raise TitleData e0, s1)). rewrite <- Hpage.
      apply Frame.adds_keeps_data with (P := fun _ => True) (E := fun _ => True).
      apply Frame.scrap_titles_page_adds; auto. }
    unfold scrape_title, bind. rewrite Hpage. cbn [snd]. rewrite Hs1. constructor.
Qed.

Section RowsOfARun.
Context (self : scraper) (w : World) (sched : schedule).
Context (Q : Row -> Prop).
Hypothesis job_rows_ok : forall job, Forall Q (job_rows self w job).

Lemma batch_loop_rows (last : nat) (zipped : list (list pyval * list string))
    (i : nat) (s : state) :
  exists rows,
    data (snd (batch_loop self w sched last i zipped s)) = data s ++ rows
    /\ Forall Q rows.
Proof.
  revert i s. induction zipped as [| [tb rb] rest IH]; intros i s;
    cbn [batch_loop].
  - exists []. rewrite app_nil_r. split; [reflexivity | constructor].
  - unfold print_titles. destruct (forallb is_str tb).
    + destruct (uniform_run_pool self w sched (combine tb rb)) as (evs & Hpool).
      unfold bind at 1. unfold print at 1, emit at 1.
      unfold bind at 1. rewrite Hpool.
      unfold bind at 1. unfold print at 1, emit at 1.
      unfold bind at 1.
      destruct (i =? last)%nat; unfold ret, emit; cbn [data trace];
        match goal with |- context [batch_loop self w sched last (S i) rest ?st] =>
          destruct (IH (S i) st) as (rows & -> & Hrows)
        end;
        cbn [data]; eexists; (split; [rewrite <- app_assoc; reflexivity |]);
        (apply Forall_app; split; [| exact Hrows]);
        apply Forall_flat_map, Forall_forall; intros job _; apply job_rows_ok.
    + exists []. unfold bind, raise. cbn [snd]. rewrite app_nil_r.
      split; [reflexivity | constructor].
Qed.

Lemma collect_rows_rows (s : state) :
  exists rows,
    data (snd (collect_rows self w sched s)) = data s ++ rows
    /\ Forall Q rows.
Proof.
  unfold collect_rows. unfold bind at 1.
  assert (Hkeep : data (snd (scrap_adv_search_page (self_n self)
                               (search_page w) s)) = data s).
  { apply Frame.adds_keeps_data with (P := fun _ => True) (E := fun _ => True).
    apply Frame.scrap_adv_search_page_adds; auto. }
  destruct (scrap_adv_search_page (self_n self) (search_page w) s)
    as [[d | e] s1]; cbn [snd] in Hkeep.
  - destruct (titles_url d) as [| u us].
    + exists []. unfold ret. cbn [snd]. rewrite Hkeep, app_nil_r.
      split; [reflexivity | constructor].
    + unfold bind.
      match goal with |- context [if ?c then _ else _] => destruct c end;
        unfold print, emit, ret;
        match goal with |- context [batch_loop self w sched ?last 0 ?z ?st] =>
          destruct (batch_loop_rows last z 0%nat st) as (rows & -> & Hrows)
        end;
        cbn [data]; rewrite Hkeep; exists rows; split; auto.
  - exists []. cbn [snd]. rewrite Hkeep, app_nil_r.
    split; [reflexivity | constructor].
Qed.

End RowsOfARun.

(** What a run that returns has saved, by the type asked for. *)
Lemma run_scraping_saves_its_rows (self : scraper) (w : World)
    (sched : schedule) (s s' : state) :
  data s = [] ->
  run_scraping self w sched s = (Ok tt, s') ->
  Forall (fun r => map fst r = row_keys) (data s')
  /\ (dwl_type self = None \/ dwl_type self = Some "json" ->
      exists before objects,
        trace s'
        = before ++ [EvWriteDataset
                       (path_join (dataset_dir w) (filename ++ ".json")%string)
                       (JsonRecords objects);
                     EvPrint Plain "Scraping completed"]
        /\ List.length objects = List.length (data s')
        /\ Forall (fun o => map fst o = row_keys) objects)
  /\ (dwl_type self = Some "csv" -> data s' <> [] ->
      exists before lines,
        trace s'
        = before ++ [EvWriteDataset
                       (path_join (dataset_dir w) (filename ++ ".csv")%string)
                       (CsvTable row_keys lines);
                     EvPrint Plain "Scraping completed"]
        /\ List.length lines = List.length (data s')
        /\ Forall (fun ln => List.length ln = 15%nat) lines).
Proof.
  intros Hdata Hrun. rewrite run_scraping_halves in Hrun.
  destruct (collect_rows_rows self w sched _ (job_rows_keys self w) s)
    as (rows & Hrows & Hkeys).
  destruct (collect_rows self w sched s) as [[[] | e] s1]; [| discriminate].
  cbn [snd] in Hrows. rewrite Hdata in Hrows. cbn [app] in Hrows.
  destruct (frame_of_uniform_rows row_keys rows NoDup_row_keys Hkeys)
    as ((objects & Hjson & Hlen & Hobj) & Hcsv).
  unfold save_rows, get_data, bind, print, emit in Hrun. cbn [data trace] in Hrun.
  rewrite Hrows in Hrun.
  match type of Hrun with context [save_dataset self w ?df ?st] =>
    destruct (Run.save_dataset_run self w df st) as (ev & Hsave & Hj & Hc & _)
  end.
  rewrite Hsave in Hrun. cbn [data trace] in Hrun.
  injection Hrun as <-. cbn [data trace].
  split; [exact Hkeys |]. split.
  - intros Ht. rewrite (Hj ltac:(tauto)), Hjson.
    eexists. exists objects. rewrite <- app_assoc.
    split; [reflexivity |]. split; [exact Hlen | exact Hobj].
  - intros Ht Hne. destruct (Hcsv Hne) as (lines & Hlines & Hll & Hcells).
    rewrite (Hc Ht), Hlines.
    eexists. exists lines. rewrite <- app_assoc.
    split; [reflexivity |]. split; [exact Hll | exact Hcells].
Qed.

(** X23: a run that starts with no row and returns has saved a record
    for every row it collected: every row of [self.data] has the fifteen
    keys of the source in its order; with the type 'json', or none, the
    last thing written is the .json file, with one record per row of
    [self.data], each with these fifteen keys in this order; with 'csv'
    and at least one row, it is the .csv file with the fifteen keys as
    header and one line of fifteen cells per row.  (What the cells look
    like as text is left to pandas.) *)
Theorem saved_dataset_has_a_record_per_collected_row (self : scraper)
    (w : World) (sched : schedule) (s s' : state) :
  data s = [] ->
  run_scraping self w sched s = (Ok tt, s') ->
  Forall (fun r => map fst r = row_keys) (data s')
  /\ (dwl_type self = None \/ dwl_type self = Some "json" ->
      exists before objects,
        trace s'
        = before ++ [EvWriteDataset
                       (path_join (dataset_dir w) (filename ++ ".json")%string)
                       (JsonRecords objects);
                     EvPrint Plain "Scraping completed"]
        /\ List.length objects = List.length (data s')
        /\ Forall (fun o => map fst o = row_keys) objects)
  /\ (dwl_type self = Some "csv" -> data s' <> [] ->
      exists before lines,
        trace s'
        = before ++ [EvWriteDataset
                       (path_join (dataset_dir w) (filename ++ ".csv")%string)
                       (CsvTable row_keys lines);
                     EvPrint Plain "Scraping completed"]
        /\ List.length lines = List.length (data s')
        /\ Forall (fun ln => List.length ln = 15%nat) lines).
Proof. apply run_scraping_saves_its_rows. Qed.

Lemma saved_dataset_has_a_record_per_collected_row_witness :
  exists s',
    data start = []
    /\ run_scraping (Sample.scraper_of (Some 2) None false) Sample.world_ok
         Sample.reversed start = (Ok tt, s')
    /\ List.length (data s') = 2%nat
    /\ Forall (fun r => map fst r = row_keys) (data s')
    /\ exists before objects,
         trace s'
         = before ++ [EvWriteDataset
                        "/repo/dataset/IMDb_Popularity_Video_Games_Dataset.json"
                        (JsonRecords objects);
                      EvPrint Plain "Scraping completed"]
         /\ List.length objects = List.length (data s')
         /\ Forall (fun o => map fst o = row_keys) objects.
Proof.
  exists (snd (run_scraping (Sample.scraper_of (Some 2) None false)
                 Sample.world_ok Sample.reversed start)).
  assert (Hrun : run_scraping (Sample.scraper_of (Some 2) None false)
                   Sample.world_ok Sample.reversed start
                 = (Ok tt, snd (run_scraping (Sample.scraper_of (Some 2) None false)
                                  Sample.world_ok Sample.reversed start)))
    by (vm_compute; reflexivity).
  split; [reflexivity |]. split; [exact Hrun |].
  split; [vm_compute; reflexivity |].
  destruct (saved_dataset_has_a_record_per_collected_row
              (Sample.scraper_of (Some 2) None false) Sample.world_ok
              Sample.reversed start _ eq_refl Hrun)
    as (Hkeys & Hjson & _).
  split; [exact Hkeys |]. exact (Hjson (or_introl eq_refl)).
Defined.

(** X26: [main] starts its scraper with an empty [self.data], whatever ran
    before; so when [main] returns, every row of [self.data] has the
    fifteen keys of the source in its order, and without a type argument,
    or with 'json', the last thing written is the .json file, with one
    record per row of [self.data], each with these fifteen keys in this
    order. *)
Theorem main_saves_a_record_per_collected_row (py_int : string -> option Z)
    (w : World) (sched : schedule) (args : list string) (s s' : state) :
  main py_int w sched args s = (Ok tt, s') ->
  Forall (fun r => map fst r = row_keys) (data s')
  /\ ((List.length args <= 2)%nat \/ arg args 2 = "json" ->
      exists before objects,
        trace s'
        = before ++ [EvWriteDataset
                       (path_join (dataset_dir w) (filename ++ ".json")%string)
                       (JsonRecords objects);
                     EvPrint Plain "Scraping completed"]
        /\ List.length objects = List.length (data s')
        /\ Forall (fun o => map fst o = row_keys) objects).
Proof.
  unfold main. unfold bind at 1. rewrite process_arguments_eq.
  destruct (4 <? List.length args)%nat; [discriminate |].
  destruct (2 <=? List.length args)%nat eqn:H2.
  - destruct (py_int (arg args 1)) as [n |]; [| discriminate].
    destruct (n <? 0); [discriminate |].
    unfold bind at 1. unfold new_scraper at 1. intros Hrun.
    destruct (run_scraping_saves_its_rows _ w sched
                (mkState [] (trace s)) s' eq_refl Hrun)
      as (Hkeys & Hjson & _).
    split; [exact Hkeys |]. intros Ht. apply Hjson. cbn [dwl_type].
    destruct (List.length args =? 2)%nat eqn:E2; [now left |].
    right. f_equal. apply Nat.leb_le in H2. apply Nat.eqb_neq in E2.
    destruct Ht as [Ht | Ht]; [lia | exact Ht].
  - unfold bind at 1. unfold new_scraper at 1. intros Hrun.
    destruct (run_scraping_saves_its_rows _ w sched
                (mkState [] (trace s)) s' eq_refl Hrun)
      as (Hkeys & Hjson & _).
    split; [exact Hkeys |]. intros _. apply Hjson. now left.
Qed.

Lemma main_saves_a_record_per_collected_row_witness :
  exists s',
    main Main.ascii_int Sample.world_ok Sample.in_order ["main.py"; "2"]
      (mkState [[("title", PyStr "left over")]] []) = (Ok tt, s')
    /\ List.length (data s') = 2%nat
    /\ Forall (fun r => map fst r = row_keys) (data s')
    /\ exists before objects,
         trace s'
         = before ++ [EvWriteDataset
                        "/repo/dataset/IMDb_Popularity_Video_Games_Dataset.json"
                        (JsonRecords objects);
                      EvPrint Plain "Scraping completed"]
         /\ List.length objects = List.length (data s')
         /\ Forall (fun o => map fst o = row_keys) objects.
Proof.
  exists (snd (main Main.ascii_int Sample.world_ok Sample.in_order
                 ["main.py"; "2"] (mkState [[("title", PyStr "left over")]] []))).
  assert (Hrun : main Main.ascii_int Sample.world_ok Sample.in_order
                   ["main.py"; "2"] (mkState [[("title", PyStr "left over")]] [])
                 = (Ok tt,
                    snd (main Main.ascii_int Sample.world_ok Sample.in_order
                           ["main.py"; "2"]
                           (mkState [[("title", PyStr "left over")]] []))))
    by (vm_compute; reflexivity).
  split; [exact Hrun |]. split; [vm_compute; reflexivity |].
  destruct (main_saves_a_record_per_collected_row Main.ascii_int Sample.world_ok
              Sample.in_order ["main.py"; "2"] _ _ Hrun)
    as (Hkeys & Hjson).
  split; [exact Hkeys |]. apply Hjson. left. simpl. lia.
Defined.


(* ===================================================================== *)
(** * A title link without a string URL                                   *)
(* ===================================================================== *)

Lemma firsts_of_combine {A B} (a : list A) (b : list B) :
  (List.length a <= List.length b)%nat -> map fst (combine a b) = a.
Proof.
  revert b. induction a as [| x a IH]; intros [| y b] H; simpl in *;
    try lia; [reflexivity | reflexivity |].
  f_equal. apply IH. lia.
Qed.

Lemma length_batches {A} (l : list A) (bs : nat) :
  List.length (batches l bs) = ((List.length l + bs - 1) / bs)%nat.
Proof. rewrite Batches.batches_chunks. apply Batches.length_chunks. Qed.

(** The loop over the batches stops with a [TypeError] at the first batch
    in which a title URL is not a string: [', '.join] refuses it. *)
Lemma batch_loop_stops_at_non_string (self : scraper) (w : World)
    (sched : schedule) (last : nat) (zipped : list (list pyval * list string))
    (i : nat) (s : state) :
  Exists (fun tr => forallb is_str (fst tr) = false) zipped ->
  exists s', batch_loop self w sched last i zipped s = (Raise (Error TypeError), s').
Proof.
  intros Hex. revert i s.
  induction zipped as [| [tb rb] rest IH]; intros i s; [inversion Hex |].
  cbn [batch_loop]. unfold print_titles.
  destruct (forallb is_str tb) eqn:Hall.
  - assert (Hrest : Exists (fun tr => forallb is_str (fst tr) = false) rest).
    { inversion Hex as [? ? H | ? ? H]; subst; [| exact H].
      cbn [fst] in H. congruence. }
    unfold bind at 1. unfold print at 1, emit at 1.
    unfold bind at 1.
    match goal with |- context [run_pool self w sched ?j ?st] =>
      destruct (run_pool_returns self w sched j st) as (s1 & ->)
    end.
    unfold bind at 1. unfold print at 1, emit at 1.
    unfold bind at 1.
    destruct (i =? last)%nat; unfold ret, emit; apply IH; exact Hrest.
  - eexists. unfold bind, raise. reflexivity.
Qed.

Lemma trace_of_adds {A} (k : nat) (P : event -> Prop) (E : exn -> Prop)
    (m : M A) (s : state) :
  adds k P E m ->
  exists evs, trace (snd (m s)) = trace s ++ evs /\ Forall P evs.
Proof.
  intros H. destruct (H s) as (rows & evs & Es & _ & F & _).
  exists evs. now rewrite Es.
Qed.

(** Whatever the schedule, the loop over the batches writes no dataset
    file. *)
Lemma batch_loop_no_dataset (self : scraper) (w : World) (sched : schedule)
    (last : nat) (zipped : list (list pyval * list string)) (i : nat) :
  adds (list_sum (map (fun tr => List.length (sched (zip_batch tr))) zipped))
       no_dataset no_exit
       (batch_loop self w sched last i zipped).
Proof.
  revert i. induction zipped as [| [title_batch ranking_batch] rest IH];
    intros i; cbn [batch_loop map list_sum].
  - apply Frame.adds_ret.
  - apply Frame.adds_bind_right; [apply Frame.print_titles_adds | intros _].
    apply Frame.adds_bind; [apply Frame.run_pool_adds | intros _].
    apply Frame.adds_bind_right; [apply Frame.adds_print; exact I | intros _].
    apply Frame.adds_bind_right; [| intros _; apply IH].
    apply Frame.adds_if; [apply Frame.adds_ret | apply Frame.adds_emit; exact I].
Qed.

Lemma collect_rows_no_dataset (self : scraper) (w : World) (sched : schedule)
    (s : state) :
  exists evs,
    trace (snd (collect_rows self w sched s)) = trace s ++ evs
    /\ Forall no_dataset evs.
Proof.
  unfold collect_rows. unfold bind at 1.
  destruct (trace_of_adds 0 no_dataset (fun _ => True)
              (scrap_adv_search_page (self_n self) (search_page w)) s)
    as (evs0 & E0 & F0).
  { apply Frame.scrap_adv_search_page_adds; intros; exact I. }
  destruct (scrap_adv_search_page (self_n self) (search_page w) s)
    as [[d | e] s1]; cbn [snd] in E0; [| exists evs0; auto].
  destruct (titles_url d) as [| u us]; [exists evs0; auto |].
  match goal with |- context [bind ?pre (fun _ => batch_loop self w sched ?l 0 ?z)] =>
    destruct (trace_of_adds
                (list_sum (map (fun tr => List.length (sched (zip_batch tr))) z))
                no_dataset no_exit
                (bind pre (fun _ => batch_loop self w sched l 0%nat z)) s1)
      as (evs1 & E1 & F1)
  end.
  { apply Frame.adds_bind_right; [| intros _; apply batch_loop_no_dataset].
    apply Frame.adds_if; [| apply Frame.adds_ret].
    apply Frame.adds_bind0; [apply Frame.adds_print; exact I | intros _].
    apply Frame.adds_bind0; [apply Frame.adds_print; exact I | intros _].
    apply Frame.adds_print; exact I. }
  exists (evs0 ++ evs1). rewrite E1, E0, app_assoc.
  split; [reflexivity | now apply Forall_app].
Qed.

(** X24: a title link without a string URL ([get_attribute] gave [None])
    among the titles that the search returned, each of which has a
    ranking, stops the run with a [TypeError] when its batch is announced:
    nothing is saved, also not the rows of the batches before. *)
Theorem title_without_url_aborts_the_run (self : scraper) (w : World)
    (sched : schedule) (s s1 : state) (d : SearchData) (v : pyval) :
  scrap_adv_search_page (self_n self) (search_page w) s = (Ok d, s1) ->
  In v (titles_url d) ->
  is_str v = false ->
  (List.length (titles_url d) <= List.length (rankings d))%nat ->
  exists s' evs,
    run_scraping self w sched s = (Raise (Error TypeError), s')
    /\ trace s' = trace s ++ evs
    /\ Forall no_dataset evs.
Proof.
  intros Hsearch Hin Hstr Hlen.
  assert (Hraise : exists s', collect_rows self w sched s
                              = (Raise (Error TypeError), s')).
  { unfold collect_rows. unfold bind at 1. rewrite Hsearch.
    destruct (titles_url d) as [| u us] eqn:Et; [inversion Hin |].
    rewrite <- Et in *.
    set (bs := Nat.min (List.length (titles_url d)) max_threads).
    assert (Hbs : (0 < bs)%nat)
      by (unfold bs, max_threads; rewrite Et; simpl; lia).
    assert (Hex : Exists (fun tr => forallb is_str (fst tr) = false)
                         (combine (batches (titles_url d) bs)
                                  (batches (rankings d) bs))).
    { pose proof (Run.concat_batches (titles_url d) bs Hbs) as Hcat.
      rewrite <- Hcat in Hin. apply in_concat in Hin.
      destruct Hin as (b & Hb & Hvb).
      rewrite <- (firsts_of_combine (batches (titles_url d) bs)
                                    (batches (rankings d) bs)) in Hb.
      - apply in_map_iff in Hb. destruct Hb as (tr & <- & Htr).
        apply Exists_exists. exists tr. split; [exact Htr |].
        destruct (forallb is_str (fst tr)) eqn:Hall; [| reflexivity].
        rewrite forallb_forall in Hall. specialize (Hall v Hvb). congruence.
      - rewrite !length_batches. apply Nat.Div0.div_le_mono. lia. }
    unfold bind at 1.
    destruct (negb _); unfold bind, print, emit;
      apply batch_loop_stops_at_non_string; exact Hex. }
  destruct Hraise as (s' & Hraise).
  destruct (collect_rows_no_dataset self w sched s) as (evs & Es & Hev).
  exists s', evs. rewrite run_scraping_halves, Hraise.
  rewrite Hraise in Es. cbn [snd] in Es.
  split; [reflexivity |]. split; [exact Es | exact Hev].
Qed.

Lemma title_without_url_aborts_the_run_witness :
  let w := {| search_page :=
                {| sp_user_agent := Returned "Mozilla/5.0";
                   sp_get := Returned tt;
                   sp_titles_len := Returned 2%N;
                   sp_click := fun _ => Returned tt;
                   sp_hrefs := ([Sample.url1; PyNone], None);
                   sp_rankings := (["1"; "2"], None) |};
              title_page := title_page Sample.world_ok;
              ratings_page := ratings_page Sample.world_ok;
              parents_page := parents_page Sample.world_ok;
              images_page := images_page Sample.world_ok;
              http_status := http_status Sample.world_ok;
              store_image := store_image Sample.world_ok;
              dataset_dir := "/repo/dataset" |} in
  exists s' evs,
    run_scraping (Sample.scraper_of None None false) w Sample.in_order start
    = (Raise (Error TypeError), s')
    /\ trace s' = trace start ++ evs
    /\ Forall no_dataset evs.
Proof.
  intros w.
  apply (title_without_url_aborts_the_run (Sample.scraper_of None None false) w
           Sample.in_order start
           (snd (scrap_adv_search_page None (search_page w) start))
           {| titles_url := [Sample.url1; PyNone]; rankings := ["1"; "2"] |}
           PyNone).
  - vm_compute. reflexivity.
  - simpl. tauto.
  - reflexivity.
  - simpl. lia.
Defined.
